(** * NextStep: priority scoring, streaks, statistics and session logging

    A shallow embedding of the decision logic of the NextStep study tracker,
    front end by front end:

    - [Cli]: [NextStep_CLI.py] (terminal menu);
    - [Web]: [NextStep_Streamlit.py] (form based dashboard).

    Conventions of the embedding.

    - A calendar date ([datetime.date]) is its proleptic Gregorian ordinal, a
      [Z]; [date - timedelta(days=i)] is [d - i]. A naive [datetime.datetime]
      is a number of microseconds counted from midnight of ordinal 0, also a
      [Z]; [dt.date()] is the floor quotient by the length of a day and
      [(a - b).days] is the floor quotient of the difference. The range limits
      of [datetime] ([date.min], [date.max]) are not modelled, except where
      the user's answer decides how far a date is moved ([minus_days]).
    - The clock is read by the caller: [today] stands for
      [datetime.date.today()] and [now] for [datetime.datetime.now()]. The two
      are independent parameters, as they are independent reads in the source;
      one operation reads each of them once.
    - Python's [float] is IEEE binary64, here Rocq's primitive floats with
      the operations of module [Binary64]: the scores the program computes,
      sorts and compares are [priority_score]. [priority_score_exact] is
      the same loop body read in exact arithmetic (rationals, [Q]): what the
      formulas denote before any rounding. The statistics are integers; the
      one quotient of the summary ([Py.truediv]) is kept exact, and its
      [OverflowError] for a quotient beyond the float range is not modelled.
    - An integer is a [Z]; where the arithmetic converts one to a float
      ([Binary64.float_of_int]) a value beyond the float range raises
      [OverflowError], as in Python.
    - [input()] reads the head of a list of lines; an exhausted list raises
      [EOFError]. [print] and the Streamlit rendering calls are not modelled.
    - Strings are byte strings; [str.strip], [str.lower], [str.title] and
      [int] are modelled on their ASCII fragment; [int] has the limit of
      4300 digits that Python sets by default.
    - A timestamp is kept as the [datetime] it was printed from
      ([str(datetime.now())] and [datetime.fromisoformat] round trip). *)

From Stdlib Require Import ZArith QArith Qminmax Lia Lqa List Bool Ascii String.
From Stdlib Require Import Sorting.Sorted Sorting.Permutation.
From Stdlib Require Import Floats.PrimFloat Floats.SpecFloat Floats.FloatOps.
From Stdlib Require Import Floats.FloatAxioms.
From Stdlib Require Import Numbers.Cyclic.Int63.Uint63.
From stdpp Require Import base decidable option list gmap strings.

Local Open Scope Z_scope.

(** * Part I: the program *)

(** ** Dates and times *)

Module Datetime.

Definition date := Z.
Definition datetime := Z.

(** Microseconds in a day. *)
Definition day_us : Z := 86400000000.

(** [dt.date()]. *)
Definition date_of (dt : datetime) : date := dt / day_us.

(** [timedelta(days=n)] as a number of microseconds. *)
Definition timedelta_days (n : Z) : Z := n * day_us.

(** [(a - b).days]: a [timedelta] is normalised so that its seconds and
    microseconds are non-negative, hence the floor. *)
Definition delta_days (a b : datetime) : Z := (a - b) / day_us.

(** [datetime.combine(d, t)] for a time of day of [us] microseconds. *)
Definition at_time (d : date) (us : Z) : datetime := d * day_us + us.

End Datetime.
Export Datetime.

(** The limits of [datetime], used where the user's input decides how far a
    date is moved: [datetime.min] is midnight of ordinal 1, [datetime.max]
    is the last microsecond of ordinal 3652059, and a [timedelta] holds at
    most 999999999 days. *)
Definition datetime_min : datetime := at_time 1 0.

Definition datetime_end : datetime := at_time 3652060 0.

(** [dt - timedelta(days=n)]: [None] stands for the [OverflowError] of a
    [timedelta] or a result out of range. *)
Definition minus_days (dt : datetime) (n : Z) : option datetime :=
  if Z.abs n <=? 999999999
  then
    let r := dt - timedelta_days n in
    if (datetime_min <=? r) && (r <? datetime_end) then Some r else None
  else None.

(** ** Data model *)

(** One value of the [subjects] dictionary: [{"confidence": .., "exam_date": ..}].
    [None] stands for a Python [None] as well as for a missing key, which is
    what [data.get(..)] makes of both. *)
Record subject_data := SubjectData {
  confidence : option Z;
  exam_date : option date;
}.

(** The [subjects] dictionary. Python dictionaries iterate in insertion order,
    and the ranking depends on it, so the store is an association list (with
    one pair per key). *)
Abbreviation subject_store := (list (string * subject_data)).

(** One entry of [session_log]. *)
Record session := Session {
  subject : string;
  timestamp : datetime;
  task_type : string;
  duration_mins : Z;
  effectiveness : option Z;     (* read with [entry.get("effectiveness", 0)] *)
}.

Abbreviation sessions := (list session).

#[global] Instance subject_data_eq_dec : EqDecision subject_data.
Proof. solve_decision. Defined.

#[global] Instance session_eq_dec : EqDecision session.
Proof. solve_decision. Defined.

(** [subject in subjects]. *)
Definition store_mem (subj : string) (subjects : subject_store) : bool :=
  existsb (fun kv => String.eqb (fst kv) subj) subjects.

(** [subjects[subj]["confidence"] = v]. *)
Definition store_set_confidence (subj : string) (v : Z) (subjects : subject_store)
  : subject_store :=
  map (fun kv =>
         if String.eqb (fst kv) subj
         then (fst kv, SubjectData (Some v) (exam_date (snd kv)))
         else kv) subjects.

(** [subjects[subj]["exam_date"] = d]. *)
Definition store_set_exam_date (subj : string) (d : date) (subjects : subject_store)
  : subject_store :=
  map (fun kv =>
         if String.eqb (fst kv) subj
         then (fst kv, SubjectData (confidence (snd kv)) (Some d))
         else kv) subjects.

(** [del subjects[subj]]. *)
Definition store_delete (subj : string) (subjects : subject_store) : subject_store :=
  List.filter (fun kv => negb (String.eqb (fst kv) subj)) subjects.

(** ** Python built-ins used by the front ends *)

Module Py.

(** Exceptions the modelled code can raise. *)
Inductive exn :=
| EOFError            (* [input()] at the end of the input *)
| ValueError          (* [int(..)] of a string that is no number *)
| IndexError          (* [l[0]] of an empty list *)
| TypeError           (* arithmetic on [None] *)
| ZeroDivisionError   (* [a / 0] *)
| OverflowError       (* an integer too large for a float, a date out of range *)
| KeyError.           (* [d[k]] for a key that [d] does not have *)

Inductive result (A : Type) :=
| Return (a : A)
| Raise (e : exn).
Arguments Return {A} a.
Arguments Raise {A} e.

Definition is_space (c : ascii) : bool :=
  let n := nat_of_ascii c in
  ((9 <=? n)%nat && (n <=? 13)%nat) || ((28 <=? n)%nat && (n <=? 32)%nat).

Definition is_upper (c : ascii) : bool :=
  let n := nat_of_ascii c in (65 <=? n)%nat && (n <=? 90)%nat.

Definition is_lower (c : ascii) : bool :=
  let n := nat_of_ascii c in (97 <=? n)%nat && (n <=? 122)%nat.

Definition is_digit (c : ascii) : bool :=
  let n := nat_of_ascii c in (48 <=? n)%nat && (n <=? 57)%nat.

Definition to_lower (c : ascii) : ascii :=
  if is_upper c then ascii_of_nat (nat_of_ascii c + 32) else c.

Definition to_upper (c : ascii) : ascii :=
  if is_lower c then ascii_of_nat (nat_of_ascii c - 32) else c.

Fixpoint lstrip (s : string) : string :=
  match s with
  | String c rest => if is_space c then lstrip rest else s
  | EmptyString => EmptyString
  end.

Fixpoint rstrip (s : string) : string :=
  match s with
  | String c rest =>
      match rstrip rest with
      | EmptyString => if is_space c then EmptyString else String c EmptyString
      | rest' => String c rest'
      end
  | EmptyString => EmptyString
  end.

(** [s.strip()]. *)
Definition strip (s : string) : string := rstrip (lstrip s).

(** [s.lower()]. *)
Fixpoint lower (s : string) : string :=
  match s with
  | String c rest => String (to_lower c) (lower rest)
  | EmptyString => EmptyString
  end.

(** [s.title()]: a letter that follows a letter is lowered, any other
    letter is raised. *)
Fixpoint title_from (after_letter : bool) (s : string) : string :=
  match s with
  | String c rest =>
      if is_upper c || is_lower c
      then String (if after_letter then to_lower c else to_upper c) (title_from true rest)
      else String c (title_from false rest)
  | EmptyString => EmptyString
  end.

Definition title (s : string) : string := title_from false s.

(** The digits of [int(s)]: decimal digits, with single underscores between
    digits allowed. *)
Fixpoint int_digits (s : string) (acc : Z) (after_digit : bool) : option Z :=
  match s with
  | EmptyString => if after_digit then Some acc else None
  | String c rest =>
      if is_digit c
      then int_digits rest (10 * acc + Z.of_nat (nat_of_ascii c - 48)) true
      else if Ascii.eqb c "_" && after_digit then int_digits rest acc false
      else None
  end.

(** The whitespace [int] skips around the number: the [isspace] of C (tab
    to carriage return, and the space). The separators 28 to 31, which
    [str.strip] removes, are left in place and make the text no number. *)
Definition is_c_space (c : ascii) : bool :=
  let n := nat_of_ascii c in ((9 <=? n)%nat && (n <=? 13)%nat) || (n =? 32)%nat.

Fixpoint skip_spaces (s : string) : string :=
  match s with
  | String c rest => if is_c_space c then skip_spaces rest else s
  | EmptyString => EmptyString
  end.

Fixpoint drop_spaces_at_end (s : string) : string :=
  match s with
  | String c rest =>
      match drop_spaces_at_end rest with
      | EmptyString => if is_c_space c then EmptyString else String c EmptyString
      | rest' => String c rest'
      end
  | EmptyString => EmptyString
  end.

(** The number of decimal digits of a text. *)
Fixpoint count_digits (s : string) : Z :=
  match s with
  | String c rest => (if is_digit c then 1 else 0) + count_digits rest
  | EmptyString => 0
  end.

(** [sys.get_int_max_str_digits()], by default. *)
Definition int_max_str_digits : Z := 4300.

(** [int(s)]: [None] stands for [ValueError], also the one of a text with
    more digits than the limit. *)
Definition int (s : string) : option Z :=
  let t := drop_spaces_at_end (skip_spaces s) in
  if int_max_str_digits <? count_digits t then None
  else
    match t with
    | String "-" rest => Z.opp <$> int_digits rest 0 false
    | String "+" rest => int_digits rest 0 false
    | _ => int_digits t 0 false
    end.

(** [max(a, b)] on numbers: the first argument unless the second is
    strictly greater. *)
Definition max (a b : Q) : Q := if Qlt_le_dec a b then b else a.

(** [a / b] on integers (true division), exact; a quotient beyond the float
    range, which raises [OverflowError], is not told apart. *)
Definition truediv (a b : Z) : result Q :=
  if b =? 0 then Raise ZeroDivisionError else Return (inject_Z a / inject_Z b)%Q.

End Py.

Import Py (exn(..), result(..)).

(** ** Calendar dates, as [datetime.date] and [strptime] read them *)

Module Calendar.

Definition is_leap (y : Z) : bool :=
  (y mod 4 =? 0) && (negb (y mod 100 =? 0) || (y mod 400 =? 0)).

Definition days_in_month (y m : Z) : Z :=
  if m =? 2 then (if is_leap y then 29 else 28)
  else if (m =? 4) || (m =? 6) || (m =? 9) || (m =? 11) then 30
  else 31.

(** The days of the year before the first of month [m]. *)
Definition days_before_month (y m : Z) : Z :=
  fold_left Z.add
    (map (fun k : nat => days_in_month y (Z.of_nat (S k))) (seq 0 (Z.to_nat (m - 1)))) 0.

(** The days before the first of January of year [y]. *)
Definition days_before_year (y : Z) : Z :=
  (y - 1) * 365 + (y - 1) / 4 - (y - 1) / 100 + (y - 1) / 400.

(** [date(y, m, d)] as an ordinal; [None] stands for [ValueError]. *)
Definition date_of_ymd (y m d : Z) : option date :=
  if (1 <=? y) && (y <=? 9999) && (1 <=? m) && (m <=? 12)
     && (1 <=? d) && (d <=? days_in_month y m)
  then Some (days_before_year y + days_before_month y m + d)
  else None.

(** The text before the first ["/"], and the text after it if there is one. *)
Fixpoint split_slash (s : string) : string * option string :=
  match s with
  | EmptyString => (EmptyString, None)
  | String c rest =>
      if Ascii.eqb c "/" then (EmptyString, Some rest)
      else let '(field, more) := split_slash rest in (String c field, more)
  end.

Definition digit_value (c : ascii) : Z := Z.of_nat (nat_of_ascii c - 48).

(** The directive [%d]: [3[0-1]], [[1-2]\d], [0[1-9]], [[1-9]], or a space
    and [[1-9]]. *)
Definition field_day (s : string) : option Z :=
  match s with
  | String a EmptyString =>
      if Py.is_digit a && negb (Ascii.eqb a "0") then Some (digit_value a) else None
  | String a (String b EmptyString) =>
      if Py.is_digit b
      then
        if Ascii.eqb a "3" then (if digit_value b <=? 1 then Some (30 + digit_value b) else None)
        else if Ascii.eqb a "1" || Ascii.eqb a "2" then Some (10 * digit_value a + digit_value b)
        else if Ascii.eqb a "0" || Ascii.eqb a " "
        then (if Ascii.eqb b "0" then None else Some (digit_value b))
        else None
      else None
  | _ => None
  end.

(** The directive [%m]: [1[0-2]], [0[1-9]] or [[1-9]]. *)
Definition field_month (s : string) : option Z :=
  match s with
  | String a EmptyString =>
      if Py.is_digit a && negb (Ascii.eqb a "0") then Some (digit_value a) else None
  | String a (String b EmptyString) =>
      if Py.is_digit b
      then
        if Ascii.eqb a "1" then (if digit_value b <=? 2 then Some (10 + digit_value b) else None)
        else if Ascii.eqb a "0"
        then (if Ascii.eqb b "0" then None else Some (digit_value b))
        else None
      else None
  | _ => None
  end.

(** The directive [%Y]: four digits. *)
Definition field_year (s : string) : option Z :=
  match s with
  | String a (String b (String c (String d EmptyString))) =>
      if Py.is_digit a && Py.is_digit b && Py.is_digit c && Py.is_digit d
      then Some (1000 * digit_value a + 100 * digit_value b
                 + 10 * digit_value c + digit_value d)
      else None
  | _ => None
  end.

(** [datetime.strptime(s, "%d/%m/%Y").date()] on ASCII digits; [None]
    stands for [ValueError]. *)
Definition strptime_dmy (s : string) : option date :=
  match split_slash s with
  | (day, Some rest) =>
      match split_slash rest with
      | (month, Some year) =>
          match field_day day, field_month month, field_year year with
          | Some d, Some m, Some y => date_of_ymd y m d
          | _, _, _ => None
          end
      | _ => None
      end
  | _ => None
  end.

End Calendar.

(** ** State and input *)

(** What a front end operation works on: the [subjects] dictionary, the
    global [session_log], and the lines still to be read by [input()]. *)
Record world := World {
  subjects : subject_store;
  log : sessions;
  stdin : list string;
}.

Definition io (A : Type) : Type := world -> result A * world.

Definition ret {A} (a : A) : io A := fun w => (Return a, w).

Definition raise {A} (e : exn) : io A := fun w => (Raise e, w).

Definition bind {A B} (m : io A) (k : A -> io B) : io B :=
  fun w =>
    match m w with
    | (Return a, w') => k a w'
    | (Raise e, w') => (Raise e, w')
    end.

Declare Scope io_scope.
Delimit Scope io_scope with io.
Notation "x <- m ;; k" := (bind m (fun x => k))
  (at level 100, m at next level, k at level 200, right associativity) : io_scope.
Notation "m ;;; k" := (bind m (fun _ => k))
  (at level 100, k at level 200, right associativity) : io_scope.

Definition get_subjects : io subject_store := fun w => (Return (subjects w), w).

Definition get_log : io sessions := fun w => (Return (log w), w).

(** A reader of input lines, run on [stdin]. *)
Definition reading {A} (f : list string -> result A * list string) : io A :=
  fun w =>
    let '(r, rest) := f (stdin w) in
    (r, World (subjects w) (log w) rest).

(** [input(..)]. *)
Definition input_line (lines : list string) : result string * list string :=
  match lines with
  | [] => (Raise EOFError, [])
  | l :: rest => (Return l, rest)
  end.

(** [subjects[subj]["confidence"] = v]. *)
Definition set_confidence (subj : string) (v : Z) : io unit :=
  fun w => (Return tt, World (store_set_confidence subj v (subjects w)) (log w) (stdin w)).

(** [subjects[subj]["exam_date"] = d]. *)
Definition set_exam_date (subj : string) (d : date) : io unit :=
  fun w => (Return tt, World (store_set_exam_date subj d (subjects w)) (log w) (stdin w)).

(** [session_log.append(entry)]. *)
Definition append_session (entry : session) : io unit :=
  fun w => (Return tt, World (subjects w) (log w ++ [entry]) (stdin w)).

(** ** Shared shapes *)

(** [sum(..)] over integers. *)
Definition py_sum (l : list Z) : Z := fold_left Z.add l 0.

(** The set [dates_studied]: the date of every timestamp of the log. *)
Definition dates_studied (session_log : sessions) : gset date :=
  list_to_set (map (fun entry => date_of (timestamp entry)) session_log).

(** One value of [subject_stats]; [zero_stats] is what the [defaultdict]
    makes for a new key. *)
Record stats := Stats {
  count : Z;
  total_time : Z;
  total_rating : Z;
}.

Definition zero_stats : stats := Stats 0 0 0.

(** The three [+=] of the statistics loop on one value. *)
Definition add_entry (entry : session) (st : stats) : stats :=
  Stats (count st + 1)
        (total_time st + duration_mins entry)
        (total_rating st + default 0 (effectiveness entry)).

(** [subject_stats[subj]] updated for one entry; a new key goes last, as in
    a dictionary. *)
Fixpoint stats_update (entry : session) (table : list (string * stats))
  : list (string * stats) :=
  match table with
  | [] => [(subject entry, add_entry entry zero_stats)]
  | (k, st) :: rest =>
      if String.eqb k (subject entry)
      then (k, add_entry entry st) :: rest
      else (k, st) :: stats_update entry rest
  end.

(** The loop [for entry in log] over [subject_stats]. *)
Definition subject_stats (session_log : sessions) : list (string * stats) :=
  fold_left (fun table entry => stats_update entry table) session_log [].

(** [subject_stats[subj]], if the key is there. *)
Definition stats_of (table : list (string * stats)) (subj : string) : option stats :=
  snd <$> find (fun kv => String.eqb (fst kv) subj) table.

(** One line of the subject breakdown. *)
Record summary_row := Row {
  row_subject : string;
  row_count : Z;
  row_time : Z;
  row_avg : Q;
}.

(** The guard of Instant Mode on one subject:
    [data.get("exam_date") and data.get("confidence")] as a truth value. A
    date is always true, an integer is true unless it is 0. *)
Definition configured (data : subject_data) : bool :=
  match exam_date data, confidence data with
  | Some _, Some c => negb (c =? 0)
  | _, _ => false
  end.

(** [all(.. for data in subjects.values())]. *)
Definition all_configured (subjects : subject_store) : bool :=
  forallb (fun kv => configured (snd kv)) subjects.

(** ** Binary64 arithmetic

    The float operations of the scoring loop, on Rocq's primitive floats
    (IEEE binary64, round to nearest even, as Python's [float]). *)

Module Binary64.

(** [float(n)] for an integer below [2^63] in absolute value. *)
Definition of_Z (n : Z) : float :=
  if n <? 0 then PrimFloat.opp (PrimFloat.of_uint63 (Uint63.of_Z (- n)))
  else PrimFloat.of_uint63 (Uint63.of_Z n).

(** [max(days_left, 0.1)]: for an integer [days_left], [0.1 > days_left]
    is [days_left <= 0]; the integer is converted by the division. *)
Definition max_tenth (days_left : Z) : float :=
  if days_left <=? 0 then 0x1.999999999999ap-4%float else of_Z days_left.

(** [1 / max(days_left, 0.1)]. [days_left] is a difference of two dates,
    far below [2^53], where the quotient of the integers is the quotient of
    the floats. *)
Definition urgency (days_left : Z) : float :=
  PrimFloat.div 1%float (max_tenth days_left).

(** An integer operand of a float operation, converted as Python does it:
    the nearest float, ties to even, and [OverflowError] when the integer
    is beyond the range of the finite floats. Below [2^63] in absolute
    value this is the primitive conversion. *)
Definition float_of_int (n : Z) : result float :=
  if Z.abs n <? 2 ^ 63 then Return (of_Z n)
  else
    let f := SF2Prim (binary_normalize prec emax n 0 false) in
    if PrimFloat.is_finite f then Return f else Raise OverflowError.

(** [n * x] for an integer [n] and a float [x]. *)
Definition int_mul (n : Z) (x : float) : result float :=
  match float_of_int n with
  | Return f => Return (PrimFloat.mul f x)
  | Raise e => Raise e
  end.

(** [x + n] for a float [x] and an integer [n]. *)
Definition add_int (x : float) (n : Z) : result float :=
  match float_of_int n with
  | Return f => Return (PrimFloat.add x f)
  | Raise e => Raise e
  end.

End Binary64.

(** [subject_priorities.sort(key=lambda x: x[1], reverse=True)]: [list.sort]
    compares the scores with [<] on floats; it is stable, and with
    [reverse=True] pairs of equal score still keep their order.
    [insert_desc x l] puts [x], which stood before all of [l], in front of
    the first pair whose score is not greater. (A score is never a NaN, see
    [cli_score_is_a_number] and [web_score_is_a_number], so [<] orders the
    scores and every stable sort returns this list.) *)
Fixpoint insert_desc (x : string * float) (l : list (string * float))
  : list (string * float) :=
  match l with
  | [] => [x]
  | y :: rest =>
      if PrimFloat.ltb (snd x) (snd y) then y :: insert_desc x rest else x :: l
  end.

Fixpoint sort_desc (l : list (string * float)) : list (string * float) :=
  match l with
  | [] => []
  | x :: rest => insert_desc x (sort_desc rest)
  end.

(** [for subj, data in subjects.items(): .. append((subj, priority_score))],
    for a score that may raise. *)
Fixpoint for_each_subject (score : string -> subject_data -> result float)
    (subjects : subject_store) : result (list (string * float)) :=
  match subjects with
  | [] => Return []
  | (subj, data) :: rest =>
      match score subj data with
      | Raise e => Raise e
      | Return priority_score =>
          match for_each_subject score rest with
          | Raise e => Raise e
          | Return subject_priorities => Return ((subj, priority_score) :: subject_priorities)
          end
      end
  end.

(** ** The terminal front end: [NextStep_CLI.py] *)

Module Cli.

(** [for i in range(100)] of [calculate_streak], at index [i] with [fuel]
    indices to go. *)
Fixpoint streak_for (dates_set : gset date) (today : date)
    (fuel : nat) (i : Z) (streak : nat) : nat :=
  match fuel with
  | O => streak
  | S fuel' =>
      if decide (today - i ∈ dates_set)
      then streak_for dates_set today fuel' (i + 1) (S streak)
      else streak
  end.

Definition calculate_streak (dates_set : gset date) (today : date) : nat :=
  if decide (dates_set = ∅) then O
  else streak_for dates_set today 100 0 O.

(** What [view_summary] prints. *)
Record summary := Summary {
  total_sessions : Z;
  total_minutes : Z;
  rows : list summary_row;
  streak_days : nat;
}.

(** [for subj, stats in subject_stats.items()]: the average is an unguarded
    division. *)
Fixpoint summary_rows (table : list (string * stats)) : result (list summary_row) :=
  match table with
  | [] => Return []
  | (subj, st) :: rest =>
      match Py.truediv (total_rating st) (count st) with
      | Raise e => Raise e
      | Return avg_rating =>
          match summary_rows rest with
          | Raise e => Raise e
          | Return rs => Return (Row subj (count st) (total_time st) avg_rating :: rs)
          end
      end
  end.

(** [view_summary()]; [Return None] is the early return on an empty log. *)
Definition view_summary (session_log : sessions) (today : date)
  : result (option summary) :=
  match session_log with
  | [] => Return None
  | _ =>
      let total_sessions := Z.of_nat (length session_log) in
      let total_time := py_sum (map duration_mins session_log) in
      match summary_rows (subject_stats session_log) with
      | Raise e => Raise e
      | Return rs =>
          Return (Some (Summary total_sessions total_time rs
                          (calculate_streak (dates_studied session_log) today)))
      end
  end.

Definition recent_session_count (session_log : sessions) (now : datetime)
    (subj : string) (days : Z) : Z :=
  let cutoff := now - timedelta_days days in
  py_sum (map (fun _ => 1)
            (List.filter (fun entry => String.eqb (subject entry) subj
                                       && (cutoff <=? timestamp entry))
               session_log)).

Definition get_days_since_last_session (session_log : sessions) (now : datetime)
    (subj : string) : option Z :=
  let relevant_sessions :=
    map timestamp (List.filter (fun entry => String.eqb (subject entry) subj) session_log) in
  match relevant_sessions with
  | [] => None
  | t :: ts =>
      let last_session := fold_left Z.max ts t in
      Some (delta_days now last_session)
  end.

(** [while subject not in subjects: subject = input(..).strip().title()]. *)
Fixpoint prompt_subject (subjects : subject_store) (lines : list string)
  : result string * list string :=
  match lines with
  | [] => (Raise EOFError, [])
  | l :: rest =>
      let subj := Py.title (Py.strip l) in
      if store_mem subj subjects then (Return subj, rest)
      else prompt_subject subjects rest
  end.

(** [while True: try: mins = int(input(..)); break / except ValueError]. *)
Fixpoint prompt_int (lines : list string) : result Z * list string :=
  match lines with
  | [] => (Raise EOFError, [])
  | l :: rest =>
      match Py.int l with
      | Some n => (Return n, rest)
      | None => prompt_int rest
      end
  end.

(** The effectiveness prompt: asked again until a number from 1 to 10. *)
Fixpoint prompt_effectiveness (lines : list string) : result Z * list string :=
  match lines with
  | [] => (Raise EOFError, [])
  | l :: rest =>
      match Py.int l with
      | Some n => if (1 <=? n) && (n <=? 10) then (Return n, rest)
                  else prompt_effectiveness rest
      | None => prompt_effectiveness rest
      end
  end.

(** The confidence update of [manual_log_session]: a blank answer, a value
    out of range and an answer that is no number all leave the store as it
    is. *)
Definition update_confidence (subj new_conf : string) : io unit :=
  if decide (new_conf = EmptyString) then ret tt
  else
    match Py.int new_conf with
    | Some conf_val =>
        if (1 <=? conf_val) && (conf_val <=? 10)
        then set_confidence subj conf_val
        else ret tt                         (* "Invalid confidence value, ignored." *)
    | None => ret tt                        (* "Invalid confidence value, ignored." *)
    end.

Definition manual_log_session (now : datetime) : io session :=
  (subjects <- get_subjects ;;
   subj <- reading (prompt_subject subjects) ;;
   mins <- reading prompt_int ;;
   task <- reading input_line ;;
   eff <- reading prompt_effectiveness ;;
   new_conf <- reading input_line ;;
   update_confidence subj (Py.strip new_conf) ;;;
   let entry := Session subj now task mins (Some eff) in
   append_session entry ;;;
   ret entry)%io.

(** The energy prompt of [instant_mode]. *)
Fixpoint prompt_energy (lines : list string) : result string * list string :=
  match lines with
  | [] => (Raise EOFError, [])
  | l :: rest =>
      let energy := Py.lower (Py.strip l) in
      if existsb (String.eqb energy) ["low"; "medium"; "high"]%string
      then (Return energy, rest)
      else prompt_energy rest
  end.

(** The body of the scoring loop for one subject, read in exact arithmetic:
    the value of the formulas before any rounding. *)
Definition priority_score_exact (session_log : sessions) (today : date) (now : datetime)
    (subj : string) (data : subject_data) : result Q :=
  match exam_date data, confidence data with
  | Some exam, Some stored_conf =>
      let days_left := exam - today in
      let urgency := (1 / Py.max (inject_Z days_left) (1 # 10))%Q in
      let days_since := get_days_since_last_session session_log now subj in
      let adjusted_conf :=
        match days_since with
        | Some d =>
            let decay := Z.min (d / 7) 3 in
            Z.max 1 (stored_conf - decay)
        | None => stored_conf
        end in
      let difficulty := 11 - adjusted_conf in
      let recent := recent_session_count session_log now subj 7 in
      let repetition_penalty := (inject_Z recent * (1 # 2))%Q in
      Return ((urgency * (3 # 2)) + inject_Z difficulty - repetition_penalty)%Q
  | _, _ => Raise TypeError
  end.

(** The body of the scoring loop for one subject as the program runs it, on
    floats: [recent * 0.5] and [(urgency * 1.5) + difficulty] convert their
    integer operand, and the three operations round. *)
Definition priority_score (session_log : sessions) (today : date) (now : datetime)
    (subj : string) (data : subject_data) : result float :=
  match exam_date data, confidence data with
  | Some exam, Some stored_conf =>
      let days_left := exam - today in
      let urgency := Binary64.urgency days_left in
      let days_since := get_days_since_last_session session_log now subj in
      let adjusted_conf :=
        match days_since with
        | Some d =>
            let decay := Z.min (d / 7) 3 in
            Z.max 1 (stored_conf - decay)
        | None => stored_conf
        end in
      let difficulty := 11 - adjusted_conf in
      let recent := recent_session_count session_log now subj 7 in
      match Binary64.int_mul recent 0.5%float with
      | Raise e => Raise e
      | Return repetition_penalty =>
          match Binary64.add_int (PrimFloat.mul urgency 1.5%float) difficulty with
          | Raise e => Raise e
          | Return sum => Return (PrimFloat.sub sum repetition_penalty)
          end
      end
  | _, _ => Raise TypeError
  end.

(** [subject_priorities] after the sort. *)
Definition ranking (subjects : subject_store) (session_log : sessions)
    (today : date) (now : datetime) : result (list (string * float)) :=
  match for_each_subject (priority_score session_log today now) subjects with
  | Raise e => Raise e
  | Return subject_priorities => Return (sort_desc subject_priorities)
  end.

(** [for subj, score in subject_priorities: .. if response == "yes": .. break]:
    [Some subj] for the subject taken, [None] when the list ran out. *)
Fixpoint offer (subject_priorities : list (string * float)) (lines : list string)
  : result (option string) * list string :=
  match subject_priorities with
  | [] => (Return None, lines)
  | (subj, _) :: rest =>
      match lines with
      | [] => (Raise EOFError, [])
      | l :: lines' =>
          if String.eqb (Py.lower (Py.strip l)) "yes"
          then (Return (Some subj), lines')
          else offer rest lines'
      end
  end.

(** [if not chosen_subject: chosen_subject = subject_priorities[0][0]]. The
    test is on the truth value: [None] and the empty string both fail it. *)
Definition fallback (subject_priorities : list (string * float))
    (chosen_subject : option string) : result string :=
  match chosen_subject with
  | Some subj =>
      if decide (subj = EmptyString)
      then match subject_priorities with
           | [] => Raise IndexError
           | (top, _) :: _ => Return top
           end
      else Return subj
  | None =>
      match subject_priorities with
      | [] => Raise IndexError
      | (top, _) :: _ => Return top
      end
  end.

(** The selection step: offer in ranked order, then fall back. *)
Definition choose (subject_priorities : list (string * float)) (lines : list string)
  : result string * list string :=
  match offer subject_priorities lines with
  | (Return chosen_subject, rest) => (fallback subject_priorities chosen_subject, rest)
  | (Raise e, rest) => (Raise e, rest)
  end.

Definition suggested_task (energy : string) : string :=
  if String.eqb energy "low" then "Flashcards or Light Revision"
  else if String.eqb energy "medium" then "Practice Questions or Diagrams"
  else "Essays or Full Past Paper Sections".

(** How [instant_mode] ends when it raises nothing. *)
Inductive instant_outcome :=
| NotConfigured                   (* the warning of the guard, then [return] *)
| Logged (chosen_subject : string) (entry : session)
| NotLogged (chosen_subject : string).

Definition lift {A} (r : result A) : io A :=
  match r with
  | Return a => ret a
  | Raise e => raise e
  end.

(** [int(s)] as an expression: raises [ValueError]. *)
Definition int_or_raise (s : string) : io Z :=
  match Py.int s with
  | Some n => ret n
  | None => raise ValueError
  end.

Definition instant_mode (today : date) (now : datetime) : io instant_outcome :=
  (subjects <- get_subjects ;;
   if negb (all_configured subjects) then ret NotConfigured
   else
     mins <- reading prompt_int ;;
     energy <- reading prompt_energy ;;
     session_log <- get_log ;;
     subject_priorities <- lift (ranking subjects session_log today now) ;;
     chosen_subject <- reading (choose subject_priorities) ;;
     let task := suggested_task energy in
     completed <- reading input_line ;;
     if String.eqb (Py.lower (Py.strip completed)) "yes" then
       rating <- reading input_line ;;
       new_conf <- reading input_line ;;
       (if decide (Py.strip new_conf = EmptyString) then ret tt
        else conf_val <- int_or_raise new_conf ;;
             set_confidence chosen_subject conf_val) ;;;
       eff <- int_or_raise rating ;;
       let entry := Session chosen_subject now task mins (Some eff) in
       append_session entry ;;;
       ret (Logged chosen_subject entry)
     else ret (NotLogged chosen_subject))%io.

(** How [view_sessions] ends when it raises nothing. *)
Inductive view_outcome :=
| NoSessions                          (* "No sessions logged yet." *)
| NoMatch                             (* "No sessions match your filters." *)
| Shown (filtered : list session).    (* the sessions printed, in this order *)

(** [for i, entry in enumerate(filtered, 1): .. print(.. entry['effectiveness'])]:
    the subscript raises [KeyError] at the first entry that has no
    effectiveness (the entries before it have been printed). *)
Fixpoint print_sessions (filtered : list session) : result unit :=
  match filtered with
  | [] => Return tt
  | entry :: rest =>
      match effectiveness entry with
      | Some _ => print_sessions rest
      | None => Raise KeyError
      end
  end.

(** The end of [view_sessions]: nothing to show, or the printing loop. *)
Definition show (filtered : list session) : result view_outcome :=
  match filtered with
  | [] => Return NoMatch
  | _ =>
      match print_sessions filtered with
      | Return _ => Return (Shown filtered)
      | Raise e => Raise e
      end
  end.

Definition view_sessions (now : datetime) : io view_outcome :=
  (session_log <- get_log ;;
   match session_log with
   | [] => ret NoSessions
   | _ =>
       subject_answer <- reading input_line ;;
       days_answer <- reading input_line ;;
       let filter_subject := Py.title (Py.strip subject_answer) in
       let filter_days := Py.strip days_answer in
       let filtered :=
         if decide (filter_subject = EmptyString) then session_log
         else List.filter (fun s => String.eqb (subject s) filter_subject) session_log in
       if decide (filter_days = EmptyString) then lift (show filtered)
       else
         match Py.int filter_days with
         | Some days =>
             match minus_days now days with
             | Some cutoff =>
                 lift (show (List.filter (fun s => cutoff <=? timestamp s) filtered))
             | None => raise OverflowError      (* of the cutoff, not caught *)
             end
         | None => lift (show filtered)    (* "Invalid number of days. Showing all instead." *)
         end
   end)%io.

(** The confidence prompt of [setup_subjects]: asked again until a number
    from 1 to 10. *)
Fixpoint prompt_confidence (lines : list string) : result Z * list string :=
  match lines with
  | [] => (Raise EOFError, [])
  | l :: rest =>
      match Py.int l with
      | Some conf => if (1 <=? conf) && (conf <=? 10) then (Return conf, rest)
                     else prompt_confidence rest
      | None => prompt_confidence rest
      end
  end.

(** The exam date prompt of [setup_subjects]: asked again until [strptime]
    reads the answer. [strptime] stands for
    [datetime.strptime(.., "%d/%m/%Y").date()], with [None] for its
    [ValueError]. *)
Fixpoint prompt_exam_date (strptime : string -> option date) (lines : list string)
  : result date * list string :=
  match lines with
  | [] => (Raise EOFError, [])
  | l :: rest =>
      match strptime l with
      | Some exam => (Return exam, rest)
      | None => prompt_exam_date strptime rest
      end
  end.

(** [for subject in subjects] of [setup_subjects], over the keys. *)
Fixpoint setup_loop (strptime : string -> option date) (keys : list string) : io unit :=
  match keys with
  | [] => ret tt
  | subj :: rest =>
      (conf <- reading prompt_confidence ;;
       set_confidence subj conf ;;;
       exam <- reading (prompt_exam_date strptime) ;;
       set_exam_date subj exam ;;;
       setup_loop strptime rest)%io
  end.

(** [setup_subjects(subjects)]. After the loop it calls [save_subjects()]
    without the argument [save_subjects] requires: a [TypeError], raised
    before anything is written and before [return subjects]. *)
Definition setup_subjects (strptime : string -> option date) : io subject_store :=
  (subjects <- get_subjects ;;
   setup_loop strptime (map fst subjects) ;;;
   raise TypeError)%io.

End Cli.

(** ** The web front end: [NextStep_Streamlit.py] *)

Module Web.

(** [while (today - timedelta(days=streak)) in dates_set: streak += 1].
    [None] when the fuel runs out before the loop is left. *)
Fixpoint streak_while (dates_set : gset date) (today : date)
    (fuel : nat) (streak : nat) : option nat :=
  match fuel with
  | O => None
  | S fuel' =>
      if decide (today - Z.of_nat streak ∈ dates_set)
      then streak_while dates_set today fuel' (S streak)
      else Some streak
  end.

(** The loop is left after at most [size dates_set] rounds
    ([streak_while_terminates] below), so this fuel never runs out. *)
Definition calculate_streak (dates_set : gset date) (today : date) : option nat :=
  if decide (dates_set = ∅) then Some O
  else streak_while dates_set today (S (size dates_set)) O.

Definition get_days_since_last_session (session_log : sessions) (now : datetime)
    (subj : string) : option Z :=
  let relevant_sessions :=
    map timestamp (List.filter (fun entry => String.eqb (subject entry) subj) session_log) in
  match relevant_sessions with
  | [] => None
  | t :: ts =>
      let last_session := fold_left Z.max ts t in
      Some (delta_days now last_session)
  end.

(** The key metrics and the subject breakdown of the Dashboard page. *)
Record summary := Summary {
  total_sessions : Z;
  total_minutes : Z;
  study_streak : option nat;
  rows : list summary_row;
}.

(** [(total_rating / count) if count > 0 else 0] for every subject. *)
Fixpoint summary_data (table : list (string * stats)) : result (list summary_row) :=
  match table with
  | [] => Return []
  | (subj, st) :: rest =>
      match (if 0 <? count st then Py.truediv (total_rating st) (count st)
             else Return 0%Q) with
      | Raise e => Raise e
      | Return avg_rating =>
          match summary_data rest with
          | Raise e => Raise e
          | Return rs => Return (Row subj (count st) (total_time st) avg_rating :: rs)
          end
      end
  end.

(** The Dashboard page; [Return None] is the notice shown for an empty log. *)
Definition dashboard (session_log : sessions) (today : date)
  : result (option summary) :=
  match session_log with
  | [] => Return None
  | _ =>
      let total_sessions := Z.of_nat (length session_log) in
      let total_time := py_sum (map duration_mins session_log) in
      let study_streak := calculate_streak (dates_studied session_log) today in
      match summary_data (subject_stats session_log) with
      | Raise e => Raise e
      | Return rs => Return (Some (Summary total_sessions total_time study_streak rs))
      end
  end.

(** The body of the scoring loop of the Instant Mode page, read in exact
    arithmetic. *)
Definition priority_score_exact (session_log : sessions) (today : date) (now : datetime)
    (subj : string) (data : subject_data) : result Q :=
  match exam_date data, confidence data with
  | Some exam, Some stored_conf =>
      let days_left := exam - today in
      let urgency := (1 / Py.max (inject_Z days_left) (1 # 10))%Q in
      let days_since := get_days_since_last_session session_log now subj in
      let decay := match days_since with
                   | Some d => Z.min (d / 7) 3
                   | None => 0
                   end in
      let adjusted_conf := Z.max 1 (stored_conf - decay) in
      let difficulty := 11 - adjusted_conf in
      let recent_count :=
        py_sum (map (fun _ => 1)
                  (List.filter (fun entry => String.eqb (subject entry) subj
                                             && (now - timedelta_days 7 <=? timestamp entry))
                     session_log)) in
      let repetition_penalty := (inject_Z recent_count * (1 # 2))%Q in
      Return ((urgency * (3 # 2)) + inject_Z difficulty - repetition_penalty)%Q
  | _, _ => Raise TypeError
  end.

(** What the Instant Mode page does on one run of the script. *)
Inductive instant_outcome :=
| NotConfigured                     (* [st.warning(..)] of the guard *)
| NotSubmitted                      (* the form is shown, nothing is computed *)
| Suggestion (chosen_subject : string).

(** The body of the scoring loop as the page runs it, on floats. *)
Definition priority_score (session_log : sessions) (today : date) (now : datetime)
    (subj : string) (data : subject_data) : result float :=
  match exam_date data, confidence data with
  | Some exam, Some stored_conf =>
      let days_left := exam - today in
      let urgency := Binary64.urgency days_left in
      let days_since := get_days_since_last_session session_log now subj in
      let decay := match days_since with
                   | Some d => Z.min (d / 7) 3
                   | None => 0
                   end in
      let adjusted_conf := Z.max 1 (stored_conf - decay) in
      let difficulty := 11 - adjusted_conf in
      let recent_count :=
        py_sum (map (fun _ => 1)
                  (List.filter (fun entry => String.eqb (subject entry) subj
                                             && (now - timedelta_days 7 <=? timestamp entry))
                     session_log)) in
      match Binary64.int_mul recent_count 0.5%float with
      | Raise e => Raise e
      | Return repetition_penalty =>
          match Binary64.add_int (PrimFloat.mul urgency 1.5%float) difficulty with
          | Raise e => Raise e
          | Return sum => Return (PrimFloat.sub sum repetition_penalty)
          end
      end
  | _, _ => Raise TypeError
  end.

(** [subject_priorities] after the sort. *)
Definition ranking (subjects : subject_store) (session_log : sessions)
    (today : date) (now : datetime) : result (list (string * float)) :=
  match for_each_subject (priority_score session_log today now) subjects with
  | Raise e => Raise e
  | Return subject_priorities => Return (sort_desc subject_priorities)
  end.

Definition instant_mode_page (subjects : subject_store) (session_log : sessions)
    (today : date) (now : datetime) (submitted : bool) : result instant_outcome :=
  if negb (all_configured subjects) then Return NotConfigured
  else if negb submitted then Return NotSubmitted
  else
    match ranking subjects session_log today now with
    | Raise e => Raise e
    | Return [] => Raise IndexError                  (* [subject_priorities[0][0]] *)
    | Return ((chosen_subject, _) :: _) => Return (Suggestion chosen_subject)
    end.

(** The values of the widgets of the "Log a Session" form. *)
Record log_form := LogForm {
  form_subject : string;
  form_duration : Z;
  form_task_type : string;
  form_effectiveness : Z;
  form_update_confidence : bool;
  form_confidence_slider : Z;
}.

(** What the widgets let through: [selectbox] over the keys,
    [number_input(min_value=1)], the two [slider(.., 1, 10, ..)]. *)
Definition widgets_allow (subjects : subject_store) (f : log_form) : Prop :=
  store_mem (form_subject f) subjects = true
  /\ 1 <= form_duration f
  /\ 1 <= form_effectiveness f <= 10
  /\ 1 <= form_confidence_slider f <= 10.

(** The "Log a Session" page once the form is submitted. *)
Definition log_session_page (now : datetime) (f : log_form) : io unit :=
  (let new_confidence :=
     if form_update_confidence f then Some (form_confidence_slider f) else None in
   append_session (Session (form_subject f) now (form_task_type f)
                     (form_duration f) (Some (form_effectiveness f))) ;;;
   match form_update_confidence f, new_confidence with
   | true, Some c => set_confidence (form_subject f) c
   | _, _ => ret tt
   end)%io.

(** The filtering of the "View Sessions" page: [filter_subject] is the
    choice of the select box (["All"] or a subject), [filter_days] the value
    of the number input (0 for all). The sessions kept are then listed, an
    entry without effectiveness with "N/A". *)
Definition filtered_log (session_log : sessions) (now : datetime)
    (filter_subject : string) (filter_days : Z) : result (list session) :=
  let by_subject :=
    if String.eqb filter_subject "All" then session_log
    else List.filter (fun s => String.eqb (subject s) filter_subject) session_log in
  if 0 <? filter_days
  then
    match minus_days now filter_days with
    | Some cutoff => Return (List.filter (fun s => cutoff <=? timestamp s) by_subject)
    | None => Raise OverflowError
    end
  else Return by_subject.

(** "Add a New Subject" of the Settings page, once the button is pressed: an
    empty name does nothing, a name already there is refused. *)
Definition add_subject (today : date) (new_subject_name : string)
    (subjects : subject_store) : subject_store :=
  if decide (new_subject_name = EmptyString) then subjects
  else if store_mem new_subject_name subjects then subjects
  else subjects ++ [(new_subject_name, SubjectData (Some 5) (Some (today + 30)))].

(** The "Delete" button of a subject. *)
Definition delete_subject (subj : string) (subjects : subject_store) : subject_store :=
  store_delete subj subjects.

End Web.

(** * Part II: the specification's words *)

Module Spec.

(** [urgency = 1 / max(days_left, 0.1)]. *)
Definition urgency (days_left : Z) : Q := (1 / Qmax (inject_Z days_left) (1 # 10))%Q.

(** [decay = min(days_since_last_session // 7, 3)] if a last session exists,
    else 0. *)
Definition decay (days_since_last_session : option Z) : Z :=
  match days_since_last_session with
  | Some d => Z.min (d / 7) 3
  | None => 0
  end.

(** [adjusted_confidence = max(1, stored_confidence - decay)]. *)
Definition adjusted_confidence (stored_confidence : Z) (decay : Z) : Z :=
  Z.max 1 (stored_confidence - decay).

(** [difficulty = 11 - adjusted_confidence]. *)
Definition difficulty (adjusted_confidence : Z) : Z := 11 - adjusted_confidence.

(** [repetition_penalty = recent_count * 0.5]. *)
Definition repetition_penalty (recent_count : Z) : Q :=
  (inject_Z recent_count * (1 # 2))%Q.

(** The sessions of one subject. *)
Definition sessions_of (session_log : sessions) (subj : string) : list session :=
  filter (fun entry => subject entry = subj) session_log.

(** The days between [now] and the subject's most recent session, if it has
    one. *)
Definition days_since_last_session (session_log : sessions) (now : datetime)
    (subj : string) : option Z :=
  match map timestamp (sessions_of session_log subj) with
  | [] => None
  | t :: ts => Some (delta_days now (fold_right Z.max t ts))
  end.

(** [recent_count]: the number of the subject's sessions with a timestamp
    within the last 7 days, [now] being the upper bound of the window. *)
Definition recent_count (session_log : sessions) (now : datetime)
    (subj : string) : Z :=
  Z.of_nat (length (filter (fun entry => now - timedelta_days 7 <= timestamp entry <= now)
                      (sessions_of session_log subj))).

(** The count without the upper bound: the subject's sessions stamped no
    earlier than seven days before [now], those stamped after [now]
    included. *)
Definition count_since (session_log : sessions) (now : datetime)
    (subj : string) : Z :=
  Z.of_nat (length (filter (fun entry => now - timedelta_days 7 <= timestamp entry)
                      (sessions_of session_log subj))).

(** [score = urgency * 1.5 + difficulty - repetition_penalty]. *)
Definition score (days_left : Z) (days_since : option Z) (stored_confidence : Z)
    (recent : Z) : Q :=
  (urgency days_left * (3 # 2)
   + inject_Z (difficulty (adjusted_confidence stored_confidence (decay days_since)))
   - repetition_penalty recent)%Q.



(** [score = urgency * 1.5 + difficulty - repetition_penalty] with
    [urgency = 1 / max(days_left, 0.1)] and
    [repetition_penalty = recent_count * 0.5], each operation carried out
    on floats. *)
Definition score_binary64 (days_left : Z) (days_since : option Z) (stored_confidence : Z)
    (recent : Z) : result float :=
  match Binary64.float_of_int recent with
  | Raise e => Raise e
  | Return n =>
      let repetition_penalty := PrimFloat.mul n 0.5%float in
      match Binary64.float_of_int
              (difficulty (adjusted_confidence stored_confidence (decay days_since))) with
      | Raise e => Raise e
      | Return d =>
          let urgency := PrimFloat.div 1%float (Binary64.max_tenth days_left) in
          Return (PrimFloat.sub (PrimFloat.add (PrimFloat.mul urgency 1.5%float) d)
                    repetition_penalty)
      end
  end.

(** The totals of one subject's sessions, straight from the log. *)
Definition tally (session_log : sessions) (subj : string) : stats :=
  let mine := Spec.sessions_of session_log subj in
  Stats (Z.of_nat (length mine))
        (py_sum (map duration_mins mine))
        (py_sum (map (fun entry => default 0 (effectiveness entry)) mine)).

(** The line of the breakdown for one entry of [subject_stats]. *)
Definition row_of (kv : string * stats) : summary_row :=
  Row (fst kv) (count (snd kv)) (total_time (snd kv))
      (inject_Z (total_rating (snd kv)) / inject_Z (count (snd kv)))%Q.

(** A streak of [n] days: [today], [today - 1], ..., [today - (n - 1)] are
    all study dates and [today - n] is the first gap. *)
Definition first_gap (dates_set : gset date) (today : date) (n : nat) : Prop :=
  (forall k : nat, (k < n)%nat -> today - Z.of_nat k ∈ dates_set)
  /\ today - Z.of_nat n ∉ dates_set.

(** The caller accepts a subject by answering "yes" (spaces around it and
    capitals do not count). *)
Definition accepts (answer : string) : Prop :=
  Py.lower (Py.strip answer) = "yes"%string.

(** Descending by score. *)
Definition descending (l : list (string * float)) : Prop :=
  Sorted (fun a b => PrimFloat.leb (snd b) (snd a) = true) l.

End Spec.

(** * Part III: sample data *)

(** Two sessions of Maths in the last week and one of Irish; the clock reads
    noon of 3 November 2026. *)
Definition study_week : sessions :=
  [Session "Maths" (at_time 739921 61200000000) "Essay" 40 (Some 6);
   Session "Irish" (at_time 739921 68400000000) "Flashcards" 20 (Some 8);
   Session "Maths" (at_time 739922 61200000000) "Past paper" 60 (Some 7)].

(** Three configured subjects; with [study_week] at noon of 3 November 2026
    their scores are 6.05, 7.65 and 2.3. *)
Definition sample_subjects : subject_store :=
  [("Science"%string, SubjectData (Some 5) (Some 739953));
   ("Irish"%string, SubjectData (Some 3) (Some 739933));
   ("Maths"%string, SubjectData (Some 8) (Some 739928))].

Definition sample_ranking : list (string * float) :=
  Eval vm_compute in
    match Cli.ranking sample_subjects study_week 739923 (at_time 739923 43200000000) with
    | Return ranked => ranked
    | Raise _ => []
    end.

(** The default subjects of the terminal front end: nothing is set. *)
Definition default_subjects : subject_store :=
  [("Science"%string, SubjectData None None);
   ("Irish"%string, SubjectData None None);
   ("Maths"%string, SubjectData None None);
   ("English"%string, SubjectData None None)].

(** A session on each of the 101 days that end on 3 November 2026. *)
Definition daily_sessions : sessions :=
  map (fun k : nat => Session "Maths" (at_time (739923 - Z.of_nat k) 64800000000)
                        "Flashcards" 30 (Some 7))
      (seq 0 101).

(** A study date on each of the 101 days that end on 3 November 2026
    (ordinal 739923). *)
Definition hundred_and_one_days : gset date :=
  list_to_set (map (fun k : nat => 739923 - Z.of_nat k) (seq 0 101)).

(** The clock of the examples below: 3 November 2026, at noon. *)
Definition sample_today : date := 739923.

Definition sample_now : datetime := at_time 739923 43200000000.

(** Two subjects of equal score ahead of a lower one. *)
Definition tied_subjects : subject_store :=
  [("Science"%string, SubjectData (Some 5) (Some 739953));
   ("Irish"%string, SubjectData (Some 5) (Some 739953));
   ("Maths"%string, SubjectData (Some 8) (Some 739953))].

(** A session of Irish at the clock of the examples. *)
Definition irish_today : session :=
  Session "Irish" sample_now "Flashcards" 25 (Some 8).

(** A session of Maths logged by hand, and the state it is logged in, with
    the answers to the five questions. *)
Definition maths_essay : session :=
  Session "Maths" sample_now "Essay" 45 (Some 7).

Definition before_maths_essay : world :=
  World sample_subjects study_week ["maths"; "45"; "Essay"; "7"; "9"]%string.

Definition after_maths_essay : world :=
  World [("Science"%string, SubjectData (Some 5) (Some 739953));
         ("Irish"%string, SubjectData (Some 3) (Some 739933));
         ("Maths"%string, SubjectData (Some 9) (Some 739928))]
        (study_week ++ [maths_essay]) [].

(** The same, with the input ending after the minutes. *)
Definition input_cut_short : world :=
  World sample_subjects study_week ["maths"; "45"]%string.

(** A run of Instant Mode on an empty log: Irish is offered first and
    taken, the session is completed and rated 7, the confidence set to 4. *)
Definition irish_instant : session :=
  Session "Irish" sample_now "Flashcards or Light Revision" 30 (Some 7).

Definition before_instant : world :=
  World sample_subjects [] ["30"; "low"; "yes"; "yes"; "7"; "4"]%string.

Definition after_instant : world :=
  World [("Science"%string, SubjectData (Some 5) (Some 739953));
         ("Irish"%string, SubjectData (Some 4) (Some 739933));
         ("Maths"%string, SubjectData (Some 8) (Some 739928))]
        [irish_instant] [].

(** The sessions of Maths of the last day are asked for. *)
Definition asking_for_maths : world :=
  World sample_subjects study_week ["maths"; "1"]%string.

Definition maths_past_paper : session :=
  Session "Maths" (at_time 739922 61200000000) "Past paper" 60 (Some 7).

(** The set up of the default subjects, with two answers that are asked
    again. *)
Definition before_setup : world :=
  World default_subjects study_week
    ["7"; "03/12/2026"; "eleven"; "3"; "40/12/2026"; "14/12/2026";
     "8"; "08/12/2026"; "6"; "10/12/2026"]%string.

Definition after_setup : world :=
  World [("Science"%string, SubjectData (Some 7) (Some 739953));
         ("Irish"%string, SubjectData (Some 3) (Some 739964));
         ("Maths"%string, SubjectData (Some 8) (Some 739958));
         ("English"%string, SubjectData (Some 6) (Some 739960))]
        study_week [].


(** Two subjects with the exam in seven days whose exact scores tie at
    17/14: Art with confidence 10 and no session, Biology with confidence 8
    and four sessions in the week. *)
Definition level_subjects : subject_store :=
  [("Art"%string, SubjectData (Some 10) (Some 739930));
   ("Biology"%string, SubjectData (Some 8) (Some 739930))].

Definition biology_week : sessions :=
  [Session "Biology" (at_time 739920 61200000000) "Notes" 30 (Some 7);
   Session "Biology" (at_time 739921 61200000000) "Notes" 30 (Some 7);
   Session "Biology" (at_time 739922 61200000000) "Notes" 30 (Some 7);
   Session "Biology" (at_time 739923 32400000000) "Notes" 30 (Some 7)].

(** A store with a confidence far beyond the range of the floats, as the
    unchecked [int(new_conf)] of [instant_mode] can store it. *)
Definition huge_confidence : subject_store :=
  [("Maths"%string, SubjectData (Some (10 ^ 400)) (Some 739928))].


(** * Part IV: proof tools *)

(** The largest difference of two dates: [date.max - date.min]. *)
Definition date_span : Z := 3652058.

(** The binary64 urgency drops from [d] days to [d + 1] days. *)
Definition decreasing_at (d : Z) : bool :=
  PrimFloat.ltb (Binary64.urgency (d + 1)) (Binary64.urgency d).

(** [decreasing_at] on each of the [2 ^ k] values from [lo] on. *)
Fixpoint check_block (k : nat) (lo : Z) : bool :=
  match k with
  | O => decreasing_at lo
  | S k' => check_block k' lo && check_block k' (lo + 2 ^ Z.of_nat k')
  end.

(** Case analysis on the next scrutinee of a run that is known to return. *)
Ltac run_step H :=
  match type of H with
  | context [match ?x with _ => _ end] =>
      lazymatch x with
      | context [match _ with _ => _ end] => fail
      | _ => destruct x eqn:?; try discriminate H
      end
  | context [if ?x then _ else _] =>
      lazymatch x with
      | context [if _ then _ else _] => fail
      | _ => destruct x eqn:?; try discriminate H
      end
  end.

(** Every stored confidence is a number from 1 to 10. *)
Definition confidences_in_range (subjects : subject_store) : Prop :=
  forall subj data c, (subj, data) ∈ subjects -> confidence data = Some c -> 1 <= c <= 10.

(** The keys of the store with their exam dates. *)
Definition exam_dates (subjects : subject_store) : list (string * option date) :=
  map (fun kv => (fst kv, exam_date (snd kv))) subjects.

(** A session passes the two filters of [view_sessions], given the answers
    to its two questions: it is of the subject asked for, if one was asked
    for, and it is not older than the number of days given, if a number was
    given. *)
Definition passes_filters (now : datetime) (subject_answer days_answer : string)
    (s : session) : Prop :=
  (Py.title (Py.strip subject_answer) = EmptyString
   \/ subject s = Py.title (Py.strip subject_answer))
  /\ forall days, Py.int (Py.strip days_answer) = Some days ->
       now - timedelta_days days <= timestamp s.

(** A float that is a zero or a finite number, in the representation the
    specification of the float operations works on. *)
Definition fin (x : spec_float) : Prop :=
  match x with
  | S754_zero _ | S754_finite _ _ _ => True
  | _ => False
  end.

(** Every score of the list is a number (no NaN). *)
Definition all_numbers (l : list (string * float)) : Prop :=
  Forall (fun p => PrimFloat.is_nan (snd p) = false) l.

(** A moment that a [datetime] can hold. *)
Definition datetime_in_range (t : datetime) : Prop := datetime_min <= t < datetime_end.

(** A log and a clock the running program can hold: the clock and every
    timestamp is a [datetime], and the log, a list, has fewer than [2^63]
    entries. *)
Definition python_log (now : datetime) (session_log : sessions) : Prop :=
  datetime_in_range now
  /\ Forall (fun entry => datetime_in_range (timestamp entry)) session_log
  /\ Z.of_nat (length session_log) < 2 ^ 63.

(** [confidences_in_range] of a store that is written out. *)
Ltac store_in_range :=
  let subj := fresh "subj" in
  let data := fresh "data" in
  let c := fresh "c" in
  let Hin := fresh "Hin" in
  let Hc := fresh "Hc" in
  intros subj data c Hin Hc;
  repeat (apply elem_of_cons in Hin as [Hin | Hin];
          [injection Hin as -> ->; injection Hc as <-; lia |]);
  apply not_elem_of_nil in Hin; contradiction.

(** * Part V: the program against the specification *)

(** ** Built-ins on sample inputs *)

Example strip_title_maths : Py.title (Py.strip "  maTHs ") = "Maths"%string.
Proof. reflexivity. Qed.

Example title_two_words : Py.title "home economics" = "Home Economics"%string.
Proof. reflexivity. Qed.

Example strip_lower_yes : Py.lower (Py.strip " YES  ") = "yes"%string.
Proof. reflexivity. Qed.

Example int_of_signed : Py.int " -12 " = Some (-12).
Proof. reflexivity. Qed.

Example int_of_grouped : Py.int "1_000" = Some 1000.
Proof. reflexivity. Qed.

Example int_of_blank : Py.int "  " = None.
Proof. reflexivity. Qed.

Example int_of_decimal : Py.int "4.5" = None.
Proof. reflexivity. Qed.

(** ** Dates *)

Lemma day_us_pos : 0 < day_us.
Proof. reflexivity. Qed.

Lemma date_of_at_time d us : 0 <= us < day_us -> date_of (at_time d us) = d.
Proof.
  intros Hus. unfold date_of, at_time.
  rewrite Z.add_comm, Z.div_add by (pose proof day_us_pos; lia).
  rewrite Z.div_small by exact Hus. reflexivity.
Qed.

(** ** Streaks *)

Section Streak.

Variable dates_set : gset date.
Variable today : date.

Lemma first_gap_unique n m :
  Spec.first_gap dates_set today n -> Spec.first_gap dates_set today m -> n = m.
Proof.
  intros [Hn Hn'] [Hm Hm'].
  destruct (Nat.lt_trichotomy n m) as [Hlt | [Heq | Hgt]]; [| exact Heq |].
  - destruct Hn'. apply Hm. exact Hlt.
  - destruct Hm'. apply Hn. exact Hgt.
Qed.

(** A run of [k] study dates needs [k] elements in the set. *)
Lemma run_le_size (s k : nat) :
  (forall j : nat, (s <= j < s + k)%nat -> today - Z.of_nat j ∈ dates_set) ->
  (k <= size dates_set)%nat.
Proof.
  intros Hrun.
  set (days := map (fun j : nat => today - Z.of_nat j) (seq s k)).
  assert (Hnodup : NoDup days).
  { unfold days. apply NoDup_fmap_2_strong.
    - intros x y _ _ Hxy. lia.
    - apply NoDup_seq. }
  assert (Hsub : (list_to_set days : gset date) ⊆ dates_set).
  { intros d Hd. apply elem_of_list_to_set in Hd.
    unfold days in Hd. apply list_elem_of_fmap in Hd as [j [-> Hj]].
    apply elem_of_seq in Hj. apply Hrun. lia. }
  apply subseteq_size in Hsub.
  rewrite size_list_to_set in Hsub by exact Hnodup.
  unfold days in Hsub. rewrite length_map, length_seq in Hsub. exact Hsub.
Qed.

Lemma streak_while_Some fuel s n :
  Web.streak_while dates_set today fuel s = Some n ->
  (s <= n)%nat
  /\ (forall j : nat, (s <= j < n)%nat -> today - Z.of_nat j ∈ dates_set)
  /\ today - Z.of_nat n ∉ dates_set.
Proof.
  revert s. induction fuel as [| fuel IH]; intros s Hrun; simpl in Hrun.
  - discriminate.
  - destruct (decide (today - Z.of_nat s ∈ dates_set)) as [Hin | Hout].
    + destruct (IH _ Hrun) as (Hle & Hall & Hgap).
      split; [lia |]. split; [| exact Hgap].
      intros j Hj. destruct (decide (j = s)) as [-> | Hne]; [exact Hin |].
      apply Hall. lia.
    + injection Hrun as <-. split; [lia |]. split; [| exact Hout].
      intros j Hj. lia.
Qed.

Lemma streak_while_None fuel s :
  Web.streak_while dates_set today fuel s = None ->
  forall j : nat, (s <= j < s + fuel)%nat -> today - Z.of_nat j ∈ dates_set.
Proof.
  revert s. induction fuel as [| fuel IH]; intros s Hrun j Hj; simpl in Hrun.
  - lia.
  - destruct (decide (today - Z.of_nat s ∈ dates_set)) as [Hin | Hout];
      [| discriminate].
    destruct (decide (j = s)) as [-> | Hne]; [exact Hin |].
    apply (IH _ Hrun). lia.
Qed.

(** The [while] loop ends: with more fuel than the set has elements it
    returns, and what it returns is the first gap. *)
Lemma streak_while_terminates fuel :
  (size dates_set < fuel)%nat ->
  exists n, Web.streak_while dates_set today fuel O = Some n
            /\ Spec.first_gap dates_set today n.
Proof.
  intros Hfuel.
  destruct (Web.streak_while dates_set today fuel O) as [n |] eqn:Hrun.
  - exists n. split; [reflexivity |].
    destruct (streak_while_Some _ _ _ Hrun) as (_ & Hall & Hgap).
    split; [| exact Hgap]. intros k Hk. apply Hall. lia.
  - pose proof (run_le_size O fuel (streak_while_None _ _ Hrun)). lia.
Qed.

(** The bounded [for] loop adds the length of the run, cut at the fuel. *)
Lemma streak_for_first_gap fuel (s n acc : nat) :
  (s <= n)%nat ->
  (forall j : nat, (s <= j < n)%nat -> today - Z.of_nat j ∈ dates_set) ->
  today - Z.of_nat n ∉ dates_set ->
  Cli.streak_for dates_set today fuel (Z.of_nat s) acc
  = (acc + Nat.min (n - s) fuel)%nat.
Proof.
  revert s acc. induction fuel as [| fuel IH]; intros s acc Hle Hall Hgap; simpl.
  - rewrite Nat.min_0_r. lia.
  - destruct (decide (today - Z.of_nat s ∈ dates_set)) as [Hin | Hout].
    + assert (Hlt : (s < n)%nat).
      { destruct (decide (s = n)) as [-> | Hne]; [contradiction | lia]. }
      replace (Z.of_nat s + 1) with (Z.of_nat (S s)) by lia.
      rewrite IH; [lia | lia | | exact Hgap].
      intros j Hj. apply Hall. lia.
    + assert (Heq : s = n).
      { destruct (decide (s = n)) as [Heq | Hne]; [exact Heq |].
        destruct Hout. apply Hall. lia. }
      subst s. rewrite Nat.sub_diag. simpl. lia.
Qed.

Lemma first_gap_exists : exists n, Spec.first_gap dates_set today n.
Proof.
  destruct (streak_while_terminates (S (size dates_set))) as [n [_ Hn]];
    [lia | exists n; exact Hn].
Qed.

Lemma web_streak_first_gap n :
  Spec.first_gap dates_set today n ->
  Web.calculate_streak dates_set today = Some n.
Proof.
  intros Hn. unfold Web.calculate_streak.
  destruct (decide (dates_set = ∅)) as [Hempty | Hne].
  - f_equal. apply (first_gap_unique O n); [| exact Hn].
    split; [intros k Hk; lia | rewrite Hempty; apply not_elem_of_empty].
  - destruct (streak_while_terminates (S (size dates_set))) as [m [Hrun Hm]];
      [lia |].
    rewrite Hrun. f_equal. apply first_gap_unique; assumption.
Qed.

Lemma cli_streak_first_gap n :
  Spec.first_gap dates_set today n ->
  Cli.calculate_streak dates_set today = Nat.min n 100.
Proof.
  intros [Hall Hgap]. unfold Cli.calculate_streak.
  destruct (decide (dates_set = ∅)) as [Hempty | Hne].
  - destruct n as [| n]; [reflexivity |].
    exfalso. apply (not_elem_of_empty (C := gset date) (today - Z.of_nat O)).
    rewrite <- Hempty. apply Hall. lia.
  - change 0 with (Z.of_nat O).
    rewrite (streak_for_first_gap 100 O n O); [| lia | | exact Hgap].
    + rewrite Nat.sub_0_r. reflexivity.
    + intros j Hj. apply Hall. lia.
Qed.

End Streak.

(** *** The two front ends *)

(** C10, as stated, fails: on a run of 101 study dates ending today the
    terminal front end stops at 100 and the web front end counts 101. *)
Lemma streak_front_ends_differ :
  Cli.calculate_streak hundred_and_one_days 739923 = 100%nat
  /\ Web.calculate_streak hundred_and_one_days 739923 = Some 101%nat.
Proof. split; vm_compute; reflexivity. Qed.

(** C10, amended: for every finite set of study dates the web front end's
    [calculate_streak] returns a value [n], the number of days back to the
    first gap, and the terminal front end's returns [n] cut at its look-back
    of 100 days; so the two agree whenever the streak is at most 100 days. *)
Theorem streak_front_ends_agree_up_to_100 (dates_set : gset date) (today : date) :
  exists n : nat,
    Spec.first_gap dates_set today n
    /\ Web.calculate_streak dates_set today = Some n
    /\ Cli.calculate_streak dates_set today = Nat.min n 100
    /\ ((n <= 100)%nat -> Cli.calculate_streak dates_set today = n).
Proof.
  destruct (first_gap_exists dates_set today) as [n Hn].
  exists n. split; [exact Hn |]. split; [apply web_streak_first_gap; exact Hn |].
  rewrite (cli_streak_first_gap _ _ _ Hn). split; [reflexivity | lia].
Qed.

(** The amended C10 on study dates today, yesterday and three days ago:
    both front ends count 2. *)
Lemma streak_front_ends_agree_up_to_100_witness :
  Web.calculate_streak (list_to_set [739923; 739922; 739920]) 739923 = Some 2%nat
  /\ Cli.calculate_streak (list_to_set [739923; 739922; 739920]) 739923 = 2%nat.
Proof.
  destruct (streak_front_ends_agree_up_to_100
              (list_to_set [739923; 739922; 739920]) 739923)
    as (n & _ & Hweb & _ & Hsame).
  assert (Hn : n = 2%nat).
  { assert (Hrun : Web.calculate_streak (list_to_set [739923; 739922; 739920]) 739923
                   = Some 2%nat) by (vm_compute; reflexivity).
    rewrite Hrun in Hweb. injection Hweb as <-. reflexivity. }
  subst n. split; [exact Hweb | apply Hsame; lia].
Defined.

Lemma web_streak_sound (dates_set : gset date) (today : date) (n : nat) :
  Web.calculate_streak dates_set today = Some n -> Spec.first_gap dates_set today n.
Proof.
  intros Hrun. destruct (first_gap_exists dates_set today) as [m Hm].
  rewrite (web_streak_first_gap _ _ _ Hm) in Hrun. injection Hrun as <-. exact Hm.
Qed.

Lemma dates_studied_nil : dates_studied [] = ∅.
Proof. reflexivity. Qed.

Lemma elem_of_dates_studied (session_log : sessions) (d : date) :
  d ∈ dates_studied session_log
  <-> exists entry, entry ∈ session_log /\ date_of (timestamp entry) = d.
Proof.
  unfold dates_studied. rewrite elem_of_list_to_set, list_elem_of_fmap.
  split; intros [entry [H1 H2]]; exists entry; split; auto.
Qed.

(** *** The streak of a log *)

(** C5, as stated, fails for the terminal front end: a log with a session
    on each of the last 101 days has its first gap 101 days back, and
    [calculate_streak] returns 100. *)
Lemma cli_streak_stops_at_100 :
  Spec.first_gap (dates_studied daily_sessions) 739923 101
  /\ Cli.calculate_streak (dates_studied daily_sessions) 739923 = 100%nat.
Proof.
  split; [apply web_streak_sound |]; vm_compute; reflexivity.
Qed.

(** C5, amended: the streak of the log is 0 when the log is empty, 1 when
    the log is one session dated today, and 0 when every session is dated
    two or more days before today; in general the web front end counts the
    consecutive days backward from today that are study dates, up to the
    first gap, and the terminal front end counts the same days but stops
    after 100. *)
Theorem streak_of_log (session_log : sessions) (today : date) :
  (session_log = [] ->
   Cli.calculate_streak (dates_studied session_log) today = O
   /\ Web.calculate_streak (dates_studied session_log) today = Some O)
  /\ (forall entry, session_log = [entry] -> date_of (timestamp entry) = today ->
      Cli.calculate_streak (dates_studied session_log) today = 1%nat
      /\ Web.calculate_streak (dates_studied session_log) today = Some 1%nat)
  /\ ((forall entry, entry ∈ session_log -> date_of (timestamp entry) <= today - 2) ->
      Cli.calculate_streak (dates_studied session_log) today = O
      /\ Web.calculate_streak (dates_studied session_log) today = Some O)
  /\ exists n : nat,
      Spec.first_gap (dates_studied session_log) today n
      /\ Web.calculate_streak (dates_studied session_log) today = Some n
      /\ Cli.calculate_streak (dates_studied session_log) today = Nat.min n 100.
Proof.
  assert (Hgap : forall n, Spec.first_gap (dates_studied session_log) today n ->
                 Cli.calculate_streak (dates_studied session_log) today = Nat.min n 100
                 /\ Web.calculate_streak (dates_studied session_log) today = Some n).
  { intros n Hn. split;
      [apply cli_streak_first_gap | apply web_streak_first_gap]; exact Hn. }
  split; [| split; [| split]].
  - intros ->. apply (Hgap O). split; [intros k Hk; lia |].
    rewrite dates_studied_nil. apply not_elem_of_empty.
  - intros entry -> Hdate. apply (Hgap 1%nat). split.
    + intros k Hk. replace k with O by lia. rewrite Z.sub_0_r.
      apply elem_of_dates_studied. exists entry. split; [apply list_elem_of_here | exact Hdate].
    + intros Hin. apply elem_of_dates_studied in Hin as [e [He Hd]].
      apply list_elem_of_singleton in He. subst e. lia.
  - intros Hold. apply (Hgap O). split; [intros k Hk; lia |].
    intros Hin. apply elem_of_dates_studied in Hin as [e [He Hd]].
    specialize (Hold e He). lia.
  - destruct (first_gap_exists (dates_studied session_log) today) as [n Hn].
    exists n. destruct (Hgap n Hn) as [Hcli Hweb]. auto.
Qed.

(** The amended C5 on a log of one session dated today, and on a log whose
    only session is three days old. *)
Lemma streak_of_log_witness :
  (Cli.calculate_streak
     (dates_studied [Session "Irish" (at_time 739923 32400000000) "Essay" 45 (Some 6)])
     739923 = 1%nat
   /\ Web.calculate_streak
        (dates_studied [Session "Irish" (at_time 739923 32400000000) "Essay" 45 (Some 6)])
        739923 = Some 1%nat)
  /\ (Cli.calculate_streak
        (dates_studied [Session "Irish" (at_time 739920 32400000000) "Essay" 45 (Some 6)])
        739923 = O
      /\ Web.calculate_streak
           (dates_studied [Session "Irish" (at_time 739920 32400000000) "Essay" 45 (Some 6)])
           739923 = Some O).
Proof.
  split.
  - apply (proj1 (proj2 (streak_of_log
             [Session "Irish" (at_time 739923 32400000000) "Essay" 45 (Some 6)] 739923))
             _ eq_refl).
    reflexivity.
  - apply (proj1 (proj2 (proj2 (streak_of_log
             [Session "Irish" (at_time 739920 32400000000) "Essay" 45 (Some 6)] 739923)))).
    intros entry Hin. apply list_elem_of_singleton in Hin. subst entry.
    vm_compute. discriminate.
Defined.

(** ** Urgency *)

Lemma max_tenth_nonpos (days_left : Z) :
  days_left <= 0 -> Py.max (inject_Z days_left) (1 # 10) = (1 # 10)%Q.
Proof.
  intros Hd. unfold Py.max.
  destruct (Qlt_le_dec (inject_Z days_left) (1 # 10)) as [_ | Hle]; [reflexivity |].
  exfalso. unfold Qle in Hle. simpl in Hle. lia.
Qed.

Lemma max_tenth_pos (days_left : Z) :
  0 < days_left -> Py.max (inject_Z days_left) (1 # 10) = inject_Z days_left.
Proof.
  intros Hd. unfold Py.max.
  destruct (Qlt_le_dec (inject_Z days_left) (1 # 10)) as [Hlt | _]; [| reflexivity].
  exfalso. unfold Qlt in Hlt. simpl in Hlt. lia.
Qed.


Lemma urgency_nonpos (days_left : Z) :
  days_left <= 0 -> (1 / Py.max (inject_Z days_left) (1 # 10) == 10)%Q.
Proof. intros Hd. rewrite max_tenth_nonpos by exact Hd. reflexivity. Qed.

Lemma urgency_pos_le_1 (days_left : Z) :
  0 < days_left -> (1 / Py.max (inject_Z days_left) (1 # 10) <= 1)%Q.
Proof.
  intros Hd. rewrite max_tenth_pos by exact Hd.
  destruct days_left as [| p | p]; try lia.
  unfold Qle. simpl. lia.
Qed.

Lemma urgency_pos_decreasing (d1 d2 : Z) :
  0 < d1 -> d1 < d2 ->
  (1 / Py.max (inject_Z d2) (1 # 10) < 1 / Py.max (inject_Z d1) (1 # 10))%Q.
Proof.
  intros H1 H12. rewrite !max_tenth_pos by lia.
  destruct d1 as [| p1 | p1]; try lia. destruct d2 as [| p2 | p2]; try lia.
  unfold Qlt. simpl. lia.
Qed.

(** *** Urgency in binary64 *)

Lemma SFltb_trans (a b c : spec_float) :
  SFltb a b = true -> SFltb b c = true -> SFltb a c = true.
Proof.
  unfold SFltb, SFcompare.
  destruct a as [sa | sa | | sa ma ea], b as [sb | sb | | sb mb eb],
    c as [sc | sc | | sc mc ec];
    try destruct sa; try destruct sb; try destruct sc;
    try discriminate; try reflexivity; intros Hab Hbc.
  all: destruct (Z.compare_spec ea eb), (Z.compare_spec eb ec), (Z.compare_spec ea ec);
    try discriminate; try reflexivity; try lia.
  all: change (Pcompare ?x ?y Eq) with (Pos.compare x y) in *.
  all: destruct (Pos.compare_spec ma mb), (Pos.compare_spec mb mc),
         (Pos.compare_spec ma mc);
    try discriminate; try reflexivity; try lia.
Qed.

Lemma float_ltb_trans (x y z : float) :
  PrimFloat.ltb x y = true -> PrimFloat.ltb y z = true -> PrimFloat.ltb x z = true.
Proof. rewrite !FloatAxioms.ltb_spec. apply SFltb_trans. Qed.

Lemma check_block_sound (k : nat) (lo d : Z) :
  check_block k lo = true -> lo <= d < lo + 2 ^ Z.of_nat k -> decreasing_at d = true.
Proof.
  revert lo. induction k as [| k IH]; intros lo Hcheck Hd.
  - change (2 ^ Z.of_nat 0) with 1 in Hd. replace d with lo by lia. exact Hcheck.
  - cbn [check_block] in Hcheck. apply andb_true_iff in Hcheck as [Hlow Hhigh].
    rewrite Nat2Z.inj_succ, Z.pow_succ_r in Hd by lia.
    destruct (Z_lt_le_dec d (lo + 2 ^ Z.of_nat k)) as [Hlt | Hge].
    + apply (IH lo Hlow). lia.
    + apply (IH (lo + 2 ^ Z.of_nat k) Hhigh). lia.
Qed.

(** The check, run on the [2 ^ 22] values from 0 on; [date_span] is less. *)
Lemma binary64_urgency_checked : check_block 22 0 = true.
Proof. vm_compute. reflexivity. Qed.

Lemma binary64_urgency_step (d : Z) :
  0 <= d < date_span -> decreasing_at d = true.
Proof.
  intros Hd. apply (check_block_sound 22 0 d binary64_urgency_checked).
  change (2 ^ Z.of_nat 22) with 4194304. unfold date_span in Hd. lia.
Qed.

Lemma binary64_urgency_chain (n : nat) (d : Z) :
  0 <= d -> d + 1 + Z.of_nat n <= date_span ->
  PrimFloat.ltb (Binary64.urgency (d + 1 + Z.of_nat n)) (Binary64.urgency d) = true.
Proof.
  intros Hd. induction n as [| n IH]; intros Hn.
  - rewrite Z.add_0_r. apply binary64_urgency_step. lia.
  - apply float_ltb_trans with (y := Binary64.urgency (d + 1 + Z.of_nat n)).
    + replace (d + 1 + Z.of_nat (S n)) with (d + 1 + Z.of_nat n + 1) by lia.
      apply binary64_urgency_step. lia.
    + apply IH. lia.
Qed.

Lemma binary64_urgency_clamped (d : Z) :
  d <= 0 -> Binary64.urgency d = Binary64.urgency 0.
Proof.
  intros Hd. unfold Binary64.urgency, Binary64.max_tenth.
  replace (d <=? 0) with true by (symmetry; apply Z.leb_le; exact Hd).
  reflexivity.
Qed.

Lemma binary64_urgency_decreasing (d1 d2 : Z) :
  d1 < d2 -> 0 < d2 <= date_span ->
  PrimFloat.ltb (Binary64.urgency d2) (Binary64.urgency d1) = true.
Proof.
  intros H12 H2.
  assert (Hfrom : forall d, 0 <= d < d2 ->
            PrimFloat.ltb (Binary64.urgency d2) (Binary64.urgency d) = true).
  { intros d Hd. replace d2 with (d + 1 + Z.of_nat (Z.to_nat (d2 - d - 1))) by lia.
    apply binary64_urgency_chain; lia. }
  destruct (Z_lt_le_dec d1 0) as [Hneg | Hpos].
  - rewrite (binary64_urgency_clamped d1) by lia. apply Hfrom. lia.
  - apply Hfrom. lia.
Qed.

(** C7: when the exam is today or in the past the urgency is exactly 10, in
    rational and in binary64 arithmetic; and the urgency strictly decreases
    as [days_left] grows, from the clamped value on: between any two values
    of [days_left] of which the larger is positive (in binary64 arithmetic,
    for every [days_left] that two dates can be apart). *)
Theorem urgency_clamped_and_decreasing :
  (forall days_left : Z, days_left <= 0 ->
     (1 / Py.max (inject_Z days_left) (1 # 10) == 10)%Q
     /\ Binary64.urgency days_left = 10%float)
  /\ (forall d1 d2 : Z, d1 < d2 -> 0 < d2 ->
        (1 / Py.max (inject_Z d2) (1 # 10) < 1 / Py.max (inject_Z d1) (1 # 10))%Q)
  /\ (forall d1 d2 : Z, d1 < d2 -> 0 < d2 <= date_span ->
        PrimFloat.ltb (Binary64.urgency d2) (Binary64.urgency d1) = true).
Proof.
  split; [| split].
  - intros days_left Hd. split; [apply urgency_nonpos; exact Hd |].
    rewrite binary64_urgency_clamped by exact Hd. reflexivity.
  - intros d1 d2 H12 H2. destruct (Z_lt_le_dec 0 d1) as [Hpos | Hnonpos].
    + apply urgency_pos_decreasing; assumption.
    + rewrite (urgency_nonpos d1) by exact Hnonpos.
      apply Qle_lt_trans with (y := 1%Q); [apply urgency_pos_le_1; exact H2 | reflexivity].
  - exact binary64_urgency_decreasing.
Qed.

(** C7 on an exam three days ago, and on exams in 2 and in 9 days. *)
Lemma urgency_clamped_and_decreasing_witness :
  ((1 / Py.max (inject_Z (-3)) (1 # 10) == 10)%Q /\ Binary64.urgency (-3) = 10%float)
  /\ (1 / Py.max (inject_Z 9) (1 # 10) < 1 / Py.max (inject_Z 2) (1 # 10))%Q
  /\ PrimFloat.ltb (Binary64.urgency 9) (Binary64.urgency 2) = true.
Proof.
  split; [| split].
  - apply (proj1 urgency_clamped_and_decreasing (-3)). lia.
  - apply (proj1 (proj2 urgency_clamped_and_decreasing) 2 9); lia.
  - apply (proj2 (proj2 urgency_clamped_and_decreasing) 2 9); [lia |].
    unfold date_span. lia.
Defined.

(** ** Binary64 floats

    The primitive operations are specified by [FloatAxioms] through the
    functions of [SpecFloat]; the lemmas below read off those functions that
    the conversions and the operations of the score give finite floats or,
    at the least, numbers. *)

(** *** Digits and shifts *)
Lemma digits2_pos_size (p : positive) : digits2_pos p = Pos.size p.
Proof. induction p as [p IH | p IH |]; simpl; congruence. Qed.

Lemma Zdigits2_upper (m : Z) : 0 <= m -> m < 2 ^ Zdigits2 m.
Proof.
  intros Hm. destruct m as [| p | p]; [reflexivity | | lia].
  cbn [Zdigits2]. rewrite digits2_pos_size.
  pose proof (Pos.size_gt p) as H. apply Pos2Z.pos_lt_pos in H.
  rewrite Pos2Z.inj_pow in H. exact H.
Qed.

Lemma Zdigits2_le (m d : Z) : 0 <= m < 2 ^ d -> 0 <= d -> Zdigits2 m <= d.
Proof.
  intros [Hm Hlt] Hd. destruct m as [| p | p]; [exact Hd | | lia].
  cbn [Zdigits2]. rewrite digits2_pos_size.
  pose proof (Pos.size_le p) as H. apply Pos2Z.pos_le_pos in H.
  rewrite Pos2Z.inj_pow in H. change (Z.pos p~0) with (2 * Z.pos p) in H.
  destruct (Z_le_gt_dec (Z.pos (Pos.size p)) d) as [Hle | Hgt]; [exact Hle | exfalso].
  assert (2 ^ (d + 1) <= 2 ^ Z.pos (Pos.size p)) by (apply Z.pow_le_mono_r; lia).
  rewrite Z.pow_add_r in H0 by lia. lia.
Qed.


Lemma shr_1_m (r : shr_record) : 0 <= shr_m r -> shr_m (shr_1 r) = shr_m r / 2.
Proof.
  destruct r as [m rb sb]. cbn [shr_m]. intros Hm.
  destruct m as [| [p | p |] | p]; cbn [shr_1 shr_m]; try lia; try reflexivity.
  - apply (Z.div_unique (Z.pos p~1) 2 (Z.pos p) 1); lia.
  - apply (Z.div_unique (Z.pos p~0) 2 (Z.pos p) 0); lia.
Qed.

Lemma iter_pos_shr_1_m (p : positive) (r : shr_record) :
  0 <= shr_m r -> shr_m (SpecFloat.iter_pos shr_1 p r) = shr_m r / 2 ^ Z.pos p.
Proof.
  revert r. induction p as [p IH | p IH |]; intros r Hr; cbn [SpecFloat.iter_pos].
  - assert (H1 : 0 <= shr_m (shr_1 r)) by (rewrite shr_1_m by exact Hr; apply Z.div_pos; lia).
    assert (H2 : 0 <= shr_m (SpecFloat.iter_pos shr_1 p (shr_1 r)))
      by (rewrite IH by exact H1; apply Z.div_pos; lia).
    rewrite IH by exact H2. rewrite IH by exact H1. rewrite shr_1_m by exact Hr.
    rewrite !Z.div_div by lia. f_equal.
    rewrite Pos2Z.inj_xI, <- Z.pow_add_r, <- (Z.pow_1_r 2) at 1 by lia.
    rewrite <- Z.pow_add_r by lia. f_equal. lia.
  - assert (H1 : 0 <= shr_m (SpecFloat.iter_pos shr_1 p r))
      by (rewrite IH by exact Hr; apply Z.div_pos; lia).
    rewrite IH by exact H1. rewrite IH by exact Hr.
    rewrite Z.div_div by lia. f_equal.
    rewrite Pos2Z.inj_xO, <- Z.pow_add_r by lia. f_equal. lia.
  - rewrite shr_1_m by exact Hr. reflexivity.
Qed.

Lemma shr_record_of_loc_m (m : Z) (l : location) : shr_m (shr_record_of_loc m l) = m.
Proof. destruct l as [| []]; reflexivity. Qed.

(** What [shr_fexp] returns for a mantissa that is not negative. *)
Lemma shr_fexp_cases (m e : Z) (l : location) :
  0 <= m ->
  let k := fexp prec emax (Zdigits2 m + e) - e in
  (k <= 0 /\ shr_m (fst (shr_fexp prec emax m e l)) = m
   /\ snd (shr_fexp prec emax m e l) = e)
  \/ (0 < k /\ shr_m (fst (shr_fexp prec emax m e l)) = m / 2 ^ k
      /\ snd (shr_fexp prec emax m e l) = e + k).
Proof.
  intros Hm k. unfold shr_fexp, shr. fold k.
  destruct k as [| p | p] eqn:Hk.
  - left. cbn [fst snd]. rewrite shr_record_of_loc_m. lia.
  - right. cbn [fst snd]. rewrite iter_pos_shr_1_m by (rewrite shr_record_of_loc_m; exact Hm).
    rewrite shr_record_of_loc_m. lia.
  - left. cbn [fst snd]. rewrite shr_record_of_loc_m. lia.
Qed.

Lemma round_nearest_even_cases (m : Z) (l : location) :
  round_nearest_even m l = m \/ round_nearest_even m l = m + 1.
Proof. destruct l as [| []]; cbn; try (destruct (Z.even m)); auto. Qed.

Lemma binary_round_aux_not_nan (s : bool) (M E : Z) (l : location) :
  0 <= M -> binary_round_aux prec emax s M E l <> S754_nan.
Proof.
  intros HM. unfold binary_round_aux.
  destruct (shr_fexp prec emax M E l) as [mrs' e'] eqn:H1.
  assert (Hm' : 0 <= shr_m mrs').
  { destruct (shr_fexp_cases M E l HM) as [(_ & Hm & _) | (Hk & Hm & _)];
      rewrite H1 in Hm; cbn [fst] in Hm; rewrite Hm;
      [exact HM | apply Z.div_pos; [exact HM | apply Z.pow_pos_nonneg; lia]]. }
  set (m1 := round_nearest_even (shr_m mrs') (loc_of_shr_record mrs')).
  assert (Hm1 : 0 <= m1)
    by (destruct (round_nearest_even_cases (shr_m mrs') (loc_of_shr_record mrs'));
        subst m1; lia).
  destruct (shr_fexp prec emax m1 e' loc_Exact) as [mrs'' e''] eqn:H2.
  assert (Hm'' : 0 <= shr_m mrs'').
  { destruct (shr_fexp_cases m1 e' loc_Exact Hm1) as [(_ & Hm & _) | (Hk & Hm & _)];
      rewrite H2 in Hm; cbn [fst] in Hm; rewrite Hm;
      [exact Hm1 | apply Z.div_pos; [exact Hm1 | apply Z.pow_pos_nonneg; lia]]. }
  destruct (shr_m mrs'') as [| p | p]; [discriminate | | lia].
  destruct (e'' <=? emax - prec); discriminate.
Qed.

Lemma binary_round_aux_fin (s : bool) (M E : Z) (l : location) :
  0 <= M -> E <= 970 -> Zdigits2 M + E <= 1023 ->
  fin (binary_round_aux prec emax s M E l).
Proof.
  intros HM HE HD. unfold binary_round_aux.
  pose proof (Zdigits2_upper M HM) as HMlt.
  assert (HD0 : 0 <= Zdigits2 M) by (destruct M; cbn; lia).
  destruct (shr_fexp prec emax M E l) as [mrs' e'] eqn:H1.
  assert (Hfirst : 0 <= shr_m mrs' < 2 ^ 53 /\ -1074 <= e' <= 970).
  { destruct (shr_fexp_cases M E l HM) as [(Hk & Hm & He) | (Hk & Hm & He)];
      rewrite H1 in Hm, He; cbn [fst snd] in Hm, He; rewrite Hm, He;
      unfold fexp, emin, prec, emax in *.
    - split; [| lia]. split; [exact HM |].
      apply Z.lt_le_trans with (1 := HMlt). apply Z.pow_le_mono_r; lia.
    - split; [| lia]. split; [apply Z.div_pos; lia |].
      apply Z.div_lt_upper_bound; [lia |].
      apply Z.lt_le_trans with (1 := HMlt).
      rewrite <- Z.pow_add_r by lia. apply Z.pow_le_mono_r; lia. }
  destruct Hfirst as [[Hm'0 Hm'1] [He'0 He'1]].
  set (m1 := round_nearest_even (shr_m mrs') (loc_of_shr_record mrs')).
  assert (Hm1 : 0 <= m1 < 2 ^ 54).
  { destruct (round_nearest_even_cases (shr_m mrs') (loc_of_shr_record mrs')) as [H | H];
      subst m1; rewrite H; change (2 ^ 54) with (2 * 2 ^ 53); lia. }
  pose proof (Zdigits2_le m1 54 Hm1 ltac:(lia)) as HD1.
  assert (HD10 : 0 <= Zdigits2 m1) by (destruct m1; cbn; lia).
  destruct (shr_fexp prec emax m1 e' loc_Exact) as [mrs'' e''] eqn:H2.
  assert (Hsecond : 0 <= shr_m mrs'' /\ e'' <= 971).
  { destruct (shr_fexp_cases m1 e' loc_Exact (proj1 Hm1)) as [(Hk & Hm & He) | (Hk & Hm & He)];
      rewrite H2 in Hm, He; cbn [fst snd] in Hm, He; rewrite Hm, He;
      unfold fexp, emin, prec, emax in *.
    - lia.
    - split; [apply Z.div_pos; lia | lia]. }
  destruct Hsecond as [Hm'' He''].
  destruct (shr_m mrs'') as [| p | p]; [exact I | | lia].
  replace (e'' <=? emax - prec) with true; [exact I |].
  symmetry. apply Z.leb_le. unfold emax, prec. lia.
Qed.

Lemma binary_round_not_nan (s : bool) (m : positive) (e : Z) :
  binary_round prec emax s m e <> S754_nan.
Proof.
  unfold binary_round. destruct (shl_align m e _) as [mz ez].
  apply binary_round_aux_not_nan. lia.
Qed.

Lemma binary_normalize_not_nan (m e : Z) (szero : bool) :
  binary_normalize prec emax m e szero <> S754_nan.
Proof.
  destruct m; cbn [binary_normalize]; [discriminate | |]; apply binary_round_not_nan.
Qed.

Lemma shl_align_value (m : positive) (e e' : Z) :
  let '(mz, ez) := shl_align m e e' in
  ez <= e /\ ez <= e' /\ Z.pos mz = Z.pos m * 2 ^ (e - ez).
Proof.
  unfold shl_align. destruct (e' - e) as [| d | d] eqn:Hd.
  - rewrite Z.sub_diag. change (2 ^ 0) with 1. lia.
  - rewrite Z.sub_diag. change (2 ^ 0) with 1. lia.
  - assert (He : e - e' = Z.pos d) by lia. rewrite He.
    split; [lia |]. split; [lia |].
    change (Pos.iter xO m d) with (shift_pos d m).
    rewrite shift_pos_correct. change (Zpower_pos 2 d) with (2 ^ Z.pos d). lia.
Qed.

Lemma binary_round_fin (s : bool) (m : positive) (e : Z) :
  Zdigits2 (Z.pos m) + e <= 1023 -> fin (binary_round prec emax s m e).
Proof.
  intros HD. unfold binary_round.
  pose proof (shl_align_value m e (fexp prec emax (Z.pos (digits2_pos m) + e))) as Hal.
  destruct (shl_align m e _) as [mz ez]. destruct Hal as (Hez & Hez' & Hmz).
  pose proof (Zdigits2_upper (Z.pos m) ltac:(lia)) as Hm.
  cbn [Zdigits2] in HD, Hm.
  apply binary_round_aux_fin; [lia | unfold fexp, emin, prec, emax in Hez'; lia |].
  assert (Zdigits2 (Z.pos mz) <= Z.pos (digits2_pos m) + (e - ez)); [| lia].
  apply Zdigits2_le; [| lia]. split; [lia |].
  rewrite Hmz, Z.pow_add_r by lia.
  apply Z.mul_lt_mono_pos_r; [apply Z.pow_pos_nonneg; lia | exact Hm].
Qed.

Lemma binary_normalize_fin (m e : Z) (szero : bool) :
  Zdigits2 m + e <= 1023 -> fin (binary_normalize prec emax m e szero).
Proof.
  destruct m; cbn [binary_normalize]; intros H; [exact I | |];
    apply binary_round_fin; exact H.
Qed.

(** [float(n)] of a 63 bit integer is finite. *)
Lemma of_uint63_fin (i : int) : fin (Prim2SF (of_uint63 i)).
Proof.
  rewrite of_uint63_spec. apply binary_normalize_fin.
  pose proof (to_Z_bounded i) as Hi. change wB with (2 ^ 63) in Hi.
  pose proof (Zdigits2_le (to_Z i) 63 Hi ltac:(lia)). lia.
Qed.

Lemma valid_binary_bounds (s : bool) (m : positive) (e : Z) :
  valid_binary (S754_finite s m e) = true -> Z.pos m < 2 ^ 53 /\ e <= 971.
Proof.
  cbn [SpecFloat.valid_binary]. unfold bounded, canonical_mantissa. intros H.
  apply andb_true_iff in H as [Hc He]. apply Z.eqb_eq in Hc. apply Z.leb_le in He.
  unfold fexp, emin, prec, emax in *. split; [| lia].
  pose proof (Zdigits2_upper (Z.pos m) ltac:(lia)) as Hm. cbn [Zdigits2] in Hm.
  apply Z.lt_le_trans with (1 := Hm). apply Z.pow_le_mono_r; lia.
Qed.

(** Halving a finite float gives a finite float. *)
Lemma SFmul_half_fin (x : spec_float) :
  fin x -> valid_binary x = true ->
  fin (SF64mul x (S754_finite false 4503599627370496 (-53))).
Proof.
  destruct x as [s | s | | s m e]; cbn [fin]; try contradiction; intros _ Hvalid.
  - exact I.
  - apply valid_binary_bounds in Hvalid as [Hm He].
    unfold SF64mul, SFmul. apply binary_round_aux_fin; [lia | lia |].
    assert (Zdigits2 (Z.pos (m * 4503599627370496)) <= 105); [| lia].
    apply Zdigits2_le; [| lia]. rewrite Pos2Z.inj_mul.
    change (Z.pos 4503599627370496) with (2 ^ 52). change (2 ^ 105) with (2 ^ 53 * 2 ^ 52).
    lia.
Qed.

(** *** No operation of the score makes a NaN *)

Lemma SFdiv_not_nan (sx : bool) (mx : positive) (ex : Z) (y : spec_float) :
  y <> S754_nan -> SF64div (S754_finite sx mx ex) y <> S754_nan.
Proof.
  intros Hy. destruct y as [sy | sy | | sy my ey]; try discriminate; [contradiction |].
  unfold SF64div, SFdiv, SFdiv_core_binary.
  set (m' := match _ - _ - _ with Z.pos _ => _ | Z0 => _ | Z.neg _ => _ end).
  assert (Hm' : 0 <= m').
  { subst m'. destruct (_ - _ - _); [lia | apply Z.shiftl_nonneg; lia | lia]. }
  pose proof (Z_div_mod m' (Z.pos my) ltac:(lia)) as Hdiv.
  destruct (Z.div_eucl m' (Z.pos my)) as [q r].
  apply binary_round_aux_not_nan. nia.
Qed.

Lemma SFmul_not_nan (x : spec_float) (sy : bool) (my : positive) (ey : Z) :
  x <> S754_nan -> SF64mul x (S754_finite sy my ey) <> S754_nan.
Proof.
  intros Hx. destruct x as [sx | sx | | sx mx ex]; try discriminate; [contradiction |].
  unfold SF64mul, SFmul. apply binary_round_aux_not_nan. lia.
Qed.

Lemma SFadd_not_nan (x y : spec_float) :
  x <> S754_nan -> fin y -> SF64add x y <> S754_nan.
Proof.
  intros Hx Hy.
  destruct x as [sx | sx | | sx mx ex], y as [sy | sy | | sy my ey];
    cbn [fin] in Hy; try contradiction; try discriminate;
    unfold SF64add, SFadd.
  - destruct sx, sy; discriminate.
  - apply binary_normalize_not_nan.
Qed.

Lemma SFsub_not_nan (x y : spec_float) :
  x <> S754_nan -> fin y -> SF64sub x y <> S754_nan.
Proof.
  intros Hx Hy.
  destruct x as [sx | sx | | sx mx ex], y as [sy | sy | | sy my ey];
    cbn [fin] in Hy; try contradiction; try discriminate;
    unfold SF64sub, SFsub.
  - destruct sx, sy; discriminate.
  - apply binary_normalize_not_nan.
Qed.

Lemma fin_not_nan (x : spec_float) : fin x -> x <> S754_nan.
Proof. destruct x; cbn; intros H; (contradiction || discriminate). Qed.

(** *** The order of the floats that are not NaN *)

Lemma SFcompare_refl (x : spec_float) : x <> S754_nan -> SFcompare x x = Some Eq.
Proof.
  destruct x as [s | s | | s m e]; intros H; try reflexivity; [destruct s; reflexivity | contradiction |].
  cbn [SFcompare]. rewrite Z.compare_refl.
  change (Pos.compare_cont Eq m m) with (Pos.compare m m). rewrite Pos.compare_refl.
  destruct s; reflexivity.
Qed.

Lemma SFltb_false_leb (x y : spec_float) :
  x <> S754_nan -> y <> S754_nan -> SFltb x y = false -> SFleb y x = true.
Proof.
  unfold SFltb, SFleb, SFcompare.
  destruct x as [sx | sx | | sx mx ex], y as [sy | sy | | sy my ey];
    try destruct sx; try destruct sy; intros Hx Hy;
    try contradiction; try discriminate; try reflexivity.
  all: rewrite (Z.compare_antisym ex ey);
    change (Pos.compare_cont Eq ?a ?b) with (Pos.compare a b);
    rewrite (Pos.compare_antisym mx my);
    destruct (ex ?= ey), (mx ?= my)%positive; cbn; try discriminate; reflexivity.
Qed.

Lemma SFleb_not_ltb (x y : spec_float) : SFleb y x = true -> SFltb x y = false.
Proof.
  unfold SFltb, SFleb, SFcompare.
  destruct x as [sx | sx | | sx mx ex], y as [sy | sy | | sy my ey];
    try destruct sx; try destruct sy;
    try discriminate; try reflexivity.
  all: rewrite (Z.compare_antisym ex ey);
    change (Pos.compare_cont Eq ?a ?b) with (Pos.compare a b);
    rewrite (Pos.compare_antisym mx my);
    destruct (ex ?= ey), (mx ?= my)%positive; cbn; try discriminate; reflexivity.
Qed.

Lemma SFleb_trans (a b c : spec_float) :
  SFleb a b = true -> SFleb b c = true -> SFleb a c = true.
Proof.
  unfold SFleb, SFcompare.
  destruct a as [sa | sa | | sa ma ea], b as [sb | sb | | sb mb eb],
    c as [sc | sc | | sc mc ec];
    try destruct sa; try destruct sb; try destruct sc;
    try discriminate; try reflexivity; intros Hab Hbc.
  all: destruct (Z.compare_spec ea eb), (Z.compare_spec eb ec), (Z.compare_spec ea ec);
    try discriminate; try reflexivity; try lia.
  all: change (Pcompare ?x ?y Eq) with (Pos.compare x y) in *.
  all: destruct (Pos.compare_spec ma mb), (Pos.compare_spec mb mc),
         (Pos.compare_spec ma mc);
    try discriminate; try reflexivity; try lia.
Qed.

(** *** On primitive floats *)

Lemma is_nan_false (f : float) :
  PrimFloat.is_nan f = false <-> Prim2SF f <> S754_nan.
Proof.
  unfold PrimFloat.is_nan. rewrite FloatAxioms.eqb_spec. unfold SFeqb. split.
  - intros H Hnan. rewrite Hnan in H. discriminate.
  - intros H. rewrite (SFcompare_refl _ H). reflexivity.
Qed.

Lemma is_finite_fin (f : float) : PrimFloat.is_finite f = true -> fin (Prim2SF f).
Proof.
  unfold PrimFloat.is_finite, PrimFloat.is_nan, PrimFloat.is_infinity.
  rewrite !FloatAxioms.eqb_spec, FloatAxioms.abs_spec.
  destruct (Prim2SF f) as [s | s | | s m e]; cbn [fin]; try (intros _; exact I).
  - destruct s; vm_compute; intros H; discriminate H.
  - vm_compute. intros H. discriminate H.
Qed.

Lemma of_Z_fin (n : Z) : fin (Prim2SF (Binary64.of_Z n)).
Proof.
  unfold Binary64.of_Z. destruct (n <? 0); [| apply of_uint63_fin].
  rewrite FloatAxioms.opp_spec. pose proof (of_uint63_fin (Uint63.of_Z (- n))) as H.
  destruct (Prim2SF (of_uint63 (Uint63.of_Z (- n)))); exact H.
Qed.

Lemma float_of_int_fin (n : Z) (f : float) :
  Binary64.float_of_int n = Return f -> fin (Prim2SF f).
Proof.
  unfold Binary64.float_of_int. destruct (Z.abs n <? 2 ^ 63).
  - intros [= <-]. apply of_Z_fin.
  - destruct (PrimFloat.is_finite _) eqn:Hfin; [| discriminate].
    intros [= <-]. apply is_finite_fin. exact Hfin.
Qed.

Lemma float_of_int_small (n : Z) :
  Z.abs n < 2 ^ 63 -> Binary64.float_of_int n = Return (Binary64.of_Z n).
Proof.
  intros Hn. unfold Binary64.float_of_int.
  replace (Z.abs n <? 2 ^ 63) with true; [reflexivity |].
  symmetry. apply Z.ltb_lt. exact Hn.
Qed.

Lemma urgency_is_a_number (days_left : Z) :
  Prim2SF (Binary64.urgency days_left) <> S754_nan.
Proof.
  unfold Binary64.urgency. rewrite FloatAxioms.div_spec.
  change (Prim2SF 1) with (S754_finite false 4503599627370496 (-52)).
  apply SFdiv_not_nan. unfold Binary64.max_tenth.
  destruct (days_left <=? 0); [vm_compute; discriminate |].
  apply fin_not_nan, of_Z_fin.
Qed.

(** The last three operations of the scoring loop give a number. *)
Lemma score_is_a_number (days_left difficulty recent : Z) (penalty sum : float) :
  Binary64.int_mul recent 0.5%float = Return penalty ->
  Binary64.add_int (PrimFloat.mul (Binary64.urgency days_left) 1.5%float) difficulty
  = Return sum ->
  PrimFloat.is_nan (PrimFloat.sub sum penalty) = false.
Proof.
  unfold Binary64.int_mul, Binary64.add_int.
  destruct (Binary64.float_of_int recent) as [n |] eqn:Hn; [| discriminate].
  destruct (Binary64.float_of_int difficulty) as [d |] eqn:Hd; [| discriminate].
  intros [= <-] [= <-]. apply is_nan_false.
  rewrite FloatAxioms.sub_spec. apply SFsub_not_nan.
  - rewrite FloatAxioms.add_spec. apply SFadd_not_nan; [| exact (float_of_int_fin _ _ Hd)].
    rewrite FloatAxioms.mul_spec.
    change (Prim2SF 1.5) with (S754_finite false 6755399441055744 (-52)).
    apply SFmul_not_nan, urgency_is_a_number.
  - rewrite FloatAxioms.mul_spec.
    change (Prim2SF 0.5) with (S754_finite false 4503599627370496 (-53)).
    apply SFmul_half_fin; [exact (float_of_int_fin _ _ Hn) | apply Prim2SF_valid].
Qed.

(** A score the program computes is never a NaN. *)
Lemma cli_score_is_a_number (session_log : sessions) (today : date) (now : datetime)
    (subj : string) (data : subject_data) (s : float) :
  Cli.priority_score session_log today now subj data = Return s ->
  PrimFloat.is_nan s = false.
Proof.
  unfold Cli.priority_score.
  destruct (exam_date data) as [exam |]; [| discriminate].
  destruct (confidence data) as [stored_conf |]; [| discriminate].
  destruct (Binary64.int_mul _ _) as [penalty |] eqn:Hp; [| discriminate].
  destruct (Binary64.add_int _ _) as [sum |] eqn:Hs; [| discriminate].
  intros [= <-]. exact (score_is_a_number _ _ _ _ _ Hp Hs).
Qed.

Lemma web_score_is_a_number (session_log : sessions) (today : date) (now : datetime)
    (subj : string) (data : subject_data) (s : float) :
  Web.priority_score session_log today now subj data = Return s ->
  PrimFloat.is_nan s = false.
Proof.
  unfold Web.priority_score.
  destruct (exam_date data) as [exam |]; [| discriminate].
  destruct (confidence data) as [stored_conf |]; [| discriminate].
  destruct (Binary64.int_mul _ _) as [penalty |] eqn:Hp; [| discriminate].
  destruct (Binary64.add_int _ _) as [sum |] eqn:Hs; [| discriminate].
  intros [= <-]. exact (score_is_a_number _ _ _ _ _ Hp Hs).
Qed.

Lemma float_ltb_false_leb (x y : float) :
  PrimFloat.is_nan x = false -> PrimFloat.is_nan y = false ->
  PrimFloat.ltb x y = false -> PrimFloat.leb y x = true.
Proof.
  rewrite !is_nan_false, FloatAxioms.ltb_spec, FloatAxioms.leb_spec.
  apply SFltb_false_leb.
Qed.

Lemma float_leb_not_ltb (x y : float) :
  PrimFloat.leb y x = true -> PrimFloat.ltb x y = false.
Proof. rewrite FloatAxioms.ltb_spec, FloatAxioms.leb_spec. apply SFleb_not_ltb. Qed.

Lemma float_leb_trans (x y z : float) :
  PrimFloat.leb x y = true -> PrimFloat.leb y z = true -> PrimFloat.leb x z = true.
Proof. rewrite !FloatAxioms.leb_spec. apply SFleb_trans. Qed.

Lemma float_ltb_leb (x y : float) :
  PrimFloat.ltb x y = true -> PrimFloat.leb x y = true.
Proof.
  rewrite FloatAxioms.ltb_spec, FloatAxioms.leb_spec. unfold SFltb, SFleb.
  destruct (SFcompare _ _) as [[] |]; (discriminate || reflexivity).
Qed.

Lemma SFeqb_leb (x y : spec_float) :
  SFeqb x y = true -> SFleb x y = true /\ SFleb y x = true.
Proof.
  unfold SFeqb, SFleb, SFcompare.
  destruct x as [sx | sx | | sx mx ex], y as [sy | sy | | sy my ey];
    try destruct sx; try destruct sy;
    try discriminate; try (split; reflexivity).
  all: rewrite (Z.compare_antisym ex ey);
    change (Pos.compare_cont Eq ?a ?b) with (Pos.compare a b);
    rewrite (Pos.compare_antisym mx my);
    destruct (ex ?= ey), (mx ?= my)%positive; cbn; try discriminate; split; reflexivity.
Qed.

(** Two floats equal to a third are not in strict order. *)
Lemma float_eqb_not_ltb (x y q : float) :
  PrimFloat.eqb x q = true -> PrimFloat.eqb y q = true -> PrimFloat.ltb x y = false.
Proof.
  rewrite !FloatAxioms.eqb_spec, FloatAxioms.ltb_spec. intros Hx Hy.
  apply SFeqb_leb in Hx as [_ Hqx]. apply SFeqb_leb in Hy as [Hyq _].
  apply SFleb_not_ltb. exact (SFleb_trans _ _ _ Hyq Hqx).
Qed.

(** ** The priority score *)

Lemma filter_eqb_subject (subj : string) (l : sessions) :
  List.filter (fun entry => String.eqb (subject entry) subj) l
  = Spec.sessions_of l subj.
Proof.
  unfold Spec.sessions_of. induction l as [| e l IH]; [reflexivity |].
  rewrite filter_cons. cbn [List.filter].
  destruct (String.eqb_spec (subject e) subj) as [Heq | Hne];
    destruct (decide (subject e = subj)) as [Heq' | Hne']; try contradiction;
    rewrite IH; reflexivity.
Qed.

Lemma filter_eqb_recent (subj : string) (cutoff : Z) (l : sessions) :
  List.filter (fun entry => String.eqb (subject entry) subj && (cutoff <=? timestamp entry)) l
  = filter (fun entry => cutoff <= timestamp entry) (Spec.sessions_of l subj).
Proof.
  unfold Spec.sessions_of. induction l as [| e l IH]; [reflexivity |].
  rewrite filter_cons. cbn [List.filter].
  destruct (String.eqb_spec (subject e) subj) as [Heq | Hne];
    destruct (decide (subject e = subj)) as [Heq' | Hne']; try contradiction;
    cbn [andb].
  - rewrite filter_cons.
    destruct (Z.leb_spec cutoff (timestamp e)) as [Hle | Hgt];
      destruct (decide (cutoff <= timestamp e)) as [Hle' | Hgt']; try lia;
      rewrite IH; reflexivity.
  - exact IH.
Qed.

Lemma fold_right_max_shift (x t : Z) (r : list Z) :
  fold_right Z.max (Z.max t x) r = Z.max x (fold_right Z.max t r).
Proof. induction r as [| y r IH]; simpl; [lia | rewrite IH; lia]. Qed.

Lemma fold_left_max_right (ts : list Z) (t : Z) :
  fold_left Z.max ts t = fold_right Z.max t ts.
Proof.
  revert t. induction ts as [| x r IH]; intros t; simpl; [reflexivity |].
  rewrite IH. apply fold_right_max_shift.
Qed.

Lemma py_sum_ones_from {A} (l : list A) (a : Z) :
  fold_left Z.add (map (fun _ => 1) l) a = a + Z.of_nat (length l).
Proof.
  revert a. induction l as [| x l IH]; intros a; simpl length; simpl map; simpl fold_left.
  - lia.
  - rewrite IH. lia.
Qed.

Lemma py_sum_ones {A} (l : list A) : py_sum (map (fun _ => 1) l) = Z.of_nat (length l).
Proof. unfold py_sum. rewrite py_sum_ones_from. lia. Qed.

Lemma cli_days_since_spec (session_log : sessions) (now : datetime) (subj : string) :
  Cli.get_days_since_last_session session_log now subj
  = Spec.days_since_last_session session_log now subj.
Proof.
  unfold Cli.get_days_since_last_session, Spec.days_since_last_session.
  rewrite filter_eqb_subject.
  destruct (map timestamp (Spec.sessions_of session_log subj)) as [| t ts];
    [reflexivity |].
  rewrite fold_left_max_right. reflexivity.
Qed.

Lemma web_days_since_cli (session_log : sessions) (now : datetime) (subj : string) :
  Web.get_days_since_last_session session_log now subj
  = Cli.get_days_since_last_session session_log now subj.
Proof. reflexivity. Qed.

Lemma cli_recent_count_spec (session_log : sessions) (now : datetime) (subj : string) :
  Cli.recent_session_count session_log now subj 7
  = Spec.count_since session_log now subj.
Proof.
  unfold Cli.recent_session_count, Spec.count_since.
  rewrite py_sum_ones, filter_eqb_recent. reflexivity.
Qed.

(** What the most recent session is: [days_since_last_session] is [None]
    exactly when the subject has no session; otherwise it is the whole days
    from a session of the subject that no other session of it follows. *)
Lemma days_since_last_session_latest (session_log : sessions) (now : datetime)
    (subj : string) :
  match Spec.days_since_last_session session_log now subj with
  | None => forall entry, entry ∈ session_log -> subject entry <> subj
  | Some d =>
      exists last, last ∈ session_log /\ subject last = subj
        /\ d = delta_days now (timestamp last)
        /\ forall entry, entry ∈ session_log -> subject entry = subj ->
                         timestamp entry <= timestamp last
  end.
Proof.
  unfold Spec.days_since_last_session.
  assert (Hmem : forall e, e ∈ Spec.sessions_of session_log subj
                           <-> e ∈ session_log /\ subject e = subj).
  { intros e. unfold Spec.sessions_of. rewrite list_elem_of_filter. tauto. }
  destruct (Spec.sessions_of session_log subj) as [| e0 es] eqn:Hsess; simpl.
  - intros entry Hin Hsub. apply (not_elem_of_nil entry). apply Hmem. auto.
  - assert (Hmax : forall (es : list session) (e0 : session),
               exists last, last ∈ e0 :: es
                 /\ fold_right Z.max (timestamp e0) (map timestamp es) = timestamp last
                 /\ forall e, e ∈ e0 :: es -> timestamp e <= timestamp last).
    { clear. intros es. induction es as [| e1 es IH]; intros e0; simpl.
      - exists e0. split; [apply list_elem_of_here |]. split; [reflexivity |].
        intros e He. apply list_elem_of_singleton in He. subst e. lia.
      - destruct (IH e0) as (last & Hin & Heq & Hle).
        destruct (Z_le_gt_dec (timestamp e1) (timestamp last)) as [Hsmall | Hbig].
        + exists last. split.
          { apply elem_of_cons in Hin as [-> | Hin];
              [apply list_elem_of_here | do 2 apply list_elem_of_further; exact Hin]. }
          split; [rewrite Heq; lia |].
          intros e He. apply elem_of_cons in He as [-> | He].
          { apply Hle. apply list_elem_of_here. }
          apply elem_of_cons in He as [-> | He]; [exact Hsmall |].
          apply Hle. apply list_elem_of_further. exact He.
        + exists e1. split; [apply list_elem_of_further, list_elem_of_here |].
          split; [rewrite Heq; lia |].
          intros e He. apply elem_of_cons in He as [-> | He].
          { specialize (Hle e0 (list_elem_of_here _ _)). lia. }
          apply elem_of_cons in He as [-> | He]; [lia |].
          specialize (Hle e (list_elem_of_further _ _ _ He)). lia. }
    destruct (Hmax es e0) as (last & Hin & Heq & Hle).
    exists last. apply Hmem in Hin as [Hin Hsub].
    split; [exact Hin |]. split; [exact Hsub |]. split; [rewrite Heq; reflexivity |].
    intros entry Hentry Hs. apply Hle. apply Hmem. auto.
Qed.




(** The float scores: the loop bodies against the formula on floats. *)
Lemma cli_float_score_formula (session_log : sessions) (today : date) (now : datetime)
    (subj : string) (stored_conf : Z) (exam : date) :
  1 <= stored_conf ->
  Cli.priority_score session_log today now subj
    (SubjectData (Some stored_conf) (Some exam))
  = Spec.score_binary64 (exam - today)
      (Spec.days_since_last_session session_log now subj) stored_conf
      (Spec.count_since session_log now subj).
Proof.
  intros Hconf. unfold Cli.priority_score, Spec.score_binary64.
  cbn [exam_date confidence].
  rewrite cli_recent_count_spec, cli_days_since_spec.
  unfold Binary64.int_mul, Binary64.add_int, Binary64.urgency,
    Spec.difficulty, Spec.adjusted_confidence, Spec.decay.
  destruct (Binary64.float_of_int (Spec.count_since session_log now subj)) as [n |];
    [| reflexivity].
  destruct (Spec.days_since_last_session session_log now subj) as [d |].
  - destruct (Binary64.float_of_int _); reflexivity.
  - replace (Z.max 1 (stored_conf - 0)) with stored_conf by lia.
    destruct (Binary64.float_of_int _); reflexivity.
Qed.

Lemma web_float_score_formula (session_log : sessions) (today : date) (now : datetime)
    (subj : string) (stored_conf : Z) (exam : date) :
  Web.priority_score session_log today now subj
    (SubjectData (Some stored_conf) (Some exam))
  = Spec.score_binary64 (exam - today)
      (Spec.days_since_last_session session_log now subj) stored_conf
      (Spec.count_since session_log now subj).
Proof.
  unfold Web.priority_score, Spec.score_binary64.
  cbn [exam_date confidence].
  change (py_sum _) with (Cli.recent_session_count session_log now subj 7).
  rewrite cli_recent_count_spec, web_days_since_cli, cli_days_since_spec.
  unfold Binary64.int_mul, Binary64.add_int, Binary64.urgency,
    Spec.difficulty, Spec.adjusted_confidence, Spec.decay.
  destruct (Binary64.float_of_int (Spec.count_since session_log now subj)) as [n |];
    [| reflexivity].
  destruct (Binary64.float_of_int _); reflexivity.
Qed.

(** *** No overflow on a log the program can hold *)

Lemma count_since_bound (session_log : sessions) (now : datetime) (subj : string) :
  0 <= Spec.count_since session_log now subj <= Z.of_nat (length session_log).
Proof.
  unfold Spec.count_since, Spec.sessions_of. split; [lia |].
  apply Nat2Z.inj_le.
  etransitivity; [apply length_filter | apply length_filter].
Qed.

Lemma delta_days_bound (now t : datetime) :
  datetime_in_range now -> datetime_in_range t ->
  -3652060 <= delta_days now t <= 3652060.
Proof.
  unfold datetime_in_range, datetime_min, datetime_end, at_time, delta_days, day_us.
  intros Hn Ht. split.
  - apply Z.div_le_lower_bound; lia.
  - apply Z.div_le_upper_bound; lia.
Qed.

Lemma days_since_bound (session_log : sessions) (now : datetime) (subj : string) (d : Z) :
  python_log now session_log ->
  Spec.days_since_last_session session_log now subj = Some d ->
  -3652060 <= d <= 3652060.
Proof.
  intros (Hnow & Hlog & _) Hd.
  pose proof (days_since_last_session_latest session_log now subj) as Hlast.
  rewrite Hd in Hlast. destruct Hlast as (last & Hin & _ & -> & _).
  apply delta_days_bound; [exact Hnow |].
  rewrite Forall_forall in Hlog. exact (Hlog last Hin).
Qed.

Lemma score_binary64_returns (session_log : sessions) (today : date) (now : datetime)
    (subj : string) (stored_conf : Z) (exam : date) :
  1 <= stored_conf <= 10 -> python_log now session_log ->
  exists f,
    Spec.score_binary64 (exam - today)
      (Spec.days_since_last_session session_log now subj) stored_conf
      (Spec.count_since session_log now subj) = Return f.
Proof.
  intros Hconf Hlog. unfold Spec.score_binary64.
  pose proof (count_since_bound session_log now subj) as Hcount.
  destruct Hlog as (Hnow & Htimes & Hlen).
  rewrite float_of_int_small by lia.
  assert (Hd : Z.abs (Spec.difficulty
                        (Spec.adjusted_confidence stored_conf
                           (Spec.decay (Spec.days_since_last_session session_log now subj))))
               < 2 ^ 63).
  { unfold Spec.difficulty, Spec.adjusted_confidence, Spec.decay.
    destruct (Spec.days_since_last_session session_log now subj) as [d |] eqn:Hds.
    - pose proof (days_since_bound session_log now subj d
                    (conj Hnow (conj Htimes Hlen)) Hds) as Hbound.
      assert (-521724 <= d / 7 <= 521724).
      { split; [apply Z.div_le_lower_bound | apply Z.div_le_upper_bound]; lia. }
      change (2 ^ 63) with 9223372036854775808. lia.
    - change (2 ^ 63) with 9223372036854775808. lia. }
  rewrite float_of_int_small by exact Hd. eexists. reflexivity.
Qed.

Lemma sample_subjects_in_range : confidences_in_range sample_subjects.
Proof. store_in_range. Qed.

Lemma python_log_nil (now : datetime) : datetime_in_range now -> python_log now [].
Proof. intros Hnow. split; [exact Hnow |]. split; [constructor | reflexivity]. Qed.

Lemma study_week_python_log : python_log sample_now study_week.
Proof.
  split; [vm_compute; split; [discriminate | reflexivity] |].
  split; [| vm_compute; reflexivity].
  unfold study_week. repeat constructor; vm_compute; discriminate || reflexivity.
Qed.





(** ** Ranking and selection *)

Lemma insert_desc_perm (x : string * float) (l : list (string * float)) :
  Permutation (insert_desc x l) (x :: l).
Proof.
  induction l as [| y l IH]; simpl; [reflexivity |].
  destruct (PrimFloat.ltb (snd x) (snd y)); [| reflexivity].
  rewrite IH. apply perm_swap.
Qed.

Lemma sort_desc_perm (l : list (string * float)) : Permutation (sort_desc l) l.
Proof.
  induction l as [| x l IH]; simpl; [reflexivity |].
  rewrite insert_desc_perm, IH. reflexivity.
Qed.

Lemma sort_desc_numbers (l : list (string * float)) :
  all_numbers l -> all_numbers (sort_desc l).
Proof. unfold all_numbers. intros H. rewrite sort_desc_perm. exact H. Qed.

Lemma insert_desc_hd (x y : string * float) (l : list (string * float)) :
  PrimFloat.leb (snd x) (snd y) = true ->
  HdRel (fun a b => PrimFloat.leb (snd b) (snd a) = true) y l ->
  HdRel (fun a b => PrimFloat.leb (snd b) (snd a) = true) y (insert_desc x l).
Proof.
  intros Hxy Hhd. destruct l as [| z l]; simpl.
  - constructor. exact Hxy.
  - destruct (PrimFloat.ltb (snd x) (snd z)).
    + constructor. inversion Hhd; assumption.
    + constructor. exact Hxy.
Qed.

Lemma insert_desc_sorted (x : string * float) (l : list (string * float)) :
  PrimFloat.is_nan (snd x) = false -> all_numbers l ->
  Spec.descending l -> Spec.descending (insert_desc x l).
Proof.
  unfold Spec.descending, all_numbers. intros Hx.
  induction l as [| y l IH]; intros Hnum Hsorted; simpl.
  - repeat constructor.
  - inversion Hsorted as [| ? ? Hl Hhd]; subst.
    inversion Hnum as [| ? ? Hy Hnum']; subst.
    destruct (PrimFloat.ltb (snd x) (snd y)) eqn:Hlt.
    + constructor; [apply IH; assumption |].
      apply insert_desc_hd; [apply float_ltb_leb; exact Hlt | exact Hhd].
    + constructor; [exact Hsorted |]. constructor.
      apply float_ltb_false_leb; assumption.
Qed.

Lemma sort_desc_sorted (l : list (string * float)) :
  all_numbers l -> Spec.descending (sort_desc l).
Proof.
  induction l as [| x l IH]; intros Hnum; simpl; [constructor |].
  inversion Hnum as [| ? ? Hx Hnum']; subst.
  apply insert_desc_sorted; [exact Hx | apply sort_desc_numbers; exact Hnum' | auto].
Qed.

(** Descending as a statement on positions: an earlier rank has a score at
    least as high. *)
Lemma descending_ranks (l : list (string * float)) (i j : nat) (a b : string * float) :
  all_numbers l -> Spec.descending l ->
  (i <= j)%nat -> l !! i = Some a -> l !! j = Some b ->
  PrimFloat.leb (snd b) (snd a) = true.
Proof.
  intros Hnum Hsorted. apply Sorted_StronglySorted in Hsorted.
  - revert i j Hnum. induction Hsorted as [| x l Hl IH Hall]; intros i j Hnum Hij Hi Hj.
    + discriminate.
    + inversion Hnum as [| ? ? Hx Hnum']; subst.
      destruct i as [| i], j as [| j]; simpl in Hi, Hj; try lia.
      * injection Hi as <-. injection Hj as <-.
        apply float_ltb_false_leb; [exact Hx | exact Hx |].
        destruct (PrimFloat.ltb (snd x) (snd x)) eqn:Hlt; [| reflexivity].
        pose proof (float_leb_not_ltb _ _ (float_ltb_leb _ _ Hlt)). congruence.
      * injection Hi as <-. rewrite Forall_forall in Hall. apply Hall.
        apply list_elem_of_lookup. exists j. exact Hj.
      * apply (IH i j); [exact Hnum' | lia | assumption | assumption].
  - intros a' b' c' Hab Hbc. apply float_leb_trans with (y := snd b'); assumption.
Qed.

(** The sort is stable where it matters for the choice: the pair of rank 0
    is the first pair of the list with the highest score. *)
Lemma sort_desc_top_first_maximal (scored : list (string * float))
    (top : string) (s : float) (rest : list (string * float)) :
  all_numbers scored ->
  sort_desc scored = (top, s) :: rest ->
  exists before after,
    scored = before ++ (top, s) :: after
    /\ (forall p, p ∈ before -> PrimFloat.ltb (snd p) s = true)
    /\ (forall p, p ∈ after -> PrimFloat.leb (snd p) s = true).
Proof.
  revert top s rest.
  induction scored as [| [y sy] l IH]; intros top s rest Hnum Hsort.
  - discriminate.
  - inversion Hnum as [| ? ? Hy Hnum']; subst. cbn [sort_desc] in Hsort.
    cbn [snd] in Hy.
    destruct (sort_desc l) as [| [z sz] tl] eqn:Hl.
    + cbn [insert_desc] in Hsort. injection Hsort as -> -> <-.
      assert (l = []) as ->.
      { apply Permutation_nil. rewrite <- Hl. apply sort_desc_perm. }
      exists [], []. split; [reflexivity |].
      split; intros p Hp; apply not_elem_of_nil in Hp; contradiction.
    + cbn [insert_desc snd] in Hsort.
      destruct (PrimFloat.ltb sy sz) eqn:Hlt.
      * injection Hsort as -> -> _.
        destruct (IH top s tl Hnum' eq_refl) as (before & after & -> & Hb & Ha).
        exists ((y, sy) :: before), after. split; [reflexivity |]. split; [| exact Ha].
        intros p Hp. apply elem_of_cons in Hp as [-> | Hp]; [exact Hlt | exact (Hb p Hp)].
      * injection Hsort as -> -> _. exists [], l. split; [reflexivity |].
        split; [intros p Hp; apply not_elem_of_nil in Hp; contradiction |].
        intros p Hp.
        assert (Hsorted : Spec.descending (sort_desc l))
          by (apply sort_desc_sorted; exact Hnum').
        assert (Hnum_sorted : all_numbers (sort_desc l))
          by (apply sort_desc_numbers; exact Hnum').
        rewrite Hl in Hsorted, Hnum_sorted.
        assert (Hp' : p ∈ (z, sz) :: tl) by (rewrite <- Hl, sort_desc_perm; exact Hp).
        apply list_elem_of_lookup in Hp' as [j Hj].
        pose proof (descending_ranks _ O j (z, sz) p Hnum_sorted Hsorted
                      ltac:(lia) eq_refl Hj) as Hpz.
        apply float_leb_trans with (y := sz); [exact Hpz |].
        inversion Hnum_sorted as [| ? ? Hz _]; subst.
        apply float_ltb_false_leb; assumption.
Qed.

Lemma for_each_subject_names (score : string -> subject_data -> result float)
    (subjects : subject_store) (scored : list (string * float)) :
  for_each_subject score subjects = Return scored ->
  map fst scored = map fst subjects
  /\ forall subj s, (subj, s) ∈ scored ->
       exists data, (subj, data) ∈ subjects /\ score subj data = Return s.
Proof.
  revert scored. induction subjects as [| [subj data] rest IH]; intros scored Hrun;
    simpl in Hrun.
  - injection Hrun as <-. split; [reflexivity |].
    intros subj s Hin. apply not_elem_of_nil in Hin. contradiction.
  - destruct (score subj data) as [s |] eqn:Hs; [| discriminate].
    destruct (for_each_subject score rest) as [tail |]; [| discriminate].
    injection Hrun as <-. destruct (IH tail eq_refl) as [Hnames Hall].
    split; [simpl; rewrite Hnames; reflexivity |].
    intros subj' s' Hin. apply elem_of_cons in Hin as [Heq | Hin].
    + injection Heq as -> ->. exists data. split; [apply list_elem_of_here | exact Hs].
    + destruct (Hall subj' s' Hin) as (data' & Hin' & Hs').
      exists data'. split; [apply list_elem_of_further; exact Hin' | exact Hs'].
Qed.

Lemma for_each_subject_numbers (score : string -> subject_data -> result float)
    (subjects : subject_store) (scored : list (string * float)) :
  (forall subj data s, score subj data = Return s -> PrimFloat.is_nan s = false) ->
  for_each_subject score subjects = Return scored -> all_numbers scored.
Proof.
  intros Hscore Hrun. destruct (for_each_subject_names _ _ _ Hrun) as [_ Hall].
  unfold all_numbers. rewrite Forall_forall. intros [subj s] Hin. cbn [snd].
  destruct (Hall subj s Hin) as (data & _ & Hs). exact (Hscore subj data s Hs).
Qed.

(** What a ranking is, for either front end's score: one pair per subject,
    each with the subject's score, in descending order. *)
Lemma ranking_spec (score : string -> subject_data -> result float)
    (subjects : subject_store) (scored : list (string * float)) :
  (forall subj data s, score subj data = Return s -> PrimFloat.is_nan s = false) ->
  for_each_subject score subjects = Return scored ->
  Permutation (map fst (sort_desc scored)) (map fst subjects)
  /\ (forall subj s, (subj, s) ∈ sort_desc scored ->
       exists data, (subj, data) ∈ subjects /\ score subj data = Return s)
  /\ Spec.descending (sort_desc scored)
  /\ (forall i j a b, (i <= j)%nat ->
       sort_desc scored !! i = Some a -> sort_desc scored !! j = Some b ->
       PrimFloat.leb (snd b) (snd a) = true).
Proof.
  intros Hscore Hrun. destruct (for_each_subject_names _ _ _ Hrun) as [Hnames Hall].
  pose proof (for_each_subject_numbers _ _ _ Hscore Hrun) as Hnum.
  split; [rewrite <- Hnames; apply Permutation_map, sort_desc_perm |].
  split.
  - intros subj s Hin. apply Hall.
    rewrite <- (sort_desc_perm scored). exact Hin.
  - split; [apply sort_desc_sorted; exact Hnum |].
    intros i j a b. apply descending_ranks;
      [apply sort_desc_numbers; exact Hnum | apply sort_desc_sorted; exact Hnum].
Qed.

Lemma offer_first_accepted (ranked : list (string * float)) (lines : list string)
    (i : nat) (subj : string) (score : float) (answer : string) :
  ranked !! i = Some (subj, score) ->
  lines !! i = Some answer -> Spec.accepts answer ->
  (forall j l, (j < i)%nat -> lines !! j = Some l -> ~ Spec.accepts l) ->
  Cli.offer ranked lines = (Return (Some subj), drop (S i) lines).
Proof.
  revert lines i. induction ranked as [| [name sc] rest IH]; intros lines i Hi Hans Hyes Hno.
  - discriminate.
  - destruct lines as [| l lines]; [discriminate |]. simpl.
    destruct i as [| i]; simpl in Hi, Hans.
    + injection Hi as -> ->. injection Hans as ->.
      unfold Spec.accepts in Hyes. rewrite Hyes. reflexivity.
    + destruct (String.eqb_spec (Py.lower (Py.strip l)) "yes") as [Hl | Hl].
      * exfalso. apply (Hno O l); [lia | reflexivity | exact Hl].
      * rewrite (IH lines i Hi Hans Hyes); [reflexivity |].
        intros j l' Hj Hl'. apply (Hno (S j) l'); [lia | exact Hl'].
Qed.

Lemma offer_all_rejected (ranked : list (string * float)) (lines : list string) :
  (length ranked <= length lines)%nat ->
  (forall j l, (j < length ranked)%nat -> lines !! j = Some l -> ~ Spec.accepts l) ->
  Cli.offer ranked lines = (Return None, drop (length ranked) lines).
Proof.
  revert lines. induction ranked as [| [name sc] rest IH]; intros lines Hlen Hno.
  - reflexivity.
  - destruct lines as [| l lines]; [simpl in Hlen; lia |]. simpl.
    destruct (String.eqb_spec (Py.lower (Py.strip l)) "yes") as [Hl | Hl].
    + exfalso. apply (Hno O l); [simpl; lia | reflexivity | exact Hl].
    + apply IH; [simpl in Hlen; lia |].
      intros j l' Hj Hl'. apply (Hno (S j) l'); [simpl; lia | exact Hl'].
Qed.

Lemma choose_nonempty (ranked : list (string * float)) (lines rest : list string)
    (chosen : string) :
  Cli.choose ranked lines = (Return chosen, rest) ->
  exists score, (chosen, score) ∈ ranked.
Proof.
  unfold Cli.choose.
  assert (Hoffer : forall lines r rest, Cli.offer ranked lines = (Return (Some r), rest) ->
                   exists score, (r, score) ∈ ranked).
  { clear. induction ranked as [| [name sc] tl IH]; intros lines r rest Hrun; simpl in Hrun.
    - discriminate.
    - destruct lines as [| l lines]; [discriminate |].
      destruct (String.eqb (Py.lower (Py.strip l)) "yes").
      + injection Hrun as <- _. exists sc. apply list_elem_of_here.
      + destruct (IH _ _ _ Hrun) as [score Hin]. exists score.
        apply list_elem_of_further. exact Hin. }
  destruct (Cli.offer ranked lines) as [[chosen0 | e] rest0] eqn:Hrun; [| discriminate].
  intros Hfb. injection Hfb as Hfb _.
  assert (Htop : match ranked with
                 | [] => Raise IndexError
                 | (top, _) :: _ => Return top
                 end = Return chosen -> exists score, (chosen, score) ∈ ranked).
  { destruct ranked as [| [top sc] tl]; [discriminate |].
    intros [= <-]. exists sc. apply list_elem_of_here. }
  unfold Cli.fallback in Hfb. destruct chosen0 as [r |]; [| exact (Htop Hfb)].
  destruct (decide (r = EmptyString)); [exact (Htop Hfb) |].
  injection Hfb as <-. exact (Hoffer _ _ _ Hrun).
Qed.

Lemma all_configured_true (subjects : subject_store) :
  all_configured subjects = true
  <-> forall subj data, (subj, data) ∈ subjects -> configured data = true.
Proof.
  unfold all_configured. rewrite forallb_forall. split.
  - intros H subj data Hin. apply (H (subj, data)). apply list_elem_of_In. exact Hin.
  - intros H [subj data] Hin. apply (H subj data). apply list_elem_of_In. exact Hin.
Qed.

Lemma configured_true (data : subject_data) :
  configured data = true
  <-> exists c exam, confidence data = Some c /\ exam_date data = Some exam /\ c <> 0.
Proof.
  unfold configured. destruct data as [[c |] [exam |]]; simpl.
  - split.
    + intros H. exists c, exam. repeat split. apply negb_true_iff in H. lia.
    + intros (c' & exam' & [= <-] & _ & Hc). apply negb_true_iff. lia.
  - split; [discriminate | intros (? & ? & _ & [=] & _)].
  - split; [discriminate | intros (? & ? & [=] & _)].
  - split; [discriminate | intros (? & ? & [=] & _)].
Qed.

Lemma for_each_subject_total (score : string -> subject_data -> result float)
    (subjects : subject_store) :
  (forall subj data, (subj, data) ∈ subjects -> exists s, score subj data = Return s) ->
  exists scored, for_each_subject score subjects = Return scored.
Proof.
  induction subjects as [| [subj data] rest IH]; intros Hall; simpl.
  - exists []. reflexivity.
  - destruct (Hall subj data (list_elem_of_here _ _)) as [s ->].
    destruct IH as [tail ->].
    + intros k d Hin. apply (Hall k d). apply list_elem_of_further. exact Hin.
    + eexists. reflexivity.
Qed.

(** On a store that passes the guard, with confidences from 1 to 10 and a
    log the program can hold, the scoring loop raises nothing. *)
Lemma rankings_total (subjects : subject_store) (session_log : sessions)
    (today : date) (now : datetime) :
  all_configured subjects = true -> confidences_in_range subjects ->
  python_log now session_log ->
  exists scored scored_web,
    for_each_subject (Cli.priority_score session_log today now) subjects
    = Return scored
    /\ for_each_subject (Web.priority_score session_log today now) subjects
       = Return scored_web.
Proof.
  intros Hconf Hrange Hlog. rewrite all_configured_true in Hconf.
  assert (Hdata : forall subj data, (subj, data) ∈ subjects ->
            exists c exam, data = SubjectData (Some c) (Some exam) /\ 1 <= c <= 10).
  { intros subj data Hin. specialize (Hconf subj data Hin).
    apply configured_true in Hconf as (c & exam & Hc & He & _).
    exists c, exam. split; [destruct data; simpl in *; congruence |].
    exact (Hrange subj data c Hin Hc). }
  destruct (for_each_subject_total (Cli.priority_score session_log today now)
              subjects) as [scored Hscored].
  { intros subj data Hin. destruct (Hdata subj data Hin) as (c & exam & -> & Hc).
    rewrite cli_float_score_formula by lia.
    apply score_binary64_returns; assumption. }
  destruct (for_each_subject_total (Web.priority_score session_log today now)
              subjects) as [scored_web Hscored_web].
  { intros subj data Hin. destruct (Hdata subj data Hin) as (c & exam & -> & Hc).
    rewrite web_float_score_formula.
    apply score_binary64_returns; assumption. }
  exists scored, scored_web. auto.
Qed.

(** X20: for a store that passes the guard, with confidences from 1 to 10,
    and a log the program can hold, the ranking of either front end is a
    sequence of (subject, score) pairs, one for each subject of the store
    with the float score the scoring loop gives it, in descending order of
    score; the selection step of the terminal front end returns the first
    subject the caller accepts if its name is not empty and, when the caller
    rejects every ranked subject, the subject of rank 0; the web front end,
    which asks nothing, suggests the subject of rank 0 of its ranking. *)
Theorem ranking_descending_and_choice (subjects : subject_store) (session_log : sessions)
    (today : date) (now : datetime) :
  all_configured subjects = true -> confidences_in_range subjects ->
  python_log now session_log ->
  exists ranked ranked_web : list (string * float),
    Cli.ranking subjects session_log today now = Return ranked
    /\ Web.ranking subjects session_log today now = Return ranked_web
    /\ (Permutation (map fst ranked) (map fst subjects)
        /\ (forall subj s, (subj, s) ∈ ranked ->
            exists data, (subj, data) ∈ subjects
                         /\ Cli.priority_score session_log today now subj data
                            = Return s)
        /\ Spec.descending ranked
        /\ (forall i j a b, (i <= j)%nat ->
            ranked !! i = Some a -> ranked !! j = Some b ->
            PrimFloat.leb (snd b) (snd a) = true))
    /\ (forall lines i subj score answer,
          ranked !! i = Some (subj, score) -> subj <> EmptyString ->
          lines !! i = Some answer -> Spec.accepts answer ->
          (forall j l, (j < i)%nat -> lines !! j = Some l -> ~ Spec.accepts l) ->
          Cli.choose ranked lines = (Return subj, drop (S i) lines))
    /\ (forall lines top score rest,
          ranked = (top, score) :: rest ->
          (length ranked <= length lines)%nat ->
          (forall j l, (j < length ranked)%nat -> lines !! j = Some l ->
                       ~ Spec.accepts l) ->
          Cli.choose ranked lines = (Return top, drop (length ranked) lines))
    /\ (Permutation (map fst ranked_web) (map fst subjects)
        /\ (forall subj s, (subj, s) ∈ ranked_web ->
            exists data, (subj, data) ∈ subjects
                         /\ Web.priority_score session_log today now subj data
                            = Return s)
        /\ Spec.descending ranked_web
        /\ (forall i j a b, (i <= j)%nat ->
            ranked_web !! i = Some a -> ranked_web !! j = Some b ->
            PrimFloat.leb (snd b) (snd a) = true))
    /\ (forall top score rest,
          ranked_web = (top, score) :: rest ->
          Web.instant_mode_page subjects session_log today now true
          = Return (Web.Suggestion top)).
Proof.
  intros Hconf Hrange Hlog.
  destruct (rankings_total subjects session_log today now Hconf Hrange Hlog)
    as (scored & scored_web & Hscored & Hscored_web).
  exists (sort_desc scored), (sort_desc scored_web).
  split; [unfold Cli.ranking; rewrite Hscored; reflexivity |].
  split; [unfold Web.ranking; rewrite Hscored_web; reflexivity |].
  split; [exact (ranking_spec _ _ _ (cli_score_is_a_number _ _ _) Hscored) |].
  split; [| split; [| split]].
  - intros lines i subj score answer Hi Hname Hans Hyes Hno.
    unfold Cli.choose.
    rewrite (offer_first_accepted _ _ _ _ _ _ Hi Hans Hyes Hno).
    unfold Cli.fallback. destruct (decide (subj = EmptyString)); [contradiction | reflexivity].
  - intros lines top score rest Hshape Hlen Hno.
    unfold Cli.choose. rewrite (offer_all_rejected _ _ Hlen Hno).
    rewrite Hshape. reflexivity.
  - exact (ranking_spec _ _ _ (web_score_is_a_number _ _ _) Hscored_web).
  - intros top score rest Hshape.
    unfold Web.instant_mode_page, Web.ranking.
    rewrite Hconf, Hscored_web, Hshape. reflexivity.
Qed.

(** X20 on [sample_subjects]: Irish, then Science, then Maths; a caller who
    says no to Irish and yes to Science gets Science, a caller who says no
    three times gets Irish; the web page suggests Irish. *)
Lemma ranking_descending_and_choice_witness :
  map fst sample_ranking = ["Irish"; "Science"; "Maths"]%string
  /\ Spec.descending sample_ranking
  /\ Cli.choose sample_ranking ["no"; " Yes "; "yes"]%string
     = (Return "Science"%string, ["yes"%string])
  /\ Cli.choose sample_ranking ["no"; "nope"; "n"; "yes"]%string
     = (Return "Irish"%string, ["yes"%string])
  /\ Web.instant_mode_page sample_subjects study_week sample_today sample_now true
     = Return (Web.Suggestion "Irish").
Proof.
  destruct (ranking_descending_and_choice sample_subjects study_week sample_today
              sample_now eq_refl sample_subjects_in_range study_week_python_log)
    as (ranked & ranked_web & Hrank & Hrank_web & (_ & _ & Hdesc & _)
        & Haccept & Hreject & _ & Hweb).
  assert (Hcli : Cli.ranking sample_subjects study_week sample_today sample_now
                 = Return sample_ranking)
    by (vm_compute; reflexivity).
  rewrite Hcli in Hrank. injection Hrank as <-.
  split; [reflexivity |]. split; [exact Hdesc |]. split; [| split].
  - eapply (Haccept ["no"; " Yes "; "yes"]%string 1%nat "Science"%string _
              " Yes "%string).
    + reflexivity.
    + discriminate.
    + reflexivity.
    + reflexivity.
    + intros j l Hj Hl. destruct j as [| j]; [| lia].
      injection Hl as <-. vm_compute. discriminate.
  - eapply (Hreject ["no"; "nope"; "n"; "yes"]%string "Irish"%string _
              (tl sample_ranking)).
    + reflexivity.
    + simpl. lia.
    + intros j l Hj Hl.
      destruct j as [| [| [| j]]]; simpl in Hj; try lia;
        injection Hl as <-; vm_compute; discriminate.
  - assert (Hshape : exists score rest, ranked_web = ("Irish"%string, score) :: rest).
    { assert (Hrun : exists r, Web.ranking sample_subjects study_week sample_today
                                 sample_now = Return r
                               /\ exists score rest, r = ("Irish"%string, score) :: rest).
      { eexists. split; [vm_compute; reflexivity |]. eexists. eexists. reflexivity. }
      destruct Hrun as (r & Hr & Hshape). rewrite Hr in Hrank_web.
      injection Hrank_web as <-. exact Hshape. }
    destruct Hshape as (score & rest & Hshape). exact (Hweb _ _ _ Hshape).
Defined.

(** The code tests the truth value of the chosen name, so a subject whose
    name is the empty string cannot be chosen by accepting it: rank 0 is
    returned instead. *)
Remark choose_skips_an_empty_name :
  Cli.choose [("Irish"%string, 5%float); (EmptyString, 3%float)] ["no"; "yes"]%string
  = (Return "Irish"%string, []).
Proof. reflexivity. Qed.


(** The order of the ranking is the order of the floats: the exact scores
    of Art and Biology are equal, so that Art, first in the store, would
    come first; the float scores are 1.2142857142857142 and
    1.2142857142857144, and the program puts Biology first. *)
Remark rounding_decides_a_tie :
  (exists a b,
     Cli.priority_score_exact biology_week sample_today sample_now "Art"
       (SubjectData (Some 10) (Some 739930)) = Return a
     /\ Cli.priority_score_exact biology_week sample_today sample_now "Biology"
          (SubjectData (Some 8) (Some 739930)) = Return b
     /\ (a == 17 # 14)%Q /\ (b == 17 # 14)%Q)
  /\ Cli.ranking level_subjects biology_week sample_today sample_now
     = Return [("Biology"%string, 0x1.36db6db6db6dcp+0%float);
               ("Art"%string, 0x1.36db6db6db6dbp+0%float)]
  /\ Web.instant_mode_page level_subjects biology_week sample_today sample_now true
     = Return (Web.Suggestion "Biology").
Proof.
  split; [eexists; eexists; repeat split; reflexivity |].
  split; reflexivity.
Qed.

(** A confidence beyond the range of the floats passes the guard, and the
    conversion of the difficulty raises [OverflowError] in the scoring
    loop of both front ends. *)
Remark huge_confidence_overflows :
  all_configured huge_confidence = true
  /\ Cli.ranking huge_confidence [] sample_today sample_now = Raise OverflowError
  /\ Web.ranking huge_confidence [] sample_today sample_now = Raise OverflowError
  /\ Cli.instant_mode sample_today sample_now
       (World huge_confidence [] ["30"; "high"; "yes"]%string)
     = (Raise OverflowError, World huge_confidence [] ["yes"%string]).
Proof. repeat split; vm_compute; reflexivity. Qed.

(** ** The completeness guard *)

(** C4's counterexample: on the default store, where no subject has a
    confidence or an exam date, nothing is raised: [instant_mode] prints the
    warning of its guard and returns, with no line of input to read, and
    the web page shows its warning. *)
Lemma guard_warns_and_returns :
  all_configured default_subjects = false
  /\ Cli.instant_mode sample_today sample_now (World default_subjects [] [])
     = (Return Cli.NotConfigured, World default_subjects [] [])
  /\ Web.instant_mode_page default_subjects [] sample_today sample_now true
     = Return Web.NotConfigured.
Proof. repeat split. Qed.

(** C4, as amended: if some subject of the store has no confidence or no
    exam date, the recommendation stops at the guard with a warning and
    raises no exception: in the terminal front end [instant_mode] returns
    [NotConfigured] without reading any input or changing the store or the
    log, and the web page shows its warning whether or not the form was
    submitted; no score is computed, whatever the log and the clock. *)
Theorem incomplete_configuration_stops (w : world) (today : date) (now : datetime) :
  (exists subj data, (subj, data) ∈ subjects w
                     /\ (confidence data = None \/ exam_date data = None)) ->
  Cli.instant_mode today now w = (Return Cli.NotConfigured, w)
  /\ forall submitted : bool,
      Web.instant_mode_page (subjects w) (log w) today now submitted
      = Return Web.NotConfigured.
Proof.
  intros (subj & data & Hin & Hmissing).
  assert (Hguard : all_configured (subjects w) = false).
  { apply not_true_is_false. intros Hall.
    rewrite all_configured_true in Hall. specialize (Hall subj data Hin).
    apply configured_true in Hall as (c & exam & Hc & He & _).
    destruct Hmissing; congruence. }
  split.
  - unfold Cli.instant_mode, bind, get_subjects. rewrite Hguard. reflexivity.
  - intros submitted. unfold Web.instant_mode_page. rewrite Hguard. reflexivity.
Qed.

(** C4 on the default subjects, with answers waiting on the input. *)
Lemma incomplete_configuration_stops_witness :
  Cli.instant_mode 739923 (at_time 739923 43200000000)
    (World default_subjects study_week ["30"; "high"; "yes"]%string)
  = (Return Cli.NotConfigured,
     World default_subjects study_week ["30"; "high"; "yes"]%string)
  /\ forall submitted : bool,
      Web.instant_mode_page default_subjects study_week
        739923 (at_time 739923 43200000000) submitted
      = Return Web.NotConfigured.
Proof.
  apply (incomplete_configuration_stops
           (World default_subjects study_week ["30"; "high"; "yes"]%string)).
  exists "Irish"%string, (SubjectData None None). split.
  - apply list_elem_of_further, list_elem_of_here.
  - left. reflexivity.
Defined.

(** ** The empty store *)

Lemma instant_mode_returns (today : date) (now : datetime) (w w' : world)
    (out : Cli.instant_outcome) :
  Cli.instant_mode today now w = (Return out, w') ->
  out = Cli.NotConfigured
  \/ exists ranked chosen lines rest,
       Cli.ranking (subjects w) (log w) today now = Return ranked
       /\ Cli.choose ranked lines = (Return chosen, rest)
       /\ (out = Cli.NotLogged chosen \/ exists entry, out = Cli.Logged chosen entry).
Proof.
  unfold Cli.instant_mode, bind, get_subjects, get_log, reading.
  destruct (negb (all_configured (subjects w))); [intros [= <- _]; left; reflexivity |].
  destruct (Cli.prompt_int (stdin w)) as [[mins | e] l1]; [| discriminate].
  cbn [subjects log stdin].
  destruct (Cli.prompt_energy l1) as [[energy | e] l2]; [| discriminate].
  cbn [subjects log stdin].
  destruct (Cli.ranking (subjects w) (log w) today now) as [ranked | e] eqn:Hrank;
    [| discriminate].
  cbn [Cli.lift ret subjects log stdin].
  destruct (Cli.choose ranked l2) as [[chosen | e] l3] eqn:Hchoose; [| discriminate].
  intros Hrun. right. exists ranked, chosen, l2, l3.
  split; [reflexivity |]. split; [exact Hchoose |].
  cbn [subjects log stdin] in Hrun.
  repeat run_step Hrun; unfold ret, raise, set_confidence, append_session,
    Cli.int_or_raise in *;
    repeat run_step Hrun;
    try (injection Hrun as <- _; (left; reflexivity) || (right; eexists; reflexivity)).
Qed.

(** The run of [instant_mode] up to the suggestion: guard, minutes, energy,
    ranking, selection; here for a caller who then does not complete the
    session. *)
Lemma instant_mode_suggests (today : date) (now : datetime) (w : world)
    (mins : Z) (energy : string) (l1 l2 l3 : list string)
    (ranked : list (string * float)) (chosen answer : string) :
  all_configured (subjects w) = true ->
  Cli.prompt_int (stdin w) = (Return mins, l1) ->
  Cli.prompt_energy l1 = (Return energy, l2) ->
  Cli.ranking (subjects w) (log w) today now = Return ranked ->
  Cli.choose ranked l2 = (Return chosen, answer :: l3) ->
  Py.lower (Py.strip answer) <> "yes"%string ->
  Cli.instant_mode today now w
  = (Return (Cli.NotLogged chosen), World (subjects w) (log w) l3).
Proof.
  intros Hconf Hmins Henergy Hrank Hchoose Hanswer.
  unfold Cli.instant_mode, bind, get_subjects, get_log, reading.
  rewrite Hconf. cbn [negb]. rewrite Hmins. cbn [subjects log stdin].
  rewrite Henergy. cbn [subjects log stdin]. rewrite Hrank.
  cbn [Cli.lift ret subjects log stdin]. rewrite Hchoose.
  cbn [subjects log stdin input_line].
  destruct (String.eqb_spec (Py.lower (Py.strip answer)) "yes") as [Hyes | _];
    [contradiction | reflexivity].
Qed.

Lemma ranking_names (subjects : subject_store) (session_log : sessions)
    (today : date) (now : datetime) (ranked : list (string * float)) (subj : string)
    (s : float) :
  Cli.ranking subjects session_log today now = Return ranked ->
  (subj, s) ∈ ranked -> exists data, (subj, data) ∈ subjects.
Proof.
  unfold Cli.ranking.
  destruct (for_each_subject (Cli.priority_score session_log today now) subjects)
    as [scored |] eqn:Hscored; [| discriminate].
  intros [= <-] Hin.
  destruct (ranking_spec _ _ _ (cli_score_is_a_number _ _ _) Hscored) as (_ & Hall & _).
  destruct (Hall subj s Hin) as (data & Hdata & _). exists data. exact Hdata.
Qed.

(** C9: the guard of Instant Mode accepts an empty store; the terminal
    front end then asks for the minutes and the energy level and raises
    [IndexError] at rank 0 of the empty ranking, and the web page raises it
    once the form is submitted. Conversely the recommendation returns a
    subject only for a store that is not empty: the subject it returns is
    one of the store. *)
Theorem recommendation_needs_a_subject (w : world) (today : date) (now : datetime) :
  (subjects w = [] ->
   all_configured (subjects w) = true
   /\ (forall lines, Cli.choose [] lines = (Raise IndexError, lines))
   /\ (forall mins energy l1 l2,
         Cli.prompt_int (stdin w) = (Return mins, l1) ->
         Cli.prompt_energy l1 = (Return energy, l2) ->
         Cli.instant_mode today now w = (Raise IndexError, World [] (log w) l2))
   /\ Web.instant_mode_page (subjects w) (log w) today now true = Raise IndexError)
  /\ (forall out w',
        Cli.instant_mode today now w = (Return out, w') ->
        forall chosen,
          (out = Cli.NotLogged chosen \/ exists entry, out = Cli.Logged chosen entry) ->
          subjects w <> [] /\ exists data, (chosen, data) ∈ subjects w)
  /\ (forall chosen,
        Web.instant_mode_page (subjects w) (log w) today now true
        = Return (Web.Suggestion chosen) ->
        subjects w <> [] /\ exists data, (chosen, data) ∈ subjects w).
Proof.
  assert (Hmem : forall chosen data, (chosen, data) ∈ subjects w -> subjects w <> []).
  { intros chosen data Hin Hnil. rewrite Hnil in Hin.
    apply not_elem_of_nil in Hin. exact Hin. }
  split; [| split].
  - intros Hempty. clear Hmem. destruct w as [subs session_log lines].
    cbn [subjects log stdin] in *. subst subs.
    split; [reflexivity |]. split; [reflexivity |]. split; [| reflexivity].
    intros mins energy l1 l2 Hmins Henergy.
    unfold Cli.instant_mode, bind, get_subjects, get_log, reading.
    cbn [subjects log stdin all_configured forallb negb].
    rewrite Hmins. cbn [subjects log stdin]. rewrite Henergy. reflexivity.
  - intros out w' Hrun chosen Hout.
    destruct (instant_mode_returns _ _ _ _ _ Hrun)
      as [-> | (ranked & chosen' & lines & rest & Hrank & Hchoose & Hout')].
    + destruct Hout as [Hout | [entry Hout]]; discriminate.
    + assert (chosen' = chosen) as ->.
      { destruct Hout as [-> | [entry ->]], Hout' as [Heq | [entry' Heq]];
          congruence. }
      destruct (choose_nonempty _ _ _ _ Hchoose) as [s Hin].
      destruct (ranking_names _ _ _ _ _ _ _ Hrank Hin) as [data Hdata].
      split; [exact (Hmem _ _ Hdata) | exists data; exact Hdata].
  - intros chosen Hrun. unfold Web.instant_mode_page, Web.ranking in Hrun.
    destruct (negb (all_configured (subjects w))); [discriminate |].
    cbn [negb] in Hrun.
    destruct (for_each_subject (Web.priority_score (log w) today now)
                (subjects w)) as [scored |] eqn:Hscored; [| discriminate].
    destruct (ranking_spec _ _ _ (web_score_is_a_number _ _ _) Hscored)
      as (_ & Hall & _).
    destruct (sort_desc scored) as [| [top s] tl]; [discriminate |].
    injection Hrun as ->.
    destruct (Hall chosen s (list_elem_of_here _ _)) as (data & Hdata & _).
    split; [exact (Hmem _ _ Hdata) | exists data; exact Hdata].
Qed.

(** C9 on an empty store with the answers "25" and "low" waiting: the guard
    lets it through and rank 0 is out of range. *)
Lemma recommendation_needs_a_subject_witness :
  all_configured [] = true
  /\ Cli.instant_mode 739923 (at_time 739923 43200000000)
       (World [] study_week ["25"; "low"; "yes"]%string)
     = (Raise IndexError, World [] study_week ["yes"%string])
  /\ Web.instant_mode_page [] study_week 739923 (at_time 739923 43200000000) true
     = Raise IndexError.
Proof.
  destruct (proj1 (recommendation_needs_a_subject
                     (World [] study_week ["25"; "low"; "yes"]%string)
                     739923 (at_time 739923 43200000000)) eq_refl)
    as (Hguard & _ & Hcli & Hweb).
  split; [exact Hguard |]. split; [| exact Hweb].
  apply (Hcli 25 "low"%string ["low"; "yes"]%string ["yes"%string]); reflexivity.
Defined.

(** ** Statistics *)

Lemma stats_of_update (entry : session) (table : list (string * stats)) (subj : string) :
  stats_of (stats_update entry table) subj
  = if String.eqb subj (subject entry)
    then Some (add_entry entry (default zero_stats (stats_of table subj)))
    else stats_of table subj.
Proof.
  unfold stats_of. induction table as [| [k st] rest IH]; simpl.
  - rewrite String.eqb_sym. destruct (String.eqb_spec subj (subject entry)); reflexivity.
  - destruct (String.eqb_spec k (subject entry)) as [Hk | Hk]; simpl.
    + destruct (String.eqb_spec k subj) as [Hks | Hks]; simpl.
      * subst. rewrite String.eqb_refl. reflexivity.
      * destruct (String.eqb_spec subj (subject entry)); [congruence | reflexivity].
    + destruct (String.eqb_spec k subj) as [Hks | Hks]; simpl.
      * destruct (String.eqb_spec subj (subject entry)); [congruence | reflexivity].
      * exact IH.
Qed.

Lemma stats_update_keys (entry : session) (table : list (string * stats)) :
  map fst (stats_update entry table)
  = if decide (subject entry ∈ map fst table) then map fst table
    else map fst table ++ [subject entry].
Proof.
  induction table as [| [k st] rest IH]; simpl.
  - destruct (decide (subject entry ∈ [])) as [Hin | _]; [| reflexivity].
    apply not_elem_of_nil in Hin. contradiction.
  - destruct (String.eqb_spec k (subject entry)) as [Hk | Hk]; simpl.
    + subst k. destruct (decide (subject entry ∈ subject entry :: map fst rest))
        as [_ | Hout]; [reflexivity |].
      destruct Hout. apply list_elem_of_here.
    + rewrite IH.
      destruct (decide (subject entry ∈ map fst rest)) as [Hin | Hout];
        destruct (decide (subject entry ∈ k :: map fst rest)) as [Hin' | Hout'];
        try reflexivity.
      * destruct Hout'. apply list_elem_of_further. exact Hin.
      * apply elem_of_cons in Hin' as [Heq | Hin']; [congruence | contradiction].
Qed.

Lemma stats_update_NoDup (entry : session) (table : list (string * stats)) :
  NoDup (map fst table) -> NoDup (map fst (stats_update entry table)).
Proof.
  intros Hnd. rewrite stats_update_keys.
  destruct (decide (subject entry ∈ map fst table)) as [Hin | Hout]; [exact Hnd |].
  apply NoDup_app. split; [exact Hnd |]. split.
  - intros k Hk Hk'. apply list_elem_of_singleton in Hk'. subst k. contradiction.
  - apply NoDup_singleton.
Qed.

Lemma subject_stats_snoc (session_log : sessions) (entry : session) :
  subject_stats (session_log ++ [entry])
  = stats_update entry (subject_stats session_log).
Proof. unfold subject_stats. rewrite fold_left_app. reflexivity. Qed.

Lemma subject_stats_NoDup (session_log : sessions) :
  NoDup (map fst (subject_stats session_log)).
Proof.
  induction session_log as [| entry l IH] using rev_ind.
  - constructor.
  - rewrite subject_stats_snoc. apply stats_update_NoDup. exact IH.
Qed.

Lemma py_sum_from (l : list Z) (a : Z) : fold_left Z.add l a = a + py_sum l.
Proof.
  unfold py_sum. revert a. induction l as [| x l IH]; intros a; cbn [fold_left]; [lia |].
  rewrite (IH (a + x)), (IH (0 + x)). lia.
Qed.

Lemma py_sum_snoc (l : list Z) (x : Z) : py_sum (l ++ [x]) = py_sum l + x.
Proof. unfold py_sum. rewrite fold_left_app. reflexivity. Qed.

Lemma sessions_of_snoc (session_log : sessions) (entry : session) (subj : string) :
  Spec.sessions_of (session_log ++ [entry]) subj
  = if decide (subject entry = subj)
    then Spec.sessions_of session_log subj ++ [entry]
    else Spec.sessions_of session_log subj.
Proof.
  unfold Spec.sessions_of. rewrite filter_app, filter_cons, filter_nil.
  destruct (decide (subject entry = subj)); [reflexivity | apply app_nil_r].
Qed.

Lemma tally_snoc (session_log : sessions) (entry : session) :
  Spec.tally (session_log ++ [entry]) (subject entry)
  = add_entry entry (Spec.tally session_log (subject entry)).
Proof.
  unfold Spec.tally, add_entry. rewrite sessions_of_snoc.
  destruct (decide (subject entry = subject entry)) as [_ | Hne]; [| contradiction].
  cbn [count total_time total_rating].
  rewrite !map_app. cbn [map]. rewrite !py_sum_snoc, length_app.
  cbn [length]. f_equal. lia.
Qed.

Lemma stats_of_subject_stats (session_log : sessions) (subj : string) :
  stats_of (subject_stats session_log) subj
  = match Spec.sessions_of session_log subj with
    | [] => None
    | _ => Some (Spec.tally session_log subj)
    end.
Proof.
  induction session_log as [| entry l IH] using rev_ind; [reflexivity |].
  rewrite subject_stats_snoc, stats_of_update, IH, sessions_of_snoc.
  destruct (String.eqb_spec subj (subject entry)) as [Heq | Hne].
  - subst subj.
    destruct (decide (subject entry = subject entry)) as [_ | Hne]; [| contradiction].
    rewrite tally_snoc.
    destruct (Spec.sessions_of l (subject entry)) as [| e0 es] eqn:Hmine.
    + cbn [app default]. do 2 f_equal. unfold Spec.tally. rewrite Hmine. reflexivity.
    + reflexivity.
  - destruct (decide (subject entry = subj)) as [Heq | _]; [congruence |].
    destruct (Spec.sessions_of l subj); [reflexivity |].
    f_equal. unfold Spec.tally. rewrite sessions_of_snoc.
    destruct (decide (subject entry = subj)) as [Heq | _]; [congruence | reflexivity].
Qed.

Lemma stats_of_elem (table : list (string * stats)) (subj : string) (st : stats) :
  NoDup (map fst table) -> (subj, st) ∈ table -> stats_of table subj = Some st.
Proof.
  unfold stats_of. induction table as [| [k s] rest IH]; intros Hnd Hin.
  - apply not_elem_of_nil in Hin. contradiction.
  - simpl in Hnd. apply NoDup_cons in Hnd as [Hk Hnd]. simpl.
    apply elem_of_cons in Hin as [Heq | Hin].
    + injection Heq as -> ->. rewrite String.eqb_refl. reflexivity.
    + destruct (String.eqb_spec k subj) as [-> | Hne]; [| exact (IH Hnd Hin)].
      destruct Hk. apply list_elem_of_fmap. exists (subj, st). split; [reflexivity | exact Hin].
Qed.

(** Every entry of [subject_stats] is the tally of a subject that has at
    least one session. *)
Lemma subject_stats_elem (session_log : sessions) (subj : string) (st : stats) :
  (subj, st) ∈ subject_stats session_log ->
  Spec.sessions_of session_log subj <> [] /\ st = Spec.tally session_log subj.
Proof.
  intros Hin.
  pose proof (stats_of_elem _ _ _ (subject_stats_NoDup session_log) Hin) as Hget.
  rewrite stats_of_subject_stats in Hget.
  destruct (Spec.sessions_of session_log subj); [discriminate |].
  split; [discriminate | congruence].
Qed.

Lemma subject_stats_count_pos (session_log : sessions) (subj : string) (st : stats) :
  (subj, st) ∈ subject_stats session_log -> 0 < count st.
Proof.
  intros Hin. destruct (subject_stats_elem _ _ _ Hin) as [Hne ->].
  unfold Spec.tally. cbn [count].
  destruct (Spec.sessions_of session_log subj); [contradiction | simpl; lia].
Qed.

Lemma stats_of_Some_elem (table : list (string * stats)) (subj : string) (st : stats) :
  stats_of table subj = Some st -> (subj, st) ∈ table.
Proof.
  unfold stats_of. induction table as [| [k s] rest IH]; simpl; [discriminate |].
  destruct (String.eqb_spec k subj) as [-> | Hne]; simpl.
  - intros [= ->]. apply list_elem_of_here.
  - intros Hget. apply list_elem_of_further. exact (IH Hget).
Qed.

Lemma cli_summary_rows_total (table : list (string * stats)) :
  (forall subj st, (subj, st) ∈ table -> 0 < count st) ->
  Cli.summary_rows table = Return (map Spec.row_of table).
Proof.
  induction table as [| [subj st] rest IH]; intros Hpos; simpl; [reflexivity |].
  unfold Py.truediv.
  assert (Hst : 0 < count st) by (apply (Hpos subj), list_elem_of_here).
  destruct (Z.eqb_spec (count st) 0) as [Hz | _]; [lia |].
  rewrite IH; [reflexivity |].
  intros k s Hin. apply (Hpos k). apply list_elem_of_further. exact Hin.
Qed.

Lemma web_summary_data_total (table : list (string * stats)) :
  (forall subj st, (subj, st) ∈ table -> 0 < count st) ->
  Web.summary_data table = Return (map Spec.row_of table).
Proof.
  induction table as [| [subj st] rest IH]; intros Hpos; simpl; [reflexivity |].
  unfold Py.truediv.
  assert (Hst : 0 < count st) by (apply (Hpos subj), list_elem_of_here).
  destruct (Z.ltb_spec 0 (count st)) as [_ | Hz]; [| lia].
  destruct (Z.eqb_spec (count st) 0) as [Hz | _]; [lia |].
  rewrite IH; [reflexivity |].
  intros k s Hin. apply (Hpos k). apply list_elem_of_further. exact Hin.
Qed.

(** C8: for every session log the subject breakdown is computed without a
    division by zero, and it is the same in both front ends: every line has
    a positive count, the number of the subject's sessions, and its average
    is [total_rating / count]; a subject with no logged session has no line
    (it is absent), and a subject with a session has one. Neither
    [view_summary] nor the Dashboard page raises. *)
Theorem average_effectiveness_is_safe (session_log : sessions) (today : date) :
  exists rows : list summary_row,
    Cli.summary_rows (subject_stats session_log) = Return rows
    /\ Web.summary_data (subject_stats session_log) = Return rows
    /\ (forall row, row ∈ rows ->
          0 < row_count row
          /\ row_count row
             = Z.of_nat (length (Spec.sessions_of session_log (row_subject row)))
          /\ Qeq (row_avg row)
               (inject_Z (py_sum (map (fun entry => default 0 (effectiveness entry))
                                    (Spec.sessions_of session_log (row_subject row))))
                / inject_Z (row_count row)))
    /\ (forall subj, Spec.sessions_of session_log subj = []
                     <-> ~ exists row, row ∈ rows /\ row_subject row = subj)
    /\ (exists shown, Cli.view_summary session_log today = Return shown)
    /\ (exists shown, Web.dashboard session_log today = Return shown).
Proof.
  pose proof (subject_stats_count_pos session_log) as Hpos.
  exists (map Spec.row_of (subject_stats session_log)).
  split; [apply cli_summary_rows_total; exact Hpos |].
  split; [apply web_summary_data_total; exact Hpos |].
  split; [| split; [| split]].
  - intros row Hrow. apply list_elem_of_fmap in Hrow as [[subj st] [-> Hin]].
    destruct (subject_stats_elem _ _ _ Hin) as [_ Hst].
    unfold Spec.row_of. cbn [row_count row_avg row_subject fst snd].
    split; [exact (Hpos subj st Hin) |].
    rewrite Hst. unfold Spec.tally. cbn [count total_rating].
    split; reflexivity.
  - intros subj. split.
    + intros Hnone [row [Hrow Hsubj]].
      apply list_elem_of_fmap in Hrow as [[k st] [-> Hin]].
      cbn [Spec.row_of row_subject fst] in Hsubj. subst k.
      destruct (subject_stats_elem _ _ _ Hin) as [Hsome _]. contradiction.
    + intros Hnorow.
      pose proof (stats_of_subject_stats session_log subj) as Hget.
      destruct (Spec.sessions_of session_log subj) as [| e es]; [reflexivity |].
      exfalso. apply Hnorow. apply stats_of_Some_elem in Hget.
      exists (Spec.row_of (subj, Spec.tally session_log subj)). split; [| reflexivity].
      apply list_elem_of_fmap. exists (subj, Spec.tally session_log subj). split; [reflexivity | exact Hget].
  - unfold Cli.view_summary. destruct session_log as [| e l]; [eexists; reflexivity |].
    rewrite (cli_summary_rows_total _ Hpos). eexists. reflexivity.
  - unfold Web.dashboard. destruct session_log as [| e l]; [eexists; reflexivity |].
    rewrite (web_summary_data_total _ Hpos). eexists. reflexivity.
Qed.

(** C8 on [study_week]: a line for Maths with two sessions and a line for
    Irish with one, the same in both front ends. *)
Lemma average_effectiveness_is_safe_witness :
  exists rows : list summary_row,
    Cli.summary_rows (subject_stats study_week) = Return rows
    /\ Web.summary_data (subject_stats study_week) = Return rows
    /\ map row_subject rows = ["Maths"; "Irish"]%string
    /\ map row_count rows = [2; 1]
    /\ Forall2 Qeq (map row_avg rows) [13 # 2; 8 # 1]%Q.
Proof.
  destruct (average_effectiveness_is_safe study_week 739923)
    as (rows & Hcli & Hweb & _).
  exists rows. split; [exact Hcli |]. split; [exact Hweb |].
  assert (Hrun : exists r, Cli.summary_rows (subject_stats study_week) = Return r
                           /\ map row_subject r = ["Maths"; "Irish"]%string
                           /\ map row_count r = [2; 1]
                           /\ Forall2 Qeq (map row_avg r) [13 # 2; 8 # 1]%Q).
  { eexists. split; [vm_compute; reflexivity |].
    split; [reflexivity |]. split; [reflexivity |].
    repeat constructor. }
  destruct Hrun as (r & Hr & Hrest). rewrite Hr in Hcli. injection Hcli as <-.
  exact Hrest.
Defined.

(** ** Recording a session *)

(** C2, where the code departs from it: in the terminal front end a session
    of 0 minutes is recorded like any other, and the log grows by one
    entry. *)
Lemma zero_minutes_are_logged :
  Cli.manual_log_session (at_time 739923 43200000000)
    (World sample_subjects study_week ["maths"; "0"; "Essay"; "7"; ""]%string)
  = (Return (Session "Maths" (at_time 739923 43200000000) "Essay" 0 (Some 7)),
     World sample_subjects
       (study_week ++ [Session "Maths" (at_time 739923 43200000000) "Essay" 0 (Some 7)])
       []).
Proof. vm_compute. reflexivity. Qed.

(** C3, as stated, fails: with the answer "11" to the confidence prompt the
    session is appended all the same (the log grows from 3 to 4 entries);
    only the confidence is left as it was. *)
Lemma rejected_confidence_still_logs :
  Py.int "11" = Some 11
  /\ Cli.manual_log_session (at_time 739923 43200000000)
       (World sample_subjects study_week ["maths"; "45"; "Essay"; "7"; "11"]%string)
     = (Return (Session "Maths" (at_time 739923 43200000000) "Essay" 45 (Some 7)),
        World sample_subjects
          (study_week ++ [Session "Maths" (at_time 739923 43200000000) "Essay" 45 (Some 7)])
          []).
Proof. split; vm_compute; reflexivity. Qed.

(** C3, amended: in [manual_log_session] a supplied new confidence outside
    1..10 is ignored: every stored confidence stays as it was, and the
    session is still appended to the log. *)
Theorem out_of_range_confidence_is_ignored (w : world) (now : datetime)
    (subj : string) (mins : Z) (task : string) (eff : Z)
    (answer : string) (conf_val : Z) (l1 l2 l3 : list string) :
  Cli.prompt_subject (subjects w) (stdin w) = (Return subj, l1) ->
  Cli.prompt_int l1 = (Return mins, task :: l2) ->
  Cli.prompt_effectiveness l2 = (Return eff, answer :: l3) ->
  Py.int (Py.strip answer) = Some conf_val ->
  ~ (1 <= conf_val <= 10) ->
  Cli.manual_log_session now w
  = (Return (Session subj now task mins (Some eff)),
     World (subjects w) (log w ++ [Session subj now task mins (Some eff)]) l3).
Proof.
  intros Hsubj Hmins Heff Hparse Hrange.
  unfold Cli.manual_log_session, bind, get_subjects, reading.
  rewrite Hsubj. cbn [subjects log stdin]. rewrite Hmins. cbn [subjects log stdin input_line].
  rewrite Heff. cbn [subjects log stdin input_line].
  unfold Cli.update_confidence. rewrite Hparse.
  destruct (decide (Py.strip answer = EmptyString)) as [_ | _].
  - reflexivity.
  - replace ((1 <=? conf_val) && (conf_val <=? 10)) with false by
      (symmetry; apply andb_false_iff;
       destruct (Z.leb_spec 1 conf_val); destruct (Z.leb_spec conf_val 10);
       auto; lia).
    reflexivity.
Qed.

(** The amended C3 on a session of Maths with the answer "11" to the
    confidence prompt. *)
Lemma out_of_range_confidence_is_ignored_witness :
  Cli.manual_log_session (at_time 739923 43200000000)
    (World sample_subjects study_week ["maths"; "45"; "Essay"; "7"; "11"]%string)
  = (Return (Session "Maths" (at_time 739923 43200000000) "Essay" 45 (Some 7)),
     World sample_subjects
       (study_week ++ [Session "Maths" (at_time 739923 43200000000) "Essay" 45 (Some 7)])
       []).
Proof.
  apply (out_of_range_confidence_is_ignored
           (World sample_subjects study_week ["maths"; "45"; "Essay"; "7"; "11"]%string)
           (at_time 739923 43200000000) "Maths"%string 45 "Essay"%string 7
           "11"%string 11 ["45"; "Essay"; "7"; "11"]%string ["7"; "11"]%string []).
  - reflexivity.
  - reflexivity.
  - reflexivity.
  - reflexivity.
  - lia.
Defined.

(** *** Around C2 and C3: the sibling paths *)

(** The terminal front end takes any integer for the minutes. *)
Lemma manual_log_session_takes_any_duration (w : world) (now : datetime)
    (subj : string) (mins : Z) (task : string) (eff : Z) (l1 l2 l3 : list string) :
  Cli.prompt_subject (subjects w) (stdin w) = (Return subj, l1) ->
  Cli.prompt_int l1 = (Return mins, task :: l2) ->
  Cli.prompt_effectiveness l2 = (Return eff, EmptyString :: l3) ->
  Cli.manual_log_session now w
  = (Return (Session subj now task mins (Some eff)),
     World (subjects w) (log w ++ [Session subj now task mins (Some eff)]) l3).
Proof.
  intros Hsubj Hmins Heff.
  unfold Cli.manual_log_session, bind, get_subjects, reading.
  rewrite Hsubj. cbn [subjects log stdin]. rewrite Hmins. cbn [subjects log stdin input_line].
  rewrite Heff. reflexivity.
Qed.

(** The web form cannot: what its widgets let through has a duration of at
    least one minute, and a confidence, if updated, from 1 to 10. *)
Lemma log_session_page_in_range (w : world) (now : datetime) (f : Web.log_form) :
  Web.widgets_allow (subjects w) f ->
  exists subjects',
    Web.log_session_page now f w
    = (Return tt,
       World subjects'
         (log w ++ [Session (Web.form_subject f) now (Web.form_task_type f)
                      (Web.form_duration f) (Some (Web.form_effectiveness f))])
         (stdin w))
    /\ 0 < Web.form_duration f
    /\ (subjects' = subjects w
        \/ subjects' = store_set_confidence (Web.form_subject f)
                         (Web.form_confidence_slider f) (subjects w)
           /\ 1 <= Web.form_confidence_slider f <= 10).
Proof.
  intros (_ & Hduration & _ & Hslider).
  unfold Web.log_session_page, bind, append_session, set_confidence, ret.
  destruct (Web.form_update_confidence f); cbn [subjects log stdin];
    eexists; (split; [reflexivity |]); (split; [lia |]); [right | left]; auto.
Qed.

(** In [instant_mode] the new confidence is stored unchecked: the answer
    "15" becomes the confidence of the chosen subject. *)
Remark instant_mode_stores_any_confidence :
  Cli.instant_mode 739923 (at_time 739923 43200000000)
    (World sample_subjects [] ["30"; "low"; "yes"; "yes"; "7"; "15"]%string)
  = (Return (Cli.Logged "Irish"
               (Session "Irish" (at_time 739923 43200000000)
                  "Flashcards or Light Revision" 30 (Some 7))),
     World [("Science"%string, SubjectData (Some 5) (Some 739953));
            ("Irish"%string, SubjectData (Some 15) (Some 739933));
            ("Maths"%string, SubjectData (Some 8) (Some 739928))]
           [Session "Irish" (at_time 739923 43200000000)
              "Flashcards or Light Revision" 30 (Some 7)]
           []).
Proof. vm_compute. reflexivity. Qed.

(** And a rating that is no number raises [ValueError] after the confidence
    was stored: the store has changed, the log has not. *)
Remark instant_mode_fails_half_way :
  Cli.instant_mode 739923 (at_time 739923 43200000000)
    (World sample_subjects [] ["30"; "low"; "yes"; "yes"; "seven"; "4"]%string)
  = (Raise ValueError,
     World [("Science"%string, SubjectData (Some 5) (Some 739953));
            ("Irish"%string, SubjectData (Some 4) (Some 739933));
            ("Maths"%string, SubjectData (Some 8) (Some 739928))]
           [] []).
Proof. vm_compute. reflexivity. Qed.

(** * Part VI: further properties of the code *)

(** ** The ranking on ties *)

Lemma insert_desc_stable (q : float) (x : string * float) (l : list (string * float)) :
  List.filter (fun p => PrimFloat.eqb (snd p) q) (insert_desc x l)
  = List.filter (fun p => PrimFloat.eqb (snd p) q) (x :: l).
Proof.
  induction l as [| y l IH]; [reflexivity |].
  cbn [insert_desc]. destruct (PrimFloat.ltb (snd x) (snd y)) eqn:Hlt; [| reflexivity].
  cbn [List.filter] in *. rewrite IH.
  destruct (PrimFloat.eqb (snd x) q) eqn:Hx, (PrimFloat.eqb (snd y) q) eqn:Hy;
    try reflexivity.
  rewrite (float_eqb_not_ltb _ _ _ Hx Hy) in Hlt. discriminate.
Qed.

(** [list.sort] is stable: the pairs of one score keep their order. *)
Lemma sort_desc_stable (q : float) (l : list (string * float)) :
  List.filter (fun p => PrimFloat.eqb (snd p) q) (sort_desc l)
  = List.filter (fun p => PrimFloat.eqb (snd p) q) l.
Proof.
  induction l as [| x l IH]; [reflexivity |].
  cbn [sort_desc]. rewrite insert_desc_stable. cbn [List.filter]. rewrite IH. reflexivity.
Qed.

(** X1: on a store that passes the guard, with confidences from 1 to 10 and
    a log the program can hold, subjects whose float scores are equal keep
    their store order in the ranking of either front end, and the subject of
    rank 0 is the first subject of the store whose score is the highest:
    every subject before it in the store scores strictly less, and every
    subject after it scores at most as much, in the order of the floats. *)
Theorem ranking_ties_keep_store_order (subjects : subject_store) (session_log : sessions)
    (today : date) (now : datetime) :
  all_configured subjects = true -> confidences_in_range subjects ->
  python_log now session_log ->
  (exists scored ranked,
      for_each_subject (Cli.priority_score session_log today now) subjects
      = Return scored
      /\ map fst scored = map fst subjects
      /\ Cli.ranking subjects session_log today now = Return ranked
      /\ (forall q, List.filter (fun p => PrimFloat.eqb (snd p) q) ranked
                    = List.filter (fun p => PrimFloat.eqb (snd p) q) scored)
      /\ (forall top s rest, ranked = (top, s) :: rest ->
          exists before after,
            scored = before ++ (top, s) :: after
            /\ (forall p, p ∈ before -> PrimFloat.ltb (snd p) s = true)
            /\ (forall p, p ∈ after -> PrimFloat.leb (snd p) s = true)))
  /\ (exists scored ranked,
      for_each_subject (Web.priority_score session_log today now) subjects
      = Return scored
      /\ map fst scored = map fst subjects
      /\ Web.ranking subjects session_log today now = Return ranked
      /\ (forall q, List.filter (fun p => PrimFloat.eqb (snd p) q) ranked
                    = List.filter (fun p => PrimFloat.eqb (snd p) q) scored)
      /\ (forall top s rest, ranked = (top, s) :: rest ->
          exists before after,
            scored = before ++ (top, s) :: after
            /\ (forall p, p ∈ before -> PrimFloat.ltb (snd p) s = true)
            /\ (forall p, p ∈ after -> PrimFloat.leb (snd p) s = true))).
Proof.
  intros Hconf Hrange Hlog.
  destruct (rankings_total subjects session_log today now Hconf Hrange Hlog)
    as (scored & scored_web & Hscored & Hscored_web).
  split.
  - exists scored, (sort_desc scored). split; [exact Hscored |].
    split; [exact (proj1 (for_each_subject_names _ _ _ Hscored)) |].
    split; [unfold Cli.ranking; rewrite Hscored; reflexivity |].
    split; [intros q; apply sort_desc_stable |].
    intros top s rest. apply sort_desc_top_first_maximal.
    exact (for_each_subject_numbers _ _ _ (cli_score_is_a_number _ _ _) Hscored).
  - exists scored_web, (sort_desc scored_web). split; [exact Hscored_web |].
    split; [exact (proj1 (for_each_subject_names _ _ _ Hscored_web)) |].
    split; [unfold Web.ranking; rewrite Hscored_web; reflexivity |].
    split; [intros q; apply sort_desc_stable |].
    intros top s rest. apply sort_desc_top_first_maximal.
    exact (for_each_subject_numbers _ _ _ (web_score_is_a_number _ _ _) Hscored_web).
Qed.

(** X1 on three subjects of which the first two tie, with an empty log:
    Science, the first of the store, is suggested. *)
Lemma ranking_ties_keep_store_order_witness :
  (exists scored ranked,
      for_each_subject (Cli.priority_score [] sample_today sample_now) tied_subjects
      = Return scored
      /\ map fst scored = map fst tied_subjects
      /\ Cli.ranking tied_subjects [] sample_today sample_now = Return ranked
      /\ (forall q, List.filter (fun p => PrimFloat.eqb (snd p) q) ranked
                    = List.filter (fun p => PrimFloat.eqb (snd p) q) scored)
      /\ (forall top s rest, ranked = (top, s) :: rest ->
          exists before after,
            scored = before ++ (top, s) :: after
            /\ (forall p, p ∈ before -> PrimFloat.ltb (snd p) s = true)
            /\ (forall p, p ∈ after -> PrimFloat.leb (snd p) s = true)))
  /\ (exists scored ranked,
      for_each_subject (Web.priority_score [] sample_today sample_now) tied_subjects
      = Return scored
      /\ map fst scored = map fst tied_subjects
      /\ Web.ranking tied_subjects [] sample_today sample_now = Return ranked
      /\ (forall q, List.filter (fun p => PrimFloat.eqb (snd p) q) ranked
                    = List.filter (fun p => PrimFloat.eqb (snd p) q) scored)
      /\ (forall top s rest, ranked = (top, s) :: rest ->
          exists before after,
            scored = before ++ (top, s) :: after
            /\ (forall p, p ∈ before -> PrimFloat.ltb (snd p) s = true)
            /\ (forall p, p ∈ after -> PrimFloat.leb (snd p) s = true))).
Proof.
  apply (ranking_ties_keep_store_order tied_subjects [] sample_today sample_now).
  - reflexivity.
  - store_in_range.
  - apply python_log_nil. vm_compute. split; [discriminate | reflexivity].
Defined.

(** ** More on streaks *)

(** X2: the [while] loop of the web front end's [calculate_streak] ends:
    given more rounds than the set has dates it returns, the value is at
    most the number of dates, and it is the value of [calculate_streak]. *)
Theorem web_streak_loop_ends (dates_set : gset date) (today : date) (fuel : nat) :
  (size dates_set < fuel)%nat ->
  exists n : nat,
    Web.streak_while dates_set today fuel O = Some n
    /\ (n <= size dates_set)%nat
    /\ Web.calculate_streak dates_set today = Some n.
Proof.
  intros Hfuel.
  destruct (streak_while_terminates dates_set today fuel Hfuel) as (n & Hrun & Hgap).
  exists n. split; [exact Hrun |]. split.
  - apply (run_le_size dates_set today O n). intros j Hj. apply (proj1 Hgap). lia.
  - apply web_streak_first_gap. exact Hgap.
Qed.

(** X2 on the two dates of [study_week], with five rounds. *)
Lemma web_streak_loop_ends_witness :
  exists n : nat,
    Web.streak_while (dates_studied study_week) sample_today 5 O = Some n
    /\ (n <= size (dates_studied study_week))%nat
    /\ Web.calculate_streak (dates_studied study_week) sample_today = Some n.
Proof.
  apply (web_streak_loop_ends (dates_studied study_week) sample_today 5).
  vm_compute. lia.
Defined.

(** X3: in both front ends the streak of a log is positive exactly when the
    log has a session dated today. *)
Theorem streak_positive_iff_studied_today (session_log : sessions) (today : date) :
  ((0 < Cli.calculate_streak (dates_studied session_log) today)%nat
   <-> exists entry, entry ∈ session_log /\ date_of (timestamp entry) = today)
  /\ exists n : nat,
      Web.calculate_streak (dates_studied session_log) today = Some n
      /\ ((0 < n)%nat
          <-> exists entry, entry ∈ session_log /\ date_of (timestamp entry) = today).
Proof.
  destruct (first_gap_exists (dates_studied session_log) today) as [n Hn].
  assert (Hpos : (0 < n)%nat
                 <-> exists entry, entry ∈ session_log /\ date_of (timestamp entry) = today).
  { rewrite <- elem_of_dates_studied. destruct Hn as [Hall Hgap]. split.
    - intros Hlt. specialize (Hall O Hlt). rewrite Z.sub_0_r in Hall. exact Hall.
    - intros Hin. destruct n as [| n]; [| lia].
      rewrite Z.sub_0_r in Hgap. contradiction. }
  split.
  - rewrite (cli_streak_first_gap _ _ _ Hn), <- Hpos. lia.
  - exists n. split; [apply web_streak_first_gap; exact Hn | exact Hpos].
Qed.

Lemma dates_studied_snoc (session_log : sessions) (entry : session) :
  dates_studied (session_log ++ [entry])
  = dates_studied session_log ∪ {[date_of (timestamp entry)]}.
Proof.
  unfold dates_studied. rewrite map_app. apply set_eq. intros d.
  rewrite elem_of_union, !elem_of_list_to_set, elem_of_app.
  cbn [map]. rewrite list_elem_of_singleton, elem_of_singleton. tauto.
Qed.

(** X4: a session dated today extends the streak by one day: if the streak
    counted from yesterday is [k], then after the session is appended the
    web front end counts [k + 1] from today, and the terminal front end
    [k + 1] cut at 100. *)
Theorem studying_today_extends_the_streak (session_log : sessions) (today : date)
    (entry : session) (k : nat) :
  date_of (timestamp entry) = today ->
  Web.calculate_streak (dates_studied session_log) (today - 1) = Some k ->
  Web.calculate_streak (dates_studied (session_log ++ [entry])) today = Some (S k)
  /\ Cli.calculate_streak (dates_studied (session_log ++ [entry])) today
     = Nat.min (S k) 100.
Proof.
  intros Hdate Hyesterday. apply web_streak_sound in Hyesterday as [Hall Hgap].
  assert (Hnew : Spec.first_gap (dates_studied (session_log ++ [entry])) today (S k)).
  { rewrite dates_studied_snoc, Hdate. split.
    - intros j Hj. apply elem_of_union. destruct j as [| j].
      + right. apply elem_of_singleton. lia.
      + left. replace (today - Z.of_nat (S j)) with (today - 1 - Z.of_nat j) by lia.
        apply Hall. lia.
    - intros Hin. apply elem_of_union in Hin as [Hin | Hin].
      + apply Hgap. replace (today - 1 - Z.of_nat k) with (today - Z.of_nat (S k)) by lia.
        exact Hin.
      + apply elem_of_singleton in Hin. lia. }
  split; [apply web_streak_first_gap | apply cli_streak_first_gap]; exact Hnew.
Qed.

(** X4 on [study_week], whose streak counted from 2 November is 2. *)
Lemma studying_today_extends_the_streak_witness :
  Web.calculate_streak (dates_studied (study_week ++ [irish_today])) sample_today
  = Some 3%nat
  /\ Cli.calculate_streak (dates_studied (study_week ++ [irish_today])) sample_today
     = Nat.min 3 100.
Proof.
  apply (studying_today_extends_the_streak study_week sample_today irish_today 2).
  - reflexivity.
  - vm_compute. reflexivity.
Defined.

(** ** The summary adds up *)

Lemma py_sum_cons (x : Z) (l : list Z) : py_sum (x :: l) = x + py_sum l.
Proof. unfold py_sum at 1. cbn [fold_left]. rewrite py_sum_from. lia. Qed.

Lemma stats_update_totals (entry : session) (table : list (string * stats)) :
  py_sum (map (fun kv => count (snd kv)) (stats_update entry table))
  = py_sum (map (fun kv => count (snd kv)) table) + 1
  /\ py_sum (map (fun kv => total_time (snd kv)) (stats_update entry table))
     = py_sum (map (fun kv => total_time (snd kv)) table) + duration_mins entry.
Proof.
  induction table as [| [k st] rest [IHc IHt]].
  - split; reflexivity.
  - cbn [stats_update]. destruct (String.eqb k (subject entry)); cbn [map snd].
    + rewrite !py_sum_cons. unfold add_entry. cbn [count total_time]. lia.
    + rewrite !py_sum_cons, IHc, IHt. lia.
Qed.

Lemma subject_stats_totals (session_log : sessions) :
  py_sum (map (fun kv => count (snd kv)) (subject_stats session_log))
  = Z.of_nat (length session_log)
  /\ py_sum (map (fun kv => total_time (snd kv)) (subject_stats session_log))
     = py_sum (map duration_mins session_log).
Proof.
  induction session_log as [| entry l [IHc IHt]] using rev_ind; [split; reflexivity |].
  rewrite subject_stats_snoc.
  destruct (stats_update_totals entry (subject_stats l)) as [Hc Ht].
  rewrite Hc, Ht, IHc, IHt, length_app, map_app. cbn [map length].
  rewrite py_sum_snoc. lia.
Qed.

(** X5: for a log that is not empty, the subject breakdown adds up to the
    totals shown above it, in both front ends: the session counts of the
    lines sum to the total number of sessions (the length of the log) and
    their minutes sum to the total time studied. *)
Theorem breakdown_adds_up (session_log : sessions) (today : date) :
  session_log <> [] ->
  exists (shown : Cli.summary) (shown_web : Web.summary),
    Cli.view_summary session_log today = Return (Some shown)
    /\ Web.dashboard session_log today = Return (Some shown_web)
    /\ Cli.total_sessions shown = Z.of_nat (length session_log)
    /\ py_sum (map row_count (Cli.rows shown)) = Cli.total_sessions shown
    /\ py_sum (map row_time (Cli.rows shown)) = Cli.total_minutes shown
    /\ Web.total_sessions shown_web = Z.of_nat (length session_log)
    /\ py_sum (map row_count (Web.rows shown_web)) = Web.total_sessions shown_web
    /\ py_sum (map row_time (Web.rows shown_web)) = Web.total_minutes shown_web.
Proof.
  intros Hne.
  pose proof (subject_stats_count_pos session_log) as Hpos.
  destruct (subject_stats_totals session_log) as [Hc Ht].
  assert (Hrows_c : map row_count (map Spec.row_of (subject_stats session_log))
                    = map (fun kv => count (snd kv)) (subject_stats session_log)).
  { rewrite map_map. reflexivity. }
  assert (Hrows_t : map row_time (map Spec.row_of (subject_stats session_log))
                    = map (fun kv => total_time (snd kv)) (subject_stats session_log)).
  { rewrite map_map. reflexivity. }
  unfold Cli.view_summary, Web.dashboard.
  rewrite (cli_summary_rows_total _ Hpos), (web_summary_data_total _ Hpos).
  destruct session_log as [| e l]; [contradiction |].
  eexists. eexists. split; [reflexivity |]. split; [reflexivity |].
  cbn [Cli.total_sessions Cli.rows Cli.total_minutes
       Web.total_sessions Web.rows Web.total_minutes].
  rewrite Hrows_c, Hrows_t, Hc, Ht. repeat split; reflexivity.
Qed.

(** X5 on [study_week]. *)
Lemma breakdown_adds_up_witness :
  exists (shown : Cli.summary) (shown_web : Web.summary),
    Cli.view_summary study_week sample_today = Return (Some shown)
    /\ Web.dashboard study_week sample_today = Return (Some shown_web)
    /\ Cli.total_sessions shown = Z.of_nat (length study_week)
    /\ py_sum (map row_count (Cli.rows shown)) = Cli.total_sessions shown
    /\ py_sum (map row_time (Cli.rows shown)) = Cli.total_minutes shown
    /\ Web.total_sessions shown_web = Z.of_nat (length study_week)
    /\ py_sum (map row_count (Web.rows shown_web)) = Web.total_sessions shown_web
    /\ py_sum (map row_time (Web.rows shown_web)) = Web.total_minutes shown_web.
Proof.
  apply (breakdown_adds_up study_week sample_today). discriminate.
Defined.

(** ** The last session of a subject *)

(** X6: [get_days_since_last_session], the same in both front ends, is
    [None] exactly when the log has no session of the subject; otherwise it
    is the number of whole days from the subject's latest session, wherever
    that session stands in the log, and it is not negative when that session
    is not in the future. *)
Theorem days_since_is_from_the_latest_session (session_log : sessions) (now : datetime)
    (subj : string) :
  Web.get_days_since_last_session session_log now subj
  = Cli.get_days_since_last_session session_log now subj
  /\ match Cli.get_days_since_last_session session_log now subj with
     | None => forall entry, entry ∈ session_log -> subject entry <> subj
     | Some d =>
         exists last, last ∈ session_log /\ subject last = subj
           /\ d = delta_days now (timestamp last)
           /\ (forall entry, entry ∈ session_log -> subject entry = subj ->
                             timestamp entry <= timestamp last)
           /\ (timestamp last <= now -> 0 <= d)
     end.
Proof.
  split; [reflexivity |]. rewrite cli_days_since_spec.
  pose proof (days_since_last_session_latest session_log now subj) as Hlatest.
  destruct (Spec.days_since_last_session session_log now subj) as [d |]; [| exact Hlatest].
  destruct Hlatest as (last & Hin & Hsubj & Hd & Hmax).
  exists last. repeat (split; [assumption |]).
  intros Hpast. subst d. unfold delta_days.
  apply Z.div_pos; [lia | reflexivity].
Qed.

(** ** How the score moves *)

Lemma delta_days_antitone (now a b : datetime) :
  a <= b -> delta_days now b <= delta_days now a.
Proof. intros Hab. unfold delta_days. apply Z.div_le_mono; [reflexivity | lia]. Qed.

Lemma delta_days_max (now a b : datetime) :
  delta_days now (Z.max a b) = Z.min (delta_days now a) (delta_days now b).
Proof.
  destruct (Z.max_spec a b) as [[Hlt ->] | [Hle ->]].
  - rewrite Z.min_r; [reflexivity | apply delta_days_antitone; lia].
  - rewrite Z.min_l; [reflexivity | apply delta_days_antitone; lia].
Qed.

Lemma delta_days_within_week (now t : datetime) :
  now - timedelta_days 7 < t -> delta_days now t <= 6.
Proof.
  intros Hwindow. unfold delta_days, timedelta_days in *.
  assert (Hlt : (now - t) / day_us < 7).
  { apply Z.div_lt_upper_bound; [reflexivity | lia]. }
  lia.
Qed.

Lemma days_since_snoc (session_log : sessions) (now : datetime) (entry : session) :
  Spec.days_since_last_session (session_log ++ [entry]) now (subject entry)
  = Some match Spec.days_since_last_session session_log now (subject entry) with
         | None => delta_days now (timestamp entry)
         | Some d => Z.min d (delta_days now (timestamp entry))
         end.
Proof.
  unfold Spec.days_since_last_session. rewrite sessions_of_snoc.
  destruct (decide (subject entry = subject entry)) as [_ | Hne]; [| contradiction].
  rewrite map_app. cbn [map].
  destruct (map timestamp (Spec.sessions_of session_log (subject entry))) as [| t0 ts].
  - reflexivity.
  - cbn [app]. f_equal. rewrite fold_right_app. cbn [fold_right].
    rewrite (Z.max_comm (timestamp entry) t0), fold_right_max_shift.
    rewrite Z.max_comm. apply delta_days_max.
Qed.

Lemma recent_count_snoc (session_log : sessions) (now : datetime) (entry : session) :
  now - timedelta_days 7 <= timestamp entry ->
  Spec.count_since (session_log ++ [entry]) now (subject entry)
  = Spec.count_since session_log now (subject entry) + 1.
Proof.
  intros Hwindow. unfold Spec.count_since. rewrite sessions_of_snoc.
  destruct (decide (subject entry = subject entry)) as [_ | Hne]; [| contradiction].
  rewrite filter_app, filter_cons, filter_nil.
  destruct (decide (now - timedelta_days 7 <= timestamp entry)) as [_ | Hout];
    [| contradiction].
  rewrite length_app. cbn [length]. lia.
Qed.

Lemma sessions_of_snoc_other (session_log : sessions) (entry : session) (other : string) :
  other <> subject entry ->
  Spec.sessions_of (session_log ++ [entry]) other = Spec.sessions_of session_log other.
Proof.
  intros Hne. rewrite sessions_of_snoc.
  destruct (decide (subject entry = other)) as [Heq | _]; [congruence | reflexivity].
Qed.

(** X7: a session less than seven days old, appended to the log, counts
    once more in the repetition penalty of its subject and makes the days
    since that subject's last session at most 6 and no more than before, so
    that both front ends score the subject by the formula on floats at a
    count one higher; it changes the score of no other subject. *)
Theorem logged_session_counts_once_more (session_log : sessions) (today : date)
    (now : datetime) (entry : session) :
  now - timedelta_days 7 < timestamp entry ->
  Cli.recent_session_count (session_log ++ [entry]) now (subject entry) 7
  = Cli.recent_session_count session_log now (subject entry) 7 + 1
  /\ (exists d',
        Cli.get_days_since_last_session (session_log ++ [entry]) now (subject entry)
        = Some d'
        /\ Web.get_days_since_last_session (session_log ++ [entry]) now (subject entry)
           = Some d'
        /\ d' <= 6
        /\ (forall d, Cli.get_days_since_last_session session_log now (subject entry)
                      = Some d -> d' <= d)
        /\ (forall c exam, 1 <= c ->
              Cli.priority_score (session_log ++ [entry]) today now (subject entry)
                (SubjectData (Some c) (Some exam))
              = Spec.score_binary64 (exam - today) (Some d') c
                  (Cli.recent_session_count session_log now (subject entry) 7 + 1)
              /\ Web.priority_score (session_log ++ [entry]) today now
                   (subject entry) (SubjectData (Some c) (Some exam))
                 = Spec.score_binary64 (exam - today) (Some d') c
                     (Cli.recent_session_count session_log now (subject entry) 7 + 1)))
  /\ (forall other data', other <> subject entry ->
      Cli.priority_score (session_log ++ [entry]) today now other data'
      = Cli.priority_score session_log today now other data'
      /\ Web.priority_score (session_log ++ [entry]) today now other data'
         = Web.priority_score session_log today now other data'
      /\ Cli.priority_score_exact (session_log ++ [entry]) today now other data'
         = Cli.priority_score_exact session_log today now other data'
      /\ Web.priority_score_exact (session_log ++ [entry]) today now other data'
         = Web.priority_score_exact session_log today now other data').
Proof.
  intros Hwindow.
  pose proof (delta_days_within_week _ _ Hwindow) as Hfresh.
  assert (Hcount : Cli.recent_session_count (session_log ++ [entry]) now (subject entry) 7
                   = Cli.recent_session_count session_log now (subject entry) 7 + 1).
  { rewrite !cli_recent_count_spec. apply recent_count_snoc. lia. }
  split; [exact Hcount |]. split.
  - pose proof (days_since_snoc session_log now entry) as Hdays.
    rewrite <- !cli_days_since_spec in Hdays.
    eexists. split; [exact Hdays |]. split; [exact Hdays |].
    split; [destruct (Cli.get_days_since_last_session session_log now (subject entry));
            lia |].
    split; [intros d ->; lia |].
    intros c exam Hc.
    rewrite cli_float_score_formula, web_float_score_formula by exact Hc.
    rewrite <- !cli_recent_count_spec, <- !cli_days_since_spec, Hcount, Hdays.
    split; reflexivity.
  - intros other data' Hother.
    assert (Hsame_days : Cli.get_days_since_last_session (session_log ++ [entry]) now other
                         = Cli.get_days_since_last_session session_log now other).
    { rewrite !cli_days_since_spec. unfold Spec.days_since_last_session.
      rewrite sessions_of_snoc_other by exact Hother. reflexivity. }
    assert (Hsame_recent : Cli.recent_session_count (session_log ++ [entry]) now other 7
                           = Cli.recent_session_count session_log now other 7).
    { rewrite !cli_recent_count_spec. unfold Spec.count_since.
      rewrite sessions_of_snoc_other by exact Hother. reflexivity. }
    assert (Hweb_days : forall l, Web.get_days_since_last_session l now other
                                  = Cli.get_days_since_last_session l now other)
      by reflexivity.
    repeat split.
    + unfold Cli.priority_score. rewrite Hsame_days, Hsame_recent. reflexivity.
    + unfold Web.priority_score. rewrite !Hweb_days, Hsame_days.
      change (py_sum (map (fun _ => 1)
                (List.filter (fun e => String.eqb (subject e) other
                                       && (now - timedelta_days 7 <=? timestamp e))
                   (session_log ++ [entry]))))
        with (Cli.recent_session_count (session_log ++ [entry]) now other 7).
      rewrite Hsame_recent. reflexivity.
    + unfold Cli.priority_score_exact. rewrite Hsame_days, Hsame_recent. reflexivity.
    + unfold Web.priority_score_exact. rewrite !Hweb_days, Hsame_days.
      change (py_sum (map (fun _ => 1)
                (List.filter (fun e => String.eqb (subject e) other
                                       && (now - timedelta_days 7 <=? timestamp e))
                   (session_log ++ [entry]))))
        with (Cli.recent_session_count (session_log ++ [entry]) now other 7).
      rewrite Hsame_recent. reflexivity.
Qed.

(** X7 on a session of Irish logged now on top of [study_week], where Irish
    has one session in the week; Maths scores as before. *)
Lemma logged_session_counts_once_more_witness :
  Cli.recent_session_count (study_week ++ [irish_today]) sample_now "Irish" 7 = 2
  /\ (exists d', Cli.get_days_since_last_session (study_week ++ [irish_today])
                   sample_now "Irish" = Some d'
                 /\ d' <= 6)
  /\ Cli.priority_score (study_week ++ [irish_today]) sample_today sample_now
       "Maths" (SubjectData (Some 8) (Some 739928))
     = Cli.priority_score study_week sample_today sample_now
         "Maths" (SubjectData (Some 8) (Some 739928)).
Proof.
  destruct (logged_session_counts_once_more study_week sample_today sample_now
              irish_today ltac:(reflexivity))
    as (Hcount & (d' & Hdays & _ & Hfresh & _) & Hother).
  split; [etransitivity; [exact Hcount | vm_compute; reflexivity] |].
  split; [exists d'; split; [exact Hdays | exact Hfresh] |].
  apply (Hother "Maths"%string). discriminate.
Defined.

Lemma urgency_antitone (d d' : Z) :
  d <= d' ->
  (1 / Py.max (inject_Z d') (1 # 10) <= 1 / Py.max (inject_Z d) (1 # 10))%Q.
Proof.
  intros Hd. destruct (Z.eq_dec d d') as [-> | Hne]; [apply Qle_refl |].
  destruct (Z_lt_le_dec 0 d') as [Hpos' | Hnonpos'].
  - destruct (Z_lt_le_dec 0 d) as [Hpos | Hnonpos].
    + apply Qlt_le_weak. apply urgency_pos_decreasing; lia.
    + rewrite (urgency_nonpos d) by exact Hnonpos.
      apply Qle_trans with (y := 1%Q); [apply urgency_pos_le_1; exact Hpos' |].
      unfold Qle. simpl. lia.
  - rewrite (urgency_nonpos d'), (urgency_nonpos d) by lia. apply Qle_refl.
Qed.

Lemma score_le (u u' a a' p : Q) :
  (u' <= u)%Q -> (a' <= a)%Q ->
  (u' * (3 # 2) + a' - p <= u * (3 # 2) + a - p)%Q.
Proof. intros Hu Ha. lra. Qed.

(** X8: with the same log and clock, a subject scores no lower when its
    stored confidence is lower or its exam is sooner, in both front ends
    (the scores read in exact arithmetic, [priority_score_exact]). *)
Theorem less_confident_or_sooner_scores_no_lower (session_log : sessions) (today : date)
    (now : datetime) (subj : string) (c c' : Z) (exam exam' : date) :
  c <= c' -> exam <= exam' ->
  (exists s s',
      Cli.priority_score_exact session_log today now subj (SubjectData (Some c) (Some exam))
      = Return s
      /\ Cli.priority_score_exact session_log today now subj (SubjectData (Some c') (Some exam'))
         = Return s'
      /\ (s' <= s)%Q)
  /\ (exists s s',
      Web.priority_score_exact session_log today now subj (SubjectData (Some c) (Some exam))
      = Return s
      /\ Web.priority_score_exact session_log today now subj (SubjectData (Some c') (Some exam'))
         = Return s'
      /\ (s' <= s)%Q).
Proof.
  intros Hc Hexam.
  assert (Hu : (1 / Py.max (inject_Z (exam' - today)) (1 # 10)
                <= 1 / Py.max (inject_Z (exam - today)) (1 # 10))%Q)
    by (apply urgency_antitone; lia).
  split.
  - unfold Cli.priority_score_exact. cbn [exam_date confidence].
    eexists. eexists. split; [reflexivity |]. split; [reflexivity |].
    apply score_le; [exact Hu |]. rewrite <- Zle_Qle.
    destruct (Cli.get_days_since_last_session session_log now subj); lia.
  - unfold Web.priority_score_exact. cbn [exam_date confidence].
    eexists. eexists. split; [reflexivity |]. split; [reflexivity |].
    apply score_le; [exact Hu |]. rewrite <- Zle_Qle.
    destruct (Web.get_days_since_last_session session_log now subj); lia.
Qed.

(** X8 on Irish with [study_week]: confidence 3 and an exam in 10 days
    against confidence 5 and an exam in 30 days. *)
Lemma less_confident_or_sooner_scores_no_lower_witness :
  (exists s s',
      Cli.priority_score_exact study_week sample_today sample_now "Irish"
        (SubjectData (Some 3) (Some 739933)) = Return s
      /\ Cli.priority_score_exact study_week sample_today sample_now "Irish"
           (SubjectData (Some 5) (Some 739953)) = Return s'
      /\ (s' <= s)%Q)
  /\ (exists s s',
      Web.priority_score_exact study_week sample_today sample_now "Irish"
        (SubjectData (Some 3) (Some 739933)) = Return s
      /\ Web.priority_score_exact study_week sample_today sample_now "Irish"
           (SubjectData (Some 5) (Some 739953)) = Return s'
      /\ (s' <= s)%Q).
Proof.
  apply (less_confident_or_sooner_scores_no_lower study_week sample_today sample_now
           "Irish" 3 5 739933 739953); lia.
Defined.

(** ** What the logging operations keep *)

Lemma store_set_confidence_exam_dates (subj : string) (v : Z) (subjects : subject_store) :
  exam_dates (store_set_confidence subj v subjects) = exam_dates subjects.
Proof.
  unfold exam_dates, store_set_confidence. rewrite map_map.
  apply map_ext. intros [k d]. cbn [fst snd].
  destruct (String.eqb k subj); reflexivity.
Qed.

Lemma store_set_confidence_in_range (subj : string) (v : Z) (subjects : subject_store) :
  1 <= v <= 10 -> confidences_in_range subjects ->
  confidences_in_range (store_set_confidence subj v subjects).
Proof.
  intros Hv Hrange k data c Hin Hc.
  unfold store_set_confidence in Hin.
  apply list_elem_of_fmap in Hin as [[k0 d0] [Heq Hin]]. cbn [fst snd] in Heq.
  destruct (String.eqb k0 subj).
  - injection Heq as -> ->. cbn [confidence] in Hc. injection Hc as <-. exact Hv.
  - injection Heq as -> ->. exact (Hrange _ _ _ Hin Hc).
Qed.

Lemma store_set_confidence_other (subj : string) (v : Z) (subjects : subject_store)
    (k : string) (data : subject_data) :
  k <> subj ->
  (k, data) ∈ store_set_confidence subj v subjects <-> (k, data) ∈ subjects.
Proof.
  intros Hk. unfold store_set_confidence. rewrite list_elem_of_fmap. split.
  - intros [[k0 d0] [Heq Hin]]. cbn [fst snd] in Heq.
    destruct (String.eqb_spec k0 subj) as [-> | Hne].
    + injection Heq as -> _. contradiction.
    + injection Heq as -> ->. exact Hin.
  - intros Hin. exists (k, data). split; [| exact Hin]. cbn [fst snd].
    destruct (String.eqb_spec k subj) as [-> | Hne]; [contradiction | reflexivity].
Qed.

Lemma prompt_subject_member (subjects : subject_store) (lines rest : list string)
    (subj : string) :
  Cli.prompt_subject subjects lines = (Return subj, rest) ->
  store_mem subj subjects = true.
Proof.
  induction lines as [| l lines IH]; simpl; [discriminate |].
  destruct (store_mem (Py.title (Py.strip l)) subjects) eqn:Hmem.
  - intros [= <- _]. exact Hmem.
  - exact IH.
Qed.

Lemma prompt_subject_raises (subjects : subject_store) (lines rest : list string) (e : exn) :
  Cli.prompt_subject subjects lines = (Raise e, rest) -> e = EOFError.
Proof.
  induction lines as [| l lines IH]; simpl; [intros [= <- _]; reflexivity |].
  destruct (store_mem (Py.title (Py.strip l)) subjects); [discriminate | exact IH].
Qed.

Lemma prompt_int_raises (lines rest : list string) (e : exn) :
  Cli.prompt_int lines = (Raise e, rest) -> e = EOFError.
Proof.
  induction lines as [| l lines IH]; simpl; [intros [= <- _]; reflexivity |].
  destruct (Py.int l); [discriminate | exact IH].
Qed.

Lemma prompt_effectiveness_range (lines rest : list string) (eff : Z) :
  Cli.prompt_effectiveness lines = (Return eff, rest) -> 1 <= eff <= 10.
Proof.
  induction lines as [| l lines IH]; simpl; [discriminate |].
  destruct (Py.int l) as [n |]; [| exact IH].
  destruct ((1 <=? n) && (n <=? 10)) eqn:Hn; [| exact IH].
  intros [= <- _]. apply andb_true_iff in Hn as [H1 H2]. lia.
Qed.

Lemma prompt_effectiveness_raises (lines rest : list string) (e : exn) :
  Cli.prompt_effectiveness lines = (Raise e, rest) -> e = EOFError.
Proof.
  induction lines as [| l lines IH]; simpl; [intros [= <- _]; reflexivity |].
  destruct (Py.int l) as [n |]; [| exact IH].
  destruct ((1 <=? n) && (n <=? 10)); [discriminate | exact IH].
Qed.

(** What [update_confidence] does to the store: nothing, or one confidence
    set to a number from 1 to 10. *)
Lemma update_confidence_effect (subj answer : string) (w : world) :
  exists subjects',
    Cli.update_confidence subj answer w = (Return tt, World subjects' (log w) (stdin w))
    /\ (subjects' = subjects w
        \/ exists v, 1 <= v <= 10 /\ subjects' = store_set_confidence subj v (subjects w)).
Proof.
  unfold Cli.update_confidence.
  destruct (decide (answer = EmptyString)).
  { exists (subjects w). split; [destruct w; reflexivity | left; reflexivity]. }
  destruct (Py.int answer) as [v |].
  - destruct ((1 <=? v) && (v <=? 10)) eqn:Hv.
    + eexists. split; [reflexivity |]. right. exists v.
      apply andb_true_iff in Hv as [H1 H2]. split; [lia | reflexivity].
    + exists (subjects w). split; [destruct w; reflexivity | left; reflexivity].
  - exists (subjects w). split; [destruct w; reflexivity | left; reflexivity].
Qed.

(** X9: when [manual_log_session] returns, the log is the old log with
    exactly one record appended; the record is stamped now, is for a subject
    of the store, and has an effectiveness from 1 to 10; no key or exam date
    of the store has changed, no other subject's data has changed, and if
    every stored confidence was from 1 to 10 it still is. *)
Theorem manual_log_session_appends_one_record (now : datetime) (w w' : world)
    (entry : session) :
  Cli.manual_log_session now w = (Return entry, w') ->
  log w' = log w ++ [entry]
  /\ store_mem (subject entry) (subjects w) = true
  /\ timestamp entry = now
  /\ (exists eff, effectiveness entry = Some eff /\ 1 <= eff <= 10)
  /\ exam_dates (subjects w') = exam_dates (subjects w)
  /\ (forall k data, k <> subject entry ->
        ((k, data) ∈ subjects w' <-> (k, data) ∈ subjects w))
  /\ (confidences_in_range (subjects w) -> confidences_in_range (subjects w')).
Proof.
  unfold Cli.manual_log_session, bind, get_subjects, reading.
  destruct (Cli.prompt_subject (subjects w) (stdin w)) as [[subj | e] l1] eqn:Hsubj;
    [| discriminate].
  cbn [subjects log stdin].
  destruct (Cli.prompt_int l1) as [[mins | e] l2]; [| discriminate].
  cbn [subjects log stdin].
  destruct l2 as [| task l3]; [discriminate |]. cbn [input_line subjects log stdin].
  destruct (Cli.prompt_effectiveness l3) as [[eff | e] l4] eqn:Heff; [| discriminate].
  cbn [subjects log stdin].
  destruct l4 as [| answer l5]; [discriminate |]. cbn [input_line subjects log stdin].
  destruct (update_confidence_effect subj (Py.strip answer)
              (World (subjects w) (log w) l5)) as (subjects' & Hrun & Hcases).
  rewrite Hrun. cbn [subjects log stdin append_session ret].
  unfold append_session, ret. cbn [subjects log stdin].
  intros [= <- <-]. cbn [subjects log stdin subject timestamp effectiveness] in *.
  split; [reflexivity |].
  split; [exact (prompt_subject_member _ _ _ _ Hsubj) |].
  split; [reflexivity |].
  split; [exists eff; split; [reflexivity | exact (prompt_effectiveness_range _ _ _ Heff)] |].
  destruct Hcases as [-> | (v & Hv & ->)].
  - split; [reflexivity |]. split; [intros; reflexivity | auto].
  - split; [apply store_set_confidence_exam_dates |].
    split; [intros k data Hk; apply store_set_confidence_other; exact Hk |].
    apply store_set_confidence_in_range. exact Hv.
Qed.

(** X9 on a session of Maths, with the confidence raised to 9. *)
Lemma manual_log_session_appends_one_record_witness :
  log after_maths_essay = log before_maths_essay ++ [maths_essay]
  /\ store_mem (subject maths_essay) (subjects before_maths_essay) = true
  /\ timestamp maths_essay = sample_now
  /\ (exists eff, effectiveness maths_essay = Some eff /\ 1 <= eff <= 10)
  /\ exam_dates (subjects after_maths_essay) = exam_dates (subjects before_maths_essay)
  /\ (forall k data, k <> subject maths_essay ->
        ((k, data) ∈ subjects after_maths_essay
         <-> (k, data) ∈ subjects before_maths_essay))
  /\ (confidences_in_range (subjects before_maths_essay) ->
      confidences_in_range (subjects after_maths_essay)).
Proof.
  apply (manual_log_session_appends_one_record sample_now before_maths_essay
           after_maths_essay maths_essay).
  vm_compute. reflexivity.
Defined.

(** X10: [manual_log_session] is all or nothing: it can only raise
    [EOFError] (the input ran out), and when it does neither the store nor
    the log has changed. *)
Theorem manual_log_session_fails_clean (now : datetime) (w w' : world) (e : exn) :
  Cli.manual_log_session now w = (Raise e, w') ->
  e = EOFError /\ subjects w' = subjects w /\ log w' = log w.
Proof.
  unfold Cli.manual_log_session, bind, get_subjects, reading.
  destruct (Cli.prompt_subject (subjects w) (stdin w)) as [[subj | e1] l1] eqn:Hsubj.
  2: { intros [= <- <-]. split; [exact (prompt_subject_raises _ _ _ _ Hsubj) | auto]. }
  cbn [subjects log stdin].
  destruct (Cli.prompt_int l1) as [[mins | e2] l2] eqn:Hmins.
  2: { intros [= <- <-]. split; [exact (prompt_int_raises _ _ _ Hmins) | auto]. }
  cbn [subjects log stdin].
  destruct l2 as [| task l3]; [intros [= <- <-]; auto |].
  cbn [input_line subjects log stdin].
  destruct (Cli.prompt_effectiveness l3) as [[eff | e3] l4] eqn:Heff.
  2: { intros [= <- <-]. split; [exact (prompt_effectiveness_raises _ _ _ Heff) | auto]. }
  cbn [subjects log stdin].
  destruct l4 as [| answer l5]; [intros [= <- <-]; auto |].
  cbn [input_line subjects log stdin].
  destruct (update_confidence_effect subj (Py.strip answer)
              (World (subjects w) (log w) l5)) as (subjects' & Hrun & _).
  rewrite Hrun. unfold append_session, ret. cbn [subjects log stdin]. discriminate.
Qed.

(** X10 on an input that ends after the minutes. *)
Lemma manual_log_session_fails_clean_witness :
  EOFError = EOFError
  /\ subjects (World sample_subjects study_week []) = subjects input_cut_short
  /\ log (World sample_subjects study_week []) = log input_cut_short.
Proof.
  apply (manual_log_session_fails_clean sample_now input_cut_short
           (World sample_subjects study_week []) EOFError).
  vm_compute. reflexivity.
Defined.

(** X11: what [instant_mode] does to the state, however it ends. No key and
    no exam date of the store ever changes. The log grows only when the
    outcome is a logged session, and then by exactly that record, stamped
    now and filed under the chosen subject, while every other subject keeps
    its data; when the session is not logged, or the guard stops the run,
    the store and the log are as before; when an exception is raised the
    log is as before. *)
Theorem instant_mode_state_effects (today : date) (now : datetime) (w w' : world)
    (r : result Cli.instant_outcome) :
  Cli.instant_mode today now w = (r, w') ->
  exam_dates (subjects w') = exam_dates (subjects w)
  /\ match r with
     | Return (Cli.Logged chosen entry) =>
         log w' = log w ++ [entry]
         /\ subject entry = chosen /\ timestamp entry = now
         /\ forall k data, k <> chosen ->
              ((k, data) ∈ subjects w' <-> (k, data) ∈ subjects w)
     | Return (Cli.NotLogged _) => subjects w' = subjects w /\ log w' = log w
     | Return Cli.NotConfigured => w' = w
     | Raise _ => log w' = log w
     end.
Proof.
  unfold Cli.instant_mode, bind, get_subjects, get_log, reading.
  destruct (negb (all_configured (subjects w))); [intros [= <- <-]; auto |].
  destruct (Cli.prompt_int (stdin w)) as [[mins | e] l1];
    [| intros [= <- <-]; auto].
  cbn [subjects log stdin].
  destruct (Cli.prompt_energy l1) as [[energy | e] l2]; [| intros [= <- <-]; auto].
  cbn [subjects log stdin].
  destruct (Cli.ranking (subjects w) (log w) today now) as [ranked | e];
    [| intros [= <- <-]; auto].
  cbn [Cli.lift ret subjects log stdin].
  destruct (Cli.choose ranked l2) as [[chosen | e] l3]; [| intros [= <- <-]; auto].
  cbn [subjects log stdin].
  destruct l3 as [| completed l4]; [intros [= <- <-]; auto |].
  cbn [input_line subjects log stdin].
  destruct (String.eqb (Py.lower (Py.strip completed)) "yes");
    [| intros [= <- <-]; auto].
  destruct l4 as [| rating l5]; [intros [= <- <-]; auto |].
  cbn [input_line subjects log stdin].
  destruct l5 as [| new_conf l6]; [intros [= <- <-]; auto |].
  cbn [input_line subjects log stdin].
  unfold Cli.int_or_raise, set_confidence, append_session, ret, raise.
  destruct (decide (Py.strip new_conf = EmptyString)) as [_ | _].
  - cbn [subjects log stdin].
    destruct (Py.int rating) as [eff |]; intros [= <- <-]; cbn [subjects log stdin];
      [| auto].
    split; [reflexivity |]. repeat split; auto.
  - destruct (Py.int new_conf) as [conf_val |]; [| intros [= <- <-]; auto].
    cbn [subjects log stdin].
    destruct (Py.int rating) as [eff |]; intros [= <- <-]; cbn [subjects log stdin].
    + split; [apply store_set_confidence_exam_dates |].
      split; [reflexivity |]. split; [reflexivity |]. split; [reflexivity |].
      intros k data Hk. apply store_set_confidence_other. exact Hk.
    + split; [apply store_set_confidence_exam_dates | reflexivity].
Qed.

(** X11 on a run that logs a session of Irish and sets its confidence. *)
Lemma instant_mode_state_effects_witness :
  exam_dates (subjects after_instant) = exam_dates (subjects before_instant)
  /\ (log after_instant = log before_instant ++ [irish_instant]
      /\ subject irish_instant = "Irish"%string /\ timestamp irish_instant = sample_now
      /\ forall k data, k <> "Irish"%string ->
           ((k, data) ∈ subjects after_instant <-> (k, data) ∈ subjects before_instant)).
Proof.
  apply (instant_mode_state_effects sample_today sample_now before_instant after_instant
           (Return (Cli.Logged "Irish" irish_instant))).
  vm_compute. reflexivity.
Defined.

(** ** Viewing past sessions *)

Lemma list_filter_sublist {A} (f : A -> bool) (l : list A) :
  sublist (List.filter f l) l.
Proof.
  induction l as [| a l IH]; simpl.
  - constructor.
  - destruct (f a); [apply sublist_skip | apply sublist_cons]; exact IH.
Qed.

Lemma list_filter_elem {A} (f : A -> bool) (l : list A) (x : A) :
  x ∈ List.filter f l <-> x ∈ l /\ f x = true.
Proof. rewrite !list_elem_of_In. apply filter_In. Qed.

Lemma minus_days_Some (dt : datetime) (n : Z) (r : datetime) :
  minus_days dt n = Some r -> r = dt - timedelta_days n.
Proof.
  unfold minus_days. destruct (Z.abs n <=? 999999999); [| discriminate].
  destruct ((datetime_min <=? dt - timedelta_days n) && (dt - timedelta_days n <? datetime_end));
    [| discriminate].
  intros [= <-]. reflexivity.
Qed.

Lemma print_sessions_cases (l : list session) :
  (Cli.print_sessions l = Return tt /\ Forall (fun s => effectiveness s <> None) l)
  \/ (Cli.print_sessions l = Raise KeyError
      /\ exists s, s ∈ l /\ effectiveness s = None).
Proof.
  induction l as [| s l IH]; cbn [Cli.print_sessions].
  - left. split; [reflexivity | constructor].
  - destruct (effectiveness s) as [e |] eqn:He.
    + destruct IH as [[-> Hall] | [-> (s' & Hin & Hs')]].
      * left. split; [reflexivity |]. constructor; [congruence | exact Hall].
      * right. split; [reflexivity |]. exists s'.
        split; [apply list_elem_of_further; exact Hin | exact Hs'].
    + right. split; [reflexivity |]. exists s.
      split; [apply list_elem_of_here | exact He].
Qed.

Lemma show_cases (l : list session) :
  (l = [] /\ Cli.show l = Return Cli.NoMatch)
  \/ (l <> [] /\ Forall (fun s => effectiveness s <> None) l
      /\ Cli.show l = Return (Cli.Shown l))
  \/ (Cli.show l = Raise KeyError /\ exists s, s ∈ l /\ effectiveness s = None).
Proof.
  destruct l as [| s0 l]; [left; split; reflexivity |]. right.
  unfold Cli.show.
  destruct (print_sessions_cases (s0 :: l)) as [[-> Hall] | [-> Hex]].
  - left. split; [discriminate |]. split; [exact Hall | reflexivity].
  - right. split; [reflexivity | exact Hex].
Qed.

(** The list kept by the subject filter of [view_sessions]. *)
Lemma by_subject_elem (fs : string) (session_log : sessions) (s : session) :
  s ∈ (if decide (fs = EmptyString) then session_log
       else List.filter (fun s => String.eqb (subject s) fs) session_log)
  <-> s ∈ session_log /\ (fs = EmptyString \/ subject s = fs).
Proof.
  destruct (decide (fs = EmptyString)) as [Hfs | Hfs].
  - split; [intros H; split; [exact H | left; exact Hfs] | intros [H _]; exact H].
  - rewrite list_filter_elem, String.eqb_eq. split.
    + intros [H1 H2]. split; [exact H1 | right; exact H2].
    + intros [H1 [H2 | H2]]; [contradiction | split; assumption].
Qed.

Lemma by_subject_sublist (fs : string) (session_log : sessions) :
  sublist (if decide (fs = EmptyString) then session_log
           else List.filter (fun s => String.eqb (subject s) fs) session_log)
          session_log.
Proof.
  destruct (decide (fs = EmptyString)); [reflexivity | apply list_filter_sublist].
Qed.

(** X12: every way [view_sessions] can end. It never changes the store or
    the log. With an empty log it asks nothing. Otherwise it reads two
    answers; the sessions that pass both filters are the ones to show, in
    the order of the log. It reports no match exactly when no session
    passes. It prints them all when each of them has an effectiveness, and
    raises [KeyError] at one that has none. A number of days that moves the
    cutoff out of the range of [datetime] raises [OverflowError], which is
    not caught, and [EOFError] is raised when fewer than two answers are
    left. *)
Theorem view_sessions_outcomes (now : datetime) (w w' : world)
    (r : result Cli.view_outcome) :
  Cli.view_sessions now w = (r, w') ->
  subjects w' = subjects w /\ log w' = log w
  /\ match r with
     | Return Cli.NoSessions => log w = [] /\ stdin w' = stdin w
     | Return (Cli.Shown filtered) =>
         exists a1 a2,
           stdin w = a1 :: a2 :: stdin w'
           /\ filtered <> [] /\ sublist filtered (log w)
           /\ (forall s, s ∈ filtered <-> s ∈ log w /\ passes_filters now a1 a2 s)
           /\ Forall (fun s => effectiveness s <> None) filtered
     | Return Cli.NoMatch =>
         exists a1 a2,
           stdin w = a1 :: a2 :: stdin w' /\ log w <> []
           /\ forall s, s ∈ log w -> ~ passes_filters now a1 a2 s
     | Raise e =>
         (e = EOFError /\ log w <> [] /\ (length (stdin w) < 2)%nat)
         \/ (e = OverflowError
             /\ exists a1 a2 days,
                  stdin w = a1 :: a2 :: stdin w'
                  /\ Py.int (Py.strip a2) = Some days /\ minus_days now days = None)
         \/ (e = KeyError
             /\ exists a1 a2 s,
                  stdin w = a1 :: a2 :: stdin w'
                  /\ s ∈ log w /\ passes_filters now a1 a2 s
                  /\ effectiveness s = None)
     end.
Proof.
  unfold Cli.view_sessions, bind, get_log, reading.
  destruct (log w) as [| s0 rest_log] eqn:Hlog; [intros [= <- <-]; auto |].
  rewrite <- Hlog.
  assert (Hne : log w <> []) by (rewrite Hlog; discriminate).
  clear Hlog s0 rest_log.
  destruct (stdin w) as [| a1 l1] eqn:Hin; cbn [input_line subjects log stdin].
  { intros [= <- <-]. cbn [subjects log]. do 2 (split; [reflexivity |]).
    left. repeat split; auto. }
  destruct l1 as [| a2 l2]; cbn [input_line subjects log stdin].
  { intros [= <- <-]. cbn [subjects log]. do 2 (split; [reflexivity |]).
    left. repeat split; auto. }
  set (fs := Py.title (Py.strip a1)).
  set (by_subject := if decide (fs = EmptyString) then log w
                     else List.filter (fun s => String.eqb (subject s) fs) (log w)).
  assert (Helem : forall s, s ∈ by_subject <-> s ∈ log w /\ (fs = EmptyString \/ subject s = fs))
    by (intros s; apply by_subject_elem).
  assert (Hsub : sublist by_subject (log w)) by apply by_subject_sublist.
  (* The end of the run on the list of the sessions that pass the filters. *)
  match goal with
  | |- _ = _ -> ?post =>
      assert (Hfinish : forall filtered,
                sublist filtered (log w) ->
                (forall s, s ∈ filtered <-> s ∈ log w /\ passes_filters now a1 a2 s) ->
                Cli.lift (Cli.show filtered) (World (subjects w) (log w) l2) = (r, w') ->
                post)
  end.
  { intros filtered Hsubl Hpass.
    destruct (show_cases filtered)
      as [[Hnil ->] | [(Hcons & Heff & ->) | (-> & s & Hs & He)]];
      cbn [Cli.lift]; unfold ret, raise; intros [= <- <-]; cbn [subjects log stdin];
      (split; [reflexivity |]); (split; [reflexivity |]).
    - exists a1, a2. split; [reflexivity |]. split; [exact Hne |].
      intros s Hs Hp.
      assert (Hin' : s ∈ filtered) by (apply Hpass; split; assumption).
      rewrite Hnil in Hin'. apply not_elem_of_nil in Hin'. exact Hin'.
    - exists a1, a2. split; [reflexivity |]. split; [exact Hcons |].
      split; [exact Hsubl |]. split; [exact Hpass | exact Heff].
    - right. right. split; [reflexivity |]. exists a1, a2, s.
      apply Hpass in Hs as [Hlog Hp]. auto. }
  assert (Hall : Py.int (Py.strip a2) = None ->
            forall s, s ∈ by_subject <-> s ∈ log w /\ passes_filters now a1 a2 s).
  { intros Hint s. rewrite Helem. unfold passes_filters. fold fs. rewrite Hint.
    split; [intros [H1 H2]; split; [exact H1 | split; [exact H2 | discriminate]]
           | intros [H1 [H2 _]]; split; assumption]. }
  destruct (decide (Py.strip a2 = EmptyString)) as [Hblank | Hgiven].
  { apply Hfinish; [exact Hsub | apply Hall; rewrite Hblank; reflexivity]. }
  destruct (Py.int (Py.strip a2)) as [days |] eqn:Hint;
    [| apply Hfinish; [exact Hsub | apply Hall; reflexivity]].
  clear Hall.
  destruct (minus_days now days) as [cutoff |] eqn:Hcut.
  2: { unfold raise. intros [= <- <-]. cbn [subjects log stdin].
       split; [reflexivity |]. split; [reflexivity |].
       right. left. split; [reflexivity |]. exists a1, a2, days. auto. }
  apply minus_days_Some in Hcut.
  apply Hfinish.
  - etransitivity; [apply list_filter_sublist | exact Hsub].
  - intros s. rewrite list_filter_elem, Helem, Z.leb_le. unfold passes_filters.
    fold fs. rewrite Hint, Hcut. split.
    + intros [[H1 H2] H3]. split; [exact H1 |]. split; [exact H2 |].
      intros d [= <-]. exact H3.
    + intros [H1 [H2 H3]]. split; [split; assumption | apply H3; reflexivity].
Qed.

(** X12 on the sessions of Maths of the last day: one of the two is shown. *)
Lemma view_sessions_outcomes_witness :
  subjects (World sample_subjects study_week []) = subjects asking_for_maths
  /\ log (World sample_subjects study_week []) = log asking_for_maths
  /\ exists a1 a2,
       stdin asking_for_maths = a1 :: a2 :: stdin (World sample_subjects study_week [])
       /\ [maths_past_paper] <> [] /\ sublist [maths_past_paper] (log asking_for_maths)
       /\ (forall s, s ∈ [maths_past_paper]
                     <-> s ∈ log asking_for_maths /\ passes_filters sample_now a1 a2 s)
       /\ Forall (fun s => effectiveness s <> None) [maths_past_paper].
Proof.
  apply (view_sessions_outcomes sample_now asking_for_maths
           (World sample_subjects study_week []) (Return (Cli.Shown [maths_past_paper]))).
  vm_compute. reflexivity.
Defined.

Lemma minus_days_zero (now : datetime) :
  datetime_in_range now -> minus_days now 0 = Some now.
Proof.
  intros [Hlo Hhi]. unfold minus_days, timedelta_days. cbn [Z.abs Z.leb Z.compare].
  rewrite Z.mul_0_l || rewrite Z.mul_0_r. rewrite Z.sub_0_r.
  apply Z.leb_le in Hlo. apply Z.ltb_lt in Hhi. rewrite Hlo, Hhi. reflexivity.
Qed.

(** What [view_sessions] does once a subject and a number of days are
    read. *)
Lemma view_sessions_filtered (now : datetime) (w : world)
    (a1 a2 : string) (rest : list string) (fs : string) (days : Z) :
  log w <> [] -> stdin w = a1 :: a2 :: rest ->
  Py.title (Py.strip a1) = fs -> fs <> EmptyString ->
  Py.int (Py.strip a2) = Some days ->
  Cli.view_sessions now w
  = (match minus_days now days with
     | Some cutoff =>
         Cli.show (List.filter (fun s => cutoff <=? timestamp s)
                     (List.filter (fun s => String.eqb (subject s) fs) (log w)))
     | None => Raise OverflowError
     end,
     World (subjects w) (log w) rest).
Proof.
  intros Hne Hin Hfs Hfs_ne Hint.
  unfold Cli.view_sessions, bind, get_log, reading.
  destruct (log w) as [| s0 l] eqn:Hlog; [contradiction |]. rewrite <- Hlog.
  rewrite Hin. cbn [input_line subjects log stdin]. rewrite Hfs.
  destruct (decide (fs = EmptyString)) as [? | _]; [contradiction |].
  destruct (decide (Py.strip a2 = EmptyString)) as [Hblank | _].
  { rewrite Hblank in Hint. discriminate. }
  rewrite Hint. destruct (minus_days now days) as [cutoff |]; [| reflexivity].
  destruct (Cli.show _); reflexivity.
Qed.

(** X13: the two front ends filter the log alike when a subject is named
    and the number of days is positive. The terminal goes on with the list
    the web page keeps, or both meet the overflow of the cutoff: it prints
    the list when every session kept has an effectiveness, and raises
    [KeyError] when one has none, where the web page shows "N/A". *)
Theorem view_front_ends_agree_on_positive_days (now : datetime) (w : world)
    (a1 a2 : string) (rest : list string) (fs : string) (days : Z) :
  log w <> [] -> stdin w = a1 :: a2 :: rest ->
  Py.title (Py.strip a1) = fs -> fs <> EmptyString -> fs <> "All"%string ->
  Py.int (Py.strip a2) = Some days -> 0 < days ->
  Cli.view_sessions now w
  = (match Web.filtered_log (log w) now fs days with
     | Return kept => Cli.show kept
     | Raise e => Raise e
     end,
     World (subjects w) (log w) rest)
  /\ (Web.filtered_log (log w) now fs days = Raise OverflowError
      \/ exists kept,
           Web.filtered_log (log w) now fs days = Return kept
           /\ (kept <> [] -> Forall (fun s => effectiveness s <> None) kept ->
               Cli.view_sessions now w
               = (Return (Cli.Shown kept), World (subjects w) (log w) rest))
           /\ (kept = [] ->
               Cli.view_sessions now w
               = (Return Cli.NoMatch, World (subjects w) (log w) rest))
           /\ ((exists s, s ∈ kept /\ effectiveness s = None) ->
               Cli.view_sessions now w
               = (Raise KeyError, World (subjects w) (log w) rest))).
Proof.
  intros Hne Hin Hfs Hfs_ne Hfs_all Hint Hpos.
  rewrite (view_sessions_filtered now w a1 a2 rest fs days Hne Hin Hfs Hfs_ne Hint).
  assert (Hall : String.eqb fs "All" = false) by (apply String.eqb_neq; exact Hfs_all).
  unfold Web.filtered_log. rewrite Hall.
  apply Z.ltb_lt in Hpos. rewrite Hpos.
  destruct (minus_days now days) as [cutoff |]; [| split; [reflexivity | left; reflexivity]].
  split; [reflexivity |]. right. eexists. split; [reflexivity |].
  set (kept := List.filter (fun s => cutoff <=? timestamp s)
                 (List.filter (fun s => String.eqb (subject s) fs) (log w))).
  destruct (show_cases kept) as [[Hnil Hs] | [(Hcons & Heff & Hs) | (Hs & s & Hk & He)]];
    rewrite Hs.
  - split; [intros Hc; contradiction |]. split; [reflexivity |].
    intros (s & Hk & _). rewrite Hnil in Hk. apply not_elem_of_nil in Hk. contradiction.
  - split; [reflexivity |]. split; [intros Hnil; contradiction |].
    intros (s & Hk & He). rewrite Forall_forall in Heff.
    exfalso. exact (Heff s Hk He).
  - split; [| split; [| reflexivity]].
    + intros _ Heff. rewrite Forall_forall in Heff. exfalso. exact (Heff s Hk He).
    + intros Hnil. rewrite Hnil in Hk. apply not_elem_of_nil in Hk. contradiction.
Qed.

(** X13 on the sessions of Maths of the last day: both front ends keep the
    past paper, and the terminal prints it. *)
Lemma view_front_ends_agree_on_positive_days_witness :
  Web.filtered_log (log asking_for_maths) sample_now "Maths" 1 = Return [maths_past_paper]
  /\ Cli.view_sessions sample_now asking_for_maths
     = (match Web.filtered_log (log asking_for_maths) sample_now "Maths" 1 with
        | Return kept => Cli.show kept
        | Raise e => Raise e
        end,
        World (subjects asking_for_maths) (log asking_for_maths) []).
Proof.
  split; [vm_compute; reflexivity |].
  apply (view_front_ends_agree_on_positive_days sample_now asking_for_maths
           "maths" "1" [] "Maths" 1);
    first [reflexivity | discriminate].
Defined.

(** X19: at 0 days the two front ends part. The web page takes 0 for no
    limit and keeps every session of the subject; the terminal computes the
    cutoff [now - 0 days] and goes on with the sessions of the subject
    stamped now or later only. *)
Theorem view_front_ends_part_at_zero_days (now : datetime) (w : world)
    (a1 a2 : string) (rest : list string) (fs : string) :
  log w <> [] -> stdin w = a1 :: a2 :: rest ->
  Py.title (Py.strip a1) = fs -> fs <> EmptyString -> fs <> "All"%string ->
  Py.int (Py.strip a2) = Some 0 -> datetime_in_range now ->
  Web.filtered_log (log w) now fs 0
  = Return (List.filter (fun s => String.eqb (subject s) fs) (log w))
  /\ Cli.view_sessions now w
     = (Cli.show (List.filter (fun s => now <=? timestamp s)
                    (List.filter (fun s => String.eqb (subject s) fs) (log w))),
        World (subjects w) (log w) rest).
Proof.
  intros Hne Hin Hfs Hfs_ne Hfs_all Hint Hnow.
  assert (Hall : String.eqb fs "All" = false) by (apply String.eqb_neq; exact Hfs_all).
  split.
  - unfold Web.filtered_log. rewrite Hall. reflexivity.
  - rewrite (view_sessions_filtered now w a1 a2 rest fs 0 Hne Hin Hfs Hfs_ne Hint).
    rewrite (minus_days_zero now Hnow). reflexivity.
Qed.

(** X19 on [study_week] at the clock of the examples, for Maths: the web
    page keeps the two sessions of Maths, the terminal finds no match. *)
Lemma view_front_ends_part_at_zero_days_witness :
  Web.filtered_log study_week sample_now "Maths" 0
  = Return (List.filter (fun s => String.eqb (subject s) "Maths") study_week)
  /\ length (List.filter (fun s => String.eqb (subject s) "Maths") study_week) = 2%nat
  /\ Cli.view_sessions sample_now (World sample_subjects study_week ["maths"; "0"]%string)
     = (Return Cli.NoMatch, World sample_subjects study_week []).
Proof.
  destruct (view_front_ends_part_at_zero_days sample_now
              (World sample_subjects study_week ["maths"; "0"]%string)
              "maths" "0" [] "Maths") as [Hweb Hcli];
    try first [reflexivity | discriminate].
  - vm_compute. split; [discriminate | reflexivity].
  - split; [exact Hweb |]. split; [reflexivity |].
    etransitivity; [exact Hcli | vm_compute; reflexivity].
Defined.

(** ** Subject names at the terminal *)

Lemma letter_cases (c : ascii) :
  Py.is_upper c || Py.is_lower c = true ->
  (Py.is_upper (Py.to_lower c) || Py.is_lower (Py.to_lower c) = true
   /\ Py.to_lower (Py.to_lower c) = Py.to_lower c)
  /\ (Py.is_upper (Py.to_upper c) || Py.is_lower (Py.to_upper c) = true
      /\ Py.to_upper (Py.to_upper c) = Py.to_upper c).
Proof.
  destruct c as [b0 b1 b2 b3 b4 b5 b6 b7].
  destruct b0, b1, b2, b3, b4, b5, b6, b7; vm_compute; intros H;
    first [discriminate H | repeat split].
Qed.

(** [s.title()] leaves a string in title case as it is. *)
Lemma title_from_idempotent (s : string) (after_letter : bool) :
  Py.title_from after_letter (Py.title_from after_letter s) = Py.title_from after_letter s.
Proof.
  revert after_letter. induction s as [| c s IH]; intros after_letter; [reflexivity |].
  cbn [Py.title_from].
  destruct (Py.is_upper c || Py.is_lower c) eqn:Hc; cbn [Py.title_from].
  - destruct (letter_cases c Hc) as [[Hl1 Hl2] [Hu1 Hu2]].
    destruct after_letter.
    + rewrite Hl1, Hl2, IH. reflexivity.
    + rewrite Hu1, Hu2, IH. reflexivity.
  - rewrite Hc, IH. reflexivity.
Qed.

Lemma prompt_subject_title (subjects : subject_store) (lines rest : list string)
    (subj : string) :
  Cli.prompt_subject subjects lines = (Return subj, rest) -> Py.title subj = subj.
Proof.
  revert rest. induction lines as [| l lines IH]; intros rest; simpl; [discriminate |].
  destruct (store_mem (Py.title (Py.strip l)) subjects).
  - intros [= <- _]. apply title_from_idempotent.
  - apply IH.
Qed.

(** X14: a session logged by hand at the terminal is always filed under a
    name in title case (as [str.title] writes it): a subject of the store
    whose name is spelt otherwise, such as one the web page has added as
    typed, cannot be logged this way. *)
Theorem manual_log_session_subject_in_title_case (now : datetime) (w w' : world)
    (entry : session) :
  Cli.manual_log_session now w = (Return entry, w') ->
  Py.title (subject entry) = subject entry
  /\ forall k, Py.title k <> k -> subject entry <> k.
Proof.
  intros Hrun.
  assert (Htitle : Py.title (subject entry) = subject entry).
  { revert Hrun. unfold Cli.manual_log_session, bind, get_subjects, reading.
    destruct (Cli.prompt_subject (subjects w) (stdin w)) as [[subj | e] l1] eqn:Hsubj;
      [| discriminate].
    cbn [subjects log stdin].
    destruct (Cli.prompt_int l1) as [[mins | e] l2]; [| discriminate].
    cbn [subjects log stdin].
    destruct l2 as [| task l3]; [discriminate |]. cbn [input_line subjects log stdin].
    destruct (Cli.prompt_effectiveness l3) as [[eff | e] l4]; [| discriminate].
    cbn [subjects log stdin].
    destruct l4 as [| answer l5]; [discriminate |]. cbn [input_line subjects log stdin].
    destruct (update_confidence_effect subj (Py.strip answer)
                (World (subjects w) (log w) l5)) as (subjects' & Hupd & _).
    rewrite Hupd. unfold append_session, ret. cbn [subjects log stdin].
    intros [= <- _]. cbn [subject]. exact (prompt_subject_title _ _ _ _ Hsubj). }
  split; [exact Htitle |].
  intros k Hk Heq. apply Hk. rewrite <- Heq. exact Htitle.
Qed.

(** X14 on the answer "maths", filed under "Maths". *)
Lemma manual_log_session_subject_in_title_case_witness :
  Py.title (subject maths_essay) = subject maths_essay
  /\ forall k, Py.title k <> k -> subject maths_essay <> k.
Proof.
  apply (manual_log_session_subject_in_title_case sample_now before_maths_essay
           after_maths_essay maths_essay).
  vm_compute. reflexivity.
Defined.

(** ** Setting up the subjects *)

Lemma prompt_confidence_range (lines rest : list string) (conf : Z) :
  Cli.prompt_confidence lines = (Return conf, rest) -> 1 <= conf <= 10.
Proof.
  revert rest. induction lines as [| l lines IH]; intros rest; simpl; [discriminate |].
  destruct (Py.int l) as [n |]; [| apply IH].
  destruct ((1 <=? n) && (n <=? 10)) eqn:Hn; [| apply IH].
  intros [= <- _]. apply andb_true_iff in Hn as [H1 H2]. lia.
Qed.

Lemma prompt_confidence_raises (lines rest : list string) (e : exn) :
  Cli.prompt_confidence lines = (Raise e, rest) -> e = EOFError.
Proof.
  revert rest. induction lines as [| l lines IH]; intros rest; simpl.
  - intros [= <- _]. reflexivity.
  - destruct (Py.int l) as [n |]; [| apply IH].
    destruct ((1 <=? n) && (n <=? 10)); [discriminate | apply IH].
Qed.

Lemma prompt_exam_date_raises (strptime : string -> option date)
    (lines rest : list string) (e : exn) :
  Cli.prompt_exam_date strptime lines = (Raise e, rest) -> e = EOFError.
Proof.
  revert rest. induction lines as [| l lines IH]; intros rest; simpl.
  - intros [= <- _]. reflexivity.
  - destruct (strptime l); [discriminate | apply IH].
Qed.

Lemma store_set_keys (subj : string) (c : Z) (d : date) (subjects : subject_store) :
  map fst (store_set_exam_date subj d (store_set_confidence subj c subjects))
  = map fst subjects.
Proof.
  unfold store_set_exam_date, store_set_confidence. rewrite !map_map.
  apply map_ext. intros [k data]. cbn [fst snd].
  destruct (String.eqb k subj) eqn:Hk; cbn [fst snd]; [| rewrite Hk]; try rewrite Hk;
    reflexivity.
Qed.

Lemma store_set_elem (subj : string) (c : Z) (d : date) (subjects : subject_store)
    (k : string) (data : subject_data) :
  (k, data) ∈ store_set_exam_date subj d (store_set_confidence subj c subjects) ->
  (k = subj /\ data = SubjectData (Some c) (Some d))
  \/ (k <> subj /\ (k, data) ∈ subjects).
Proof.
  unfold store_set_exam_date, store_set_confidence. rewrite map_map.
  intros Hin. apply list_elem_of_fmap in Hin as ([k0 data0] & Heq & Hin0).
  cbn [fst snd] in Heq.
  destruct (String.eqb k0 subj) eqn:Hk; cbn [fst snd] in Heq.
  - rewrite Hk in Heq. cbn [fst snd confidence exam_date] in Heq.
    injection Heq as -> ->. left. apply String.eqb_eq in Hk. auto.
  - rewrite Hk in Heq. injection Heq as -> ->. right.
    apply String.eqb_neq in Hk. auto.
Qed.

(** The loop of [setup_subjects]: it can only fail for want of input; when
    it ends, every subject it went through has a confidence from 1 to 10 and
    an exam date, and the others are as they were. *)
Lemma setup_loop_effect (strptime : string -> option date) (keys : list string)
    (w : world) (r : result unit) (w' : world) :
  Cli.setup_loop strptime keys w = (r, w') ->
  log w' = log w /\ map fst (subjects w') = map fst (subjects w)
  /\ match r with
     | Raise e => e = EOFError
     | Return _ =>
         forall k data, (k, data) ∈ subjects w' ->
           (k ∈ keys /\ (exists c d, data = SubjectData (Some c) (Some d) /\ 1 <= c <= 10))
           \/ ((k ∉ keys) /\ (k, data) ∈ subjects w)
     end.
Proof.
  revert w. induction keys as [| subj keys IH]; intros w; cbn [Cli.setup_loop].
  - intros [= <- <-]. split; [reflexivity |]. split; [reflexivity |].
    intros k data Hin. right. split; [apply not_elem_of_nil | exact Hin].
  - unfold bind, reading, set_confidence, set_exam_date.
    destruct (Cli.prompt_confidence (stdin w)) as [[c | e] l1] eqn:Hc.
    2: { intros [= <- <-]. cbn [subjects log]. split; [reflexivity |].
         split; [reflexivity | exact (prompt_confidence_raises _ _ _ Hc)]. }
    cbn [subjects log stdin].
    destruct (Cli.prompt_exam_date strptime l1) as [[d | e] l2] eqn:Hd.
    2: { intros [= <- <-]. cbn [subjects log]. split; [reflexivity |].
         split; [| exact (prompt_exam_date_raises _ _ _ _ Hd)].
         unfold store_set_confidence. rewrite map_map. apply map_ext.
         intros [k data]. cbn [fst snd]. destruct (String.eqb k subj); reflexivity. }
    cbn [subjects log stdin].
    intros Hrun. apply IH in Hrun as (Hlog & Hkeys & Hres). cbn [subjects log stdin] in *.
    split; [exact Hlog |].
    split; [rewrite Hkeys; apply store_set_keys |].
    destruct r as [[] | e]; [| exact Hres].
    intros k data Hin. destruct (Hres k data Hin) as [[Hk Hdata] | [Hk Hold]].
    + left. split; [apply list_elem_of_further; exact Hk | exact Hdata].
    + apply store_set_elem in Hold as [[-> ->] | [Hne Hold]].
      * left. split; [apply list_elem_of_here |].
        exists c, d. split; [reflexivity | exact (prompt_confidence_range _ _ _ Hc)].
      * right. split; [| exact Hold].
        intros Hmem. apply elem_of_cons in Hmem as [-> | Hmem]; contradiction.
Qed.

(** X15: [setup_subjects] never returns. Either the input runs out
    ([EOFError]), or the loop is completed, after which every subject has a
    confidence from 1 to 10 and an exam date, and the call of
    [save_subjects] without its argument raises [TypeError]. In both cases
    the names of the store and the log are as they were. *)
Theorem setup_subjects_never_returns (strptime : string -> option date)
    (w w' : world) (r : result subject_store) :
  Cli.setup_subjects strptime w = (r, w') ->
  log w' = log w /\ map fst (subjects w') = map fst (subjects w)
  /\ (r = Raise EOFError
      \/ (r = Raise TypeError
          /\ all_configured (subjects w') = true
          /\ confidences_in_range (subjects w'))).
Proof.
  unfold Cli.setup_subjects, bind, get_subjects.
  destruct (Cli.setup_loop strptime (map fst (subjects w)) w) as [[[] | e] w1] eqn:Hloop;
    apply setup_loop_effect in Hloop as (Hlog & Hkeys & Hres); intros [= <- <-].
  - split; [exact Hlog |]. split; [exact Hkeys |]. right. split; [reflexivity |].
    assert (Hset : forall k data, (k, data) ∈ subjects w1 ->
              exists c d, data = SubjectData (Some c) (Some d) /\ 1 <= c <= 10).
    { intros k data Hin. destruct (Hres k data Hin) as [[_ Hdata] | [Hk _]];
        [exact Hdata |].
      exfalso. apply Hk. rewrite <- Hkeys.
      apply list_elem_of_fmap. exists (k, data). split; [reflexivity | exact Hin]. }
    split.
    + apply all_configured_true. intros k data Hin.
      destruct (Hset k data Hin) as (c & d & -> & Hc).
      apply configured_true. exists c, d. repeat split; lia.
    + intros k data c Hin Hconf. destruct (Hset k data Hin) as (c' & d & -> & Hc).
      cbn [confidence] in Hconf. injection Hconf as <-. exact Hc.
  - subst e. split; [exact Hlog |]. split; [exact Hkeys |]. left. reflexivity.
Qed.

(** X15 on the default subjects with [strptime] as [Calendar.strptime_dmy]:
    the four subjects are set and the run ends in [TypeError]. *)
Lemma setup_subjects_never_returns_witness :
  log after_setup = log before_setup
  /\ map fst (subjects after_setup) = map fst (subjects before_setup)
  /\ (@Raise subject_store TypeError = Raise EOFError
      \/ (@Raise subject_store TypeError = Raise TypeError
          /\ all_configured (subjects after_setup) = true
          /\ confidences_in_range (subjects after_setup))).
Proof.
  apply (setup_subjects_never_returns Calendar.strptime_dmy before_setup after_setup
           (Raise TypeError)).
  vm_compute. reflexivity.
Defined.

(** ** Adding and deleting subjects on the Settings page *)

Lemma store_mem_elem (subj : string) (subjects : subject_store) :
  store_mem subj subjects = true <-> exists data, (subj, data) ∈ subjects.
Proof.
  unfold store_mem. rewrite existsb_exists. split.
  - intros ([k data] & Hin & Hk). cbn [fst] in Hk. apply String.eqb_eq in Hk as ->.
    exists data. apply list_elem_of_In. exact Hin.
  - intros (data & Hin). exists (subj, data). split; [apply list_elem_of_In; exact Hin |].
    apply String.eqb_refl.
Qed.


Lemma store_delete_absent (subj : string) (subjects : subject_store) :
  store_mem subj subjects = false -> store_delete subj subjects = subjects.
Proof.
  unfold store_mem, store_delete. induction subjects as [| [k data] rest IH];
    [reflexivity |].
  cbn [existsb List.filter fst]. intros H. apply orb_false_iff in H as [Hk Hrest].
  rewrite Hk. cbn [negb]. rewrite (IH Hrest). reflexivity.
Qed.


(** X17: deleting a subject on the Settings page removes that name and
    nothing else: the other subjects keep their data and their order, the
    guard of Instant Mode and the range of the confidences are kept, and
    deleting a subject that was just added gives back the store from before
    it was added. *)
Theorem delete_subject_removes_only_it (subj : string) (subjects : subject_store) :
  store_mem subj (Web.delete_subject subj subjects) = false
  /\ sublist (Web.delete_subject subj subjects) subjects
  /\ (forall k data, k <> subj ->
        ((k, data) ∈ Web.delete_subject subj subjects <-> (k, data) ∈ subjects))
  /\ (all_configured subjects = true ->
      all_configured (Web.delete_subject subj subjects) = true)
  /\ (confidences_in_range subjects ->
      confidences_in_range (Web.delete_subject subj subjects))
  /\ (forall today, store_mem subj subjects = false ->
        Web.delete_subject subj (Web.add_subject today subj subjects) = subjects).
Proof.
  unfold Web.delete_subject.
  assert (Helem : forall k data,
            (k, data) ∈ store_delete subj subjects <-> (k, data) ∈ subjects /\ k <> subj).
  { intros k data. unfold store_delete. rewrite list_filter_elem. cbn [fst].
    rewrite negb_true_iff, String.eqb_neq. reflexivity. }
  split.
  { destruct (store_mem subj (store_delete subj subjects)) eqn:Hmem; [| reflexivity].
    apply store_mem_elem in Hmem as (data & Hin). apply Helem in Hin as [_ Hne].
    contradiction. }
  split; [apply list_filter_sublist |].
  split.
  { intros k data Hk. rewrite Helem. split; [intros [H _]; exact H | auto]. }
  split.
  { rewrite !all_configured_true. intros Hconf k data Hin.
    apply Helem in Hin as [Hin _]. exact (Hconf k data Hin). }
  split.
  { intros Hrange k data c Hin Hc. apply Helem in Hin as [Hin _].
    exact (Hrange k data c Hin Hc). }
  intros today Hmem. unfold Web.add_subject.
  destruct (decide (subj = EmptyString)) as [_ | _];
    [apply store_delete_absent; exact Hmem |].
  rewrite Hmem. unfold store_delete. rewrite List.filter_app.
  cbn [List.filter fst]. rewrite String.eqb_refl. cbn [negb]. rewrite app_nil_r.
  apply store_delete_absent. exact Hmem.
Qed.

(** ** The two front ends on the same store and log *)



